(** * fk-files: the terminal file manager (src/fk-files.py), shallow embedding

    The curses application [FkFiles] is modelled by explicit state passing:
    the object's attributes are the record [FkFiles], the operating system is
    an interface ([OS], a type class over an abstract world), the terminal is
    a queue of pending key codes and mouse events.  Python's exceptions that
    reach the caller are the [Raised] outcome; the ones the source catches
    are turned into messages exactly where the source does it.

    Modelling conventions:
    - Python [str] values are [string]s, one character of the [str] per
      character of the [string].  [str.lower] belongs to the Python
      runtime and is taken as it is ([PyStr]): all that is known of it is
      that it folds A..Z on ASCII text.  [str.split] is used on the
      command buffer only, which holds the codes 32..126.
    - Signals are outside the model: the statements are about runs in
      which no interrupt (Ctrl-C) arrives and standard input is not
      closed under the pager of [view_file].
    - Python [int] is [Z]; list indices follow Python (negative indices count
      from the end, out of range raises [IndexError]).
    - Time stamps ([time.time()], [st_mtime]) are [Z] ticks.
    - Reading calls ([os.listdir], [os.stat], [os.path.isdir], ...) observe
      the world and leave it as it is. *)

From Stdlib Require Import ZArith List String Ascii Bool Lia.
From Stdlib Require Import Sorted Permutation DecimalString.
Import ListNotations.

Local Open Scope Z_scope.

Notation "a +++ b" := (String.append a b)
  (at level 60, right associativity) : string_scope.

(* ================================================================= *)
(** ** Python built-ins used by the program *)

Module Py.

Definition ord (c : ascii) : Z := Z.of_N (N_of_ascii c).
Definition chr (k : Z) : ascii := ascii_of_N (Z.to_N k).

(** [c.lower()] on one ASCII character: only A..Z change. *)
Definition lower_char (c : ascii) : ascii :=
  if (65 <=? ord c) && (ord c <=? 90) then chr (ord c + 32) else c.

Fixpoint lower (s : string) : string :=
  match s with
  | EmptyString => EmptyString
  | String c s' => String (lower_char c) (lower s')
  end.

(** [s.isascii()] *)
Fixpoint is_ascii (s : string) : bool :=
  match s with
  | EmptyString => true
  | String c s' => (ord c <? 128) && is_ascii s'
  end.

(** [s.startswith(p)] *)
Definition startswith (s p : string) : bool := String.prefix p s.

(** [s.endswith("/")] *)
Fixpoint ends_with_slash (s : string) : bool :=
  match s with
  | EmptyString => false
  | String c EmptyString => Ascii.eqb c "/"
  | String _ s' => ends_with_slash s'
  end.

(** [p in s]: [p] occurs in [s] as a contiguous substring. *)
Fixpoint contains (s p : string) : bool :=
  String.prefix p s ||
  match s with
  | EmptyString => false
  | String _ s' => contains s' p
  end.

(** [s[1:]] *)
Definition drop_first (s : string) : string :=
  match s with
  | EmptyString => EmptyString
  | String _ s' => s'
  end.

(** [s[:-1]] *)
Fixpoint drop_last (s : string) : string :=
  match s with
  | EmptyString => EmptyString
  | String _ EmptyString => EmptyString
  | String c s' => String c (drop_last s')
  end.

(** White space as [str.split()] sees it, on 8-bit characters. *)
Definition is_space (c : ascii) : bool :=
  let k := ord c in
  ((9 <=? k) && (k <=? 13)) || ((28 <=? k) && (k <=? 32)).

(** [s.split()]: maximal runs of non-blank characters. *)
Fixpoint split_go (s cur : string) : list string :=
  match s with
  | EmptyString => if String.eqb cur "" then [] else [cur]
  | String c s' =>
      if is_space c
      then (if String.eqb cur "" then split_go s' "" else cur :: split_go s' "")
      else split_go s' (cur +++ String c "")
  end.

Definition split (s : string) : list string := split_go s "".

(** [s.split("/")] *)
Fixpoint split_slash_go (s cur : string) : list string :=
  match s with
  | EmptyString => [cur]
  | String c s' =>
      if Ascii.eqb c "/"
      then cur :: split_slash_go s' ""
      else split_slash_go s' (cur +++ String c "")
  end.

Definition split_slash (s : string) : list string := split_slash_go s "".

(** [sep.join(l)] *)
Definition join (sep : string) (l : list string) : string :=
  String.concat sep l.

(** [str(n)] for a length. *)
Definition str_of_nat (n : nat) : string :=
  NilZero.string_of_uint (Nat.to_uint n).

(** [len(l)] as a Python integer. *)
Definition len {A} (l : list A) : Z := Z.of_nat (List.length l).

(** [l[i]]: [None] stands for [IndexError]. *)
Definition index {A} (l : list A) (i : Z) : option A :=
  if (0 <=? i) && (i <? len l) then nth_error l (Z.to_nat i)
  else if (- len l <=? i) && (i <? 0) then nth_error l (Z.to_nat (len l + i))
  else None.

(** [l[1:]] and [l[:1]] *)
Definition from_1 {A} (l : list A) : list A := skipn 1 l.
Definition upto_1 {A} (l : list A) : list A := firstn 1 l.

End Py.

(* ================================================================= *)
(** ** posixpath: [os.path.join], [basename], [normpath], [abspath] *)

Module PosixPath.

(** [os.path.join(a, b)] *)
Definition join (a b : string) : string :=
  if Py.startswith b "/" then b
  else if String.eqb a "" || Py.ends_with_slash a then a +++ b
  else a +++ "/" +++ b.

(** [os.path.basename(p)]: what follows the last slash. *)
Fixpoint basename_go (p cur : string) : string :=
  match p with
  | EmptyString => cur
  | String c p' =>
      if Ascii.eqb c "/" then basename_go p' ""
      else basename_go p' (cur +++ String c "")
  end.

Definition basename (p : string) : string := basename_go p "".

(** [os.path.dirname(p)]: the head up to the last slash, trailing slashes
    removed unless the head is made of slashes only. *)
Fixpoint all_slashes (s : string) : bool :=
  match s with
  | EmptyString => true
  | String c s' => Ascii.eqb c "/" && all_slashes s'
  end.

Fixpoint rstrip_slashes (s : string) : string :=
  match s with
  | EmptyString => EmptyString
  | String c s' =>
      if all_slashes (String c s') then EmptyString
      else String c (rstrip_slashes s')
  end.

(** [p[:p.rfind("/")+1]] *)
Fixpoint head_go (p : string) : string :=
  match p with
  | EmptyString => EmptyString
  | String c p' =>
      if Py.contains (String c p') "/" then String c (head_go p')
      else EmptyString
  end.

Definition dirname (p : string) : string :=
  let head := head_go p in
  if negb (String.eqb head "") && negb (all_slashes head)
  then rstrip_slashes head else head.

(** One step of the component loop of [normpath]; [stack] is [new_comps]
    with its last element first. *)
Definition norm_step (initial_slashes : nat) (stack : list string)
           (comp : string) : list string :=
  if String.eqb comp "" || String.eqb comp "." then stack
  else if negb (String.eqb comp "..")
          || (Nat.eqb initial_slashes 0 && match stack with [] => true | _ => false end)
          || match stack with top :: _ => String.eqb top ".." | [] => false end
  then comp :: stack
  else match stack with
       | _ :: rest => rest
       | [] => stack
       end.

Fixpoint slashes (n : nat) : string :=
  match n with
  | O => EmptyString
  | S n' => String "/" (slashes n')
  end.

(** [os.path.normpath(path)] *)
Definition normpath (path : string) : string :=
  if String.eqb path "" then "."%string
  else
    let initial_slashes :=
      if Py.startswith path "/"
      then (if Py.startswith path "//" && negb (Py.startswith path "///")
            then 2%nat else 1%nat)
      else 0%nat in
    let comps := Py.split_slash path in
    let new_comps := rev (fold_left (norm_step initial_slashes) comps []) in
    let p := (slashes initial_slashes +++ Py.join "/" new_comps)%string in
    if String.eqb p "" then "."%string else p.

End PosixPath.

(* ================================================================= *)
(** ** [str.lower]

    The program calls [str.lower] on file names and search patterns.
    It is an operation of the runtime with tables of its own; the model
    takes it as a parameter and knows only what it does to ASCII text,
    where it is [Py.lower]. *)

Class PyStr := {
  str_lower : string -> string;
  str_lower_ascii :
    forall s, Py.is_ascii s = true -> str_lower s = Py.lower s
}.

(* ================================================================= *)
(** ** Data model *)

(** One element of [self.files] (a dict with these six keys). *)
Record Entry := mkEntry {
  name : string;
  is_dir : bool;
  size : Z;
  mtime : Z;
  mode : string;
  full_path : string
}.

(** The fields of [os.stat_result] the program reads. *)
Record stat_result := mkStat {
  st_size : Z;
  st_mtime : Z;
  st_mode : Z
}.

(** The attributes of a [FkFiles] object ([stdscr] is the terminal below;
    [color] is the number of the colour pair). *)
Record FkFiles := mkFkFiles {
  current_path : string;
  files : list Entry;
  selected_idx : Z;
  top_idx : Z;
  command_mode : bool;
  command : string;
  message : string;
  message_time : Z;
  color : Z;
  show_hidden : bool;
  clipboard : list string;
  clipboard_is_cut : bool;
  panel_width : Z
}.

(** Attribute assignments. *)
Definition set_current_path (v : string) (a : FkFiles) : FkFiles :=
  mkFkFiles v (files a) (selected_idx a) (top_idx a) (command_mode a)
    (command a) (message a) (message_time a) (color a) (show_hidden a)
    (clipboard a) (clipboard_is_cut a) (panel_width a).

Definition set_files (v : list Entry) (a : FkFiles) : FkFiles :=
  mkFkFiles (current_path a) v (selected_idx a) (top_idx a) (command_mode a)
    (command a) (message a) (message_time a) (color a) (show_hidden a)
    (clipboard a) (clipboard_is_cut a) (panel_width a).

Definition set_selected_idx (v : Z) (a : FkFiles) : FkFiles :=
  mkFkFiles (current_path a) (files a) v (top_idx a) (command_mode a)
    (command a) (message a) (message_time a) (color a) (show_hidden a)
    (clipboard a) (clipboard_is_cut a) (panel_width a).

Definition set_top_idx (v : Z) (a : FkFiles) : FkFiles :=
  mkFkFiles (current_path a) (files a) (selected_idx a) v (command_mode a)
    (command a) (message a) (message_time a) (color a) (show_hidden a)
    (clipboard a) (clipboard_is_cut a) (panel_width a).

Definition set_command_mode (v : bool) (a : FkFiles) : FkFiles :=
  mkFkFiles (current_path a) (files a) (selected_idx a) (top_idx a) v
    (command a) (message a) (message_time a) (color a) (show_hidden a)
    (clipboard a) (clipboard_is_cut a) (panel_width a).

Definition set_command (v : string) (a : FkFiles) : FkFiles :=
  mkFkFiles (current_path a) (files a) (selected_idx a) (top_idx a)
    (command_mode a) v (message a) (message_time a) (color a) (show_hidden a)
    (clipboard a) (clipboard_is_cut a) (panel_width a).

Definition set_show_hidden (v : bool) (a : FkFiles) : FkFiles :=
  mkFkFiles (current_path a) (files a) (selected_idx a) (top_idx a)
    (command_mode a) (command a) (message a) (message_time a) (color a) v
    (clipboard a) (clipboard_is_cut a) (panel_width a).

Definition set_clipboard (v : list string) (a : FkFiles) : FkFiles :=
  mkFkFiles (current_path a) (files a) (selected_idx a) (top_idx a)
    (command_mode a) (command a) (message a) (message_time a) (color a)
    (show_hidden a) v (clipboard_is_cut a) (panel_width a).

Definition set_clipboard_is_cut (v : bool) (a : FkFiles) : FkFiles :=
  mkFkFiles (current_path a) (files a) (selected_idx a) (top_idx a)
    (command_mode a) (command a) (message a) (message_time a) (color a)
    (show_hidden a) (clipboard a) v (panel_width a).

(** Exceptions that leave a method. *)
Inductive exn := IndexError | KeyboardInterrupt.

(** What a call does: return, raise, or wait for input that never comes. *)
Inductive Outcome (A : Type) :=
| Done (a : A)
| Raised (e : exn)
| Blocked.
Arguments Done {A} a.
Arguments Raised {A} e.
Arguments Blocked {A}.

(** The result of an operating-system call: a value, or an [OSError]
    (for a subprocess, a [CalledProcessError]) carrying its [str(e)]. *)
Inductive oscall (A : Type) :=
| Returns (a : A)
| Raises (msg : string).
Arguments Returns {A} a.
Arguments Raises {A} msg.

(* ================================================================= *)
(** ** The operating system, as the program sees it *)

Class OS (W : Type) := {
  os_getcwd : W -> oscall string;
  os_listdir : W -> string -> oscall (list string);
  os_stat : W -> string -> oscall stat_result;
  os_path_isdir : W -> string -> bool;
  os_path_isfile : W -> string -> bool;
  os_rmdir : W -> string -> oscall W;
  os_unlink : W -> string -> oscall W;
  os_rename : W -> string -> string -> oscall W;
  (** [os.makedirs] and the subprocesses may fail half-way: they return
      the world they leave behind and the error, if any. *)
  os_makedirs : W -> string -> option string * W;
  (** [subprocess.run(["cp", "-r"?, src, dst], check=True)] *)
  run_cp : W -> bool -> string -> string -> option string * W;
  (** [subprocess.run(["xdg-open", path], check=True)] *)
  run_opener : W -> string -> option string * W;
  (** the pager of [view_file]: read, print, wait for Enter *)
  show_file : W -> string -> W;
  time_time : W -> Z
}.

(** The terminal: pending key codes for [getch], pending mouse events for
    [curses.getmouse], and its size. *)
Record MouseEvent := mkMouse { mouse_x : Z; mouse_y : Z; bstate : Z }.

Record Terminal := mkTerminal {
  keys : list Z;
  mouse : list MouseEvent;
  LINES : Z;
  max_y : Z;
  max_x : Z
}.

Definition set_keys (v : list Z) (t : Terminal) : Terminal :=
  mkTerminal v (mouse t) (LINES t) (max_y t) (max_x t).

(** [stdscr.getch()]: [None] when no key is pending (the call blocks). *)
Definition getch (t : Terminal) : option (Z * Terminal) :=
  match keys t with
  | [] => None
  | k :: rest => Some (k, set_keys rest t)
  end.

(** [curses.getmouse()]: [None] is [curses.error] (no event pending). *)
Definition getmouse (t : Terminal) : option (MouseEvent * Terminal) :=
  match mouse t with
  | [] => None
  | m :: rest => Some (m, mkTerminal (keys t) rest (LINES t) (max_y t) (max_x t))
  end.

(** curses key codes and mouse masks (ncurses 6). *)
Definition KEY_MOUSE : Z := 409.
Definition KEY_DOWN : Z := 258.
Definition KEY_UP : Z := 259.
Definition KEY_BACKSPACE : Z := 263.
Definition BUTTON1_CLICKED : Z := 4.
Definition BUTTON1_DOUBLE_CLICKED : Z := 8.
Definition BUTTON3_CLICKED : Z := 4096.

(** The whole running system. *)
Record Sys (W : Type) := mkSys {
  world : W;
  term : Terminal;
  app : FkFiles
}.
Arguments mkSys {W} world term app.
Arguments world {W} s.
Arguments term {W} s.
Arguments app {W} s.

(* ================================================================= *)
(** ** The methods of [FkFiles] *)

Local Open Scope string_scope.
Local Open Scope Z_scope.
Local Open Scope list_scope.

(** [get_mode_str]: the ten-character permission string, for a mode as
    [os.stat] gives it ([0 <= m < 2^32]; beyond that range [stat.S_ISDIR]
    raises [OverflowError], which is not modelled). *)
Definition mode_map : list (Z * ascii) :=
  [ (256, "r"%char); (128, "w"%char); (64, "x"%char);
    (32, "r"%char); (16, "w"%char); (8, "x"%char);
    (4, "r"%char); (2, "w"%char); (1, "x"%char) ].

Definition S_ISDIR (m : Z) : bool := Z.land m 61440 =? 16384.

Definition get_mode_str (m : Z) : string :=
  let perms :=
    map (fun pc : Z * ascii =>
           if negb (Z.land m (fst pc) =? 0) then snd pc else "-"%char)
        mode_map in
  String (if S_ISDIR m then "d"%char else "-"%char)
         (string_of_list_ascii perms).

(** The sort key of [refresh_files]: [(not x['is_dir'], x['name'].lower())],
    compared as Python compares tuples. *)
Definition sort_key `{PyStr} (e : Entry) : bool * string :=
  (negb (is_dir e), str_lower (name e)).

Definition key_lt (k1 k2 : bool * string) : bool :=
  (negb (fst k1) && fst k2)
  || (Bool.eqb (fst k1) (fst k2) && String.ltb (snd k1) (snd k2)).

(** [sorted(l, key=...)]: Python's sort is stable, so its result is the
    one of this insertion sort: an element moves in front of another only
    when its key is strictly smaller. *)
Fixpoint insert_by_key `{PyStr} (x : Entry) (l : list Entry) : list Entry :=
  match l with
  | [] => [x]
  | y :: l' =>
      if key_lt (sort_key y) (sort_key x) then y :: insert_by_key x l'
      else x :: y :: l'
  end.

Definition sorted `{PyStr} (l : list Entry) : list Entry :=
  fold_right insert_by_key [] l.

(** The synthetic parent entry. *)
Definition parent_entry (cur : string) : Entry :=
  mkEntry ".." true 0 0 "" (PosixPath.join cur "..").

Section Methods.

Context {W : Type} `{OS W} `{PyStr}.

(** [show_message(msg, is_error)] *)
Definition show_message (w : W) (msg : string) (is_error : bool)
           (a : FkFiles) : FkFiles :=
  mkFkFiles (current_path a) (files a) (selected_idx a) (top_idx a)
    (command_mode a) (command a) msg (time_time w)
    (if is_error then 4 else 5) (show_hidden a)
    (clipboard a) (clipboard_is_cut a) (panel_width a).

(** The body of the [for entry in os.listdir(...)] loop: the entries it
    appends, in the order of the listing. *)
Fixpoint scan_entries (w : W) (cur : string) (hidden : bool)
         (names : list string) : list Entry :=
  match names with
  | [] => []
  | entry :: rest =>
      if negb hidden && Py.startswith entry "."
      then scan_entries w cur hidden rest
      else
        let fp := PosixPath.join cur entry in
        match os_stat w fp with
        | Returns si =>
            mkEntry entry (os_path_isdir w fp) (st_size si) (st_mtime si)
                    (get_mode_str (st_mode si)) fp
              :: scan_entries w cur hidden rest
        | Raises _ => scan_entries w cur hidden rest
        end
  end.

(** [refresh_files] *)
Definition refresh_files (w : W) (a : FkFiles) : FkFiles :=
  let start :=
    if negb (String.eqb (current_path a) "/")
    then [parent_entry (current_path a)] else [] in
  match os_listdir w (current_path a) with
  | Returns names =>
      let fl := start ++ scan_entries w (current_path a) (show_hidden a) names in
      set_files (Py.upto_1 fl ++ sorted (Py.from_1 fl)) a
  | Raises e =>
      show_message w ("Error: " +++ e) true (set_files start a)
  end.

(** [os.path.abspath(path)] *)
Definition abspath (w : W) (path : string) : oscall string :=
  if Py.startswith path "/" then Returns (PosixPath.normpath path)
  else match os_getcwd w with
       | Returns cwd => Returns (PosixPath.normpath (PosixPath.join cwd path))
       | Raises e => Raises e
       end.

(** [navigate_to(path)] *)
Definition navigate_to (w : W) (path : string) (a : FkFiles) : FkFiles :=
  match abspath w path with
  | Returns p =>
      refresh_files w
        (set_top_idx 0 (set_selected_idx 0 (set_current_path p a)))
  | Raises e => show_message w ("Error: " +++ e) true a
  end.

(** [open_file(file_path)] (the returned flag is never read). *)
Definition open_file (w : W) (file_path : string) (a : FkFiles)
  : W * FkFiles :=
  if os_path_isdir w file_path then (w, navigate_to w file_path a)
  else match run_opener w file_path with
       | (None, w') => (w', a)
       | (Some e, w') => (w', show_message w' ("Error: " +++ e) true a)
       end.

(** [delete_file()] *)
Definition delete_file (w : W) (a : FkFiles) : Outcome (W * FkFiles) :=
  if selected_idx a >=? Py.len (files a) then Done (w, a)
  else
    match Py.index (files a) (selected_idx a) with
    | None => Raised IndexError
    | Some file =>
        if String.eqb (name file) ".." then Done (w, a)
        else
          let finish (w' : W) (msg : string) :=
            let a1 := refresh_files w' (show_message w' msg false a) in
            Done (w', set_selected_idx
                        (Z.min (selected_idx a1) (Py.len (files a1) - 1)) a1) in
          let failed (e : string) :=
            Done (w, show_message w ("Error: " +++ e) true a) in
          if is_dir file then
            match os_listdir w (full_path file) with
            | Raises e => failed e
            | Returns l =>
                if Py.len l =? 0 then
                  match os_rmdir w (full_path file) with
                  | Returns w' => finish w' ("Directory deleted: " +++ name file)
                  | Raises e => failed e
                  end
                else Done (w, show_message w "Directory not empty!" true a)
            end
          else
            match os_unlink w (full_path file) with
            | Returns w' => finish w' ("File deleted: " +++ name file)
            | Raises e => failed e
            end
    end.

(** [copy_file()] and [cut_file()] *)
Definition copy_file (w : W) (a : FkFiles) : Outcome FkFiles :=
  if selected_idx a <? Py.len (files a) then
    match Py.index (files a) (selected_idx a) with
    | None => Raised IndexError
    | Some file =>
        Done (show_message w "Copied to clipboard" false
                (set_clipboard_is_cut false
                   (set_clipboard [full_path file] a)))
    end
  else Done a.

Definition cut_file (w : W) (a : FkFiles) : Outcome FkFiles :=
  if selected_idx a <? Py.len (files a) then
    match Py.index (files a) (selected_idx a) with
    | None => Raised IndexError
    | Some file =>
        Done (show_message w "Cut to clipboard" false
                (set_clipboard_is_cut true
                   (set_clipboard [full_path file] a)))
    end
  else Done a.

(** One turn of the loop of [paste_files]: the [try] block and its
    [except Exception]. *)
Definition paste_one (src_path : string) (wa : W * FkFiles) : W * FkFiles :=
  let (w, a) := wa in
  let base := PosixPath.basename src_path in
  let dst_path := PosixPath.join (current_path a) base in
  if clipboard_is_cut a then
    match os_rename w src_path dst_path with
    | Returns w' => (w', show_message w' ("Moved: " +++ base) false a)
    | Raises e => (w, show_message w ("Error: " +++ e) true a)
    end
  else
    match run_cp w (os_path_isdir w src_path) src_path dst_path with
    | (None, w') => (w', show_message w' ("Copied: " +++ base) false a)
    | (Some e, w') => (w', show_message w' ("Error: " +++ e) true a)
    end.

(** [paste_files()] *)
Definition paste_files (w : W) (a : FkFiles) : W * FkFiles :=
  match clipboard a with
  | [] => (w, show_message w "Clipboard is empty" true a)
  | _ =>
      let (w', a') := fold_left (fun wa src => paste_one src wa)
                                (clipboard a) (w, a) in
      (w', refresh_files w' (set_clipboard [] a'))
  end.

(** [rename_file(new_name)] *)
Definition rename_file (w : W) (new_name : string) (a : FkFiles)
  : Outcome (W * FkFiles) :=
  if selected_idx a >=? Py.len (files a) then Done (w, a)
  else
    match Py.index (files a) (selected_idx a) with
    | None => Raised IndexError
    | Some file =>
        if String.eqb (name file) ".." then Done (w, a)
        else
          let old_path := full_path file in
          let new_path := PosixPath.join (current_path a) new_name in
          match os_rename w old_path new_path with
          | Returns w' =>
              Done (w', show_message w' ("Renamed to: " +++ new_name) false
                          (refresh_files w' a))
          | Raises e => Done (w, show_message w ("Error: " +++ e) true a)
          end
    end.

(** [create_directory(dir_name)] *)
Definition create_directory (w : W) (dir_name : string) (a : FkFiles)
  : W * FkFiles :=
  match os_makedirs w (PosixPath.join (current_path a) dir_name) with
  | (None, w') =>
      (w', show_message w' ("Directory created: " +++ dir_name) false
             (refresh_files w' a))
  | (Some e, w') => (w', show_message w' ("Error: " +++ e) true a)
  end.

(** The loop of [search_file]: indices of the entries whose lowered name
    contains the (lowered) pattern, stopping at the fifth. *)
Fixpoint search_loop (pattern : string) (fl : list Entry) (idx : Z)
         (found : nat) : list Z :=
  match fl with
  | [] => []
  | file :: rest =>
      if Py.contains (str_lower (name file)) pattern then
        if (5 <=? S found)%nat then [idx]
        else idx :: search_loop pattern rest (idx + 1) (S found)
      else search_loop pattern rest (idx + 1) found
  end.

(** [search_file(pattern)] *)
Definition search_file (w : W) (pattern : string) (a : FkFiles) : FkFiles :=
  let matches := search_loop (str_lower pattern) (files a) 0 0 in
  match matches with
  | first :: _ =>
      let a1 := set_selected_idx first a in
      let a2 := set_top_idx (Z.max 0 (selected_idx a1 - 2)) a1 in
      show_message w
        ("Found " +++ Py.str_of_nat (List.length matches) +++ " matches")
        false a2
  | [] => show_message w "No matches found" true a
  end.

(** [view_file(file_path)]; the pager ([open], [print], [input]) is the
    operating system's [show_file]. *)
Definition view_file (w : W) (file_path : string) (a : FkFiles)
  : W * FkFiles :=
  if negb (os_path_isfile w file_path)
  then (w, show_message w "Not a file" true a)
  else (show_file w file_path, a).

End Methods.

(* ================================================================= *)
(** ** Commands, mouse and keyboard *)

Section Dispatch.

Context {W : Type} `{OS W} `{PyStr}.

(** [show_about()] and [show_help()] draw a page and wait for one key. *)
Definition wait_key (s : Sys W) : Outcome (Sys W) :=
  match getch (term s) with
  | None => Blocked
  | Some (_, t') => Done (mkSys (world s) t' (app s))
  end.

Definition show_about := wait_key.
Definition show_help := wait_key.

Definition with_app (s : Sys W) (a : FkFiles) : Sys W :=
  mkSys (world s) (term s) a.

Definition with_world_app (s : Sys W) (wa : W * FkFiles) : Sys W :=
  mkSys (fst wa) (term s) (snd wa).

(** [execute_command()] *)
Definition execute_command (s : Sys W) : Outcome (Sys W) :=
  let w := world s in
  let a := app s in
  if Py.startswith (command a) "/" then
    Done (with_app s (search_file w (Py.drop_first (command a)) a))
  else
    match Py.split (command a) with
    | [] => Done s
    | cmd :: args =>
        let has_args := match args with [] => false | _ => true end in
        if String.eqb cmd "q" then Raised KeyboardInterrupt
        else if String.eqb cmd "hdn" then
          let a1 := refresh_files w (set_show_hidden (negb (show_hidden a)) a) in
          let status := if show_hidden a1 then "ON" else "OFF" in
          Done (with_app s (show_message w ("Hidden files: " +++ status) false a1))
        else if String.eqb cmd "mkdir" && has_args then
          Done (with_world_app s (create_directory w (Py.join " " args) a))
        else if String.eqb cmd "ren" && has_args then
          match rename_file w (Py.join " " args) a with
          | Done wa => Done (with_world_app s wa)
          | Raised e => Raised e
          | Blocked => Blocked
          end
        else if String.eqb cmd "about" then show_about s
        else if String.eqb cmd "ss" && has_args then
          Done (with_app s (search_file w (Py.join " " args) a))
        else if String.eqb cmd "p" && has_args then
          let path := Py.join " " args in
          if os_path_isdir w path
          then Done (with_app s (navigate_to w path a))
          else Done (with_app s (show_message w "Invalid path" true a))
        else
          Done (with_app s (show_message w ("Unknown command: " +++ cmd) true a))
    end.

Definition truthy (z : Z) : bool := negb (z =? 0).

(** [handle_mouse_event()]: whatever is raised inside is swallowed by the
    bare [except], the assignments made before it stay. *)
Definition handle_mouse_event (s : Sys W) : Sys W :=
  match getmouse (term s) with
  | None => s
  | Some (ev, t') =>
      let s := mkSys (world s) t' (app s) in
      let a := app s in
      let x := mouse_x ev in
      let y := mouse_y ev in
      let h := max_y t' in
      let wd := max_x t' in
      if (y =? 0) || (y >=? h - 3) || (x =? 0) || (x >=? wd - 1)
         || (x =? panel_width a)
      then s
      else if truthy (Z.land (bstate ev) BUTTON1_CLICKED) then
        if (y >=? 1) && (y <? h - 3) then
          let idx := top_idx a + (y - 1) in
          if idx <? Py.len (files a) then
            let a1 := set_selected_idx idx a in
            if truthy (Z.land (bstate ev) BUTTON1_DOUBLE_CLICKED) then
              match Py.index (files a1) (selected_idx a1) with
              | None => with_app s a1
              | Some file =>
                  with_world_app s (open_file (world s) (full_path file) a1)
              end
            else with_app s a1
          else s
        else s
      else if truthy (Z.land (bstate ev) BUTTON3_CLICKED) then
        if selected_idx a <? Py.len (files a) then
          match Py.index (files a) (selected_idx a) with
          | None => s
          | Some file =>
              if negb (String.eqb (name file) "..")
              then with_app s
                     (show_message (world s) ("Right click on: " +++ name file)
                                   false a)
              else s
          end
        else s
      else s
  end.

(** The second key of a chord: [next_key = self.stdscr.getch()]. *)
Definition chord (s : Sys W) (second : Z)
           (fire : Sys W -> Outcome (Sys W)) : Outcome (Sys W) :=
  match getch (term s) with
  | None => Blocked
  | Some (next_key, t') =>
      let s' := mkSys (world s) t' (app s) in
      if next_key =? second then fire s' else Done s'
  end.

Definition lift_app (s : Sys W) (o : Outcome FkFiles) : Outcome (Sys W) :=
  match o with
  | Done a => Done (with_app s a)
  | Raised e => Raised e
  | Blocked => Blocked
  end.

Definition lift_world_app (s : Sys W) (o : Outcome (W * FkFiles))
  : Outcome (Sys W) :=
  match o with
  | Done wa => Done (with_world_app s wa)
  | Raised e => Raised e
  | Blocked => Blocked
  end.

(** The branch of [handle_input] taken in command mode. *)
Definition command_key (key : Z) (s : Sys W) : Outcome (Sys W) :=
  let a := app s in
  if key =? 27 then
    Done (with_app s (set_command "" (set_command_mode false a)))
  else if (key =? KEY_BACKSPACE) || (key =? 127) then
    Done (with_app s (set_command (Py.drop_last (command a)) a))
  else if key =? 10 then
    match execute_command s with
    | Done s1 =>
        Done (with_app s1 (set_command "" (set_command_mode false (app s1))))
    | Raised e => Raised e
    | Blocked => Blocked
    end
  else if (32 <=? key) && (key <=? 126) then
    Done (with_app s (set_command (command a +++ String (Py.chr key) "") a))
  else Done s.

(** The [if/elif] chain of [handle_input] in normal mode. *)
Definition normal_key (key : Z) (s : Sys W) : Outcome (Sys W) :=
  let a := app s in
  let w := world s in
  if (key =? Py.ord "j") || (key =? KEY_DOWN) then
    if selected_idx a <? Py.len (files a) - 1 then
      let a1 := set_selected_idx (selected_idx a + 1) a in
      if selected_idx a1 >=? top_idx a1 + (LINES (term s) - 5)
      then Done (with_app s (set_top_idx (top_idx a1 + 1) a1))
      else Done (with_app s a1)
    else Done s
  else if (key =? Py.ord "k") || (key =? KEY_UP) then
    if selected_idx a >? 0 then
      let a1 := set_selected_idx (selected_idx a - 1) a in
      if selected_idx a1 <? top_idx a1
      then Done (with_app s (set_top_idx (top_idx a1 - 1) a1))
      else Done (with_app s a1)
    else Done s
  else if (key =? Py.ord "l") || (key =? 10) then
    if Py.len (files a) >? 0 then
      match Py.index (files a) (selected_idx a) with
      | None => Raised IndexError
      | Some file => Done (with_world_app s (open_file w (full_path file) a))
      end
    else Done s
  else if key =? Py.ord "h" then
    if negb (String.eqb (current_path a) "/")
    then Done (with_app s
                 (navigate_to w (PosixPath.join (current_path a) "..") a))
    else Done s
  else if key =? Py.ord "g" then
    chord s (Py.ord "g")
          (fun s' => Done (with_app s'
                             (set_top_idx 0 (set_selected_idx 0 (app s')))))
  else if key =? Py.ord "G" then
    Done (with_app s
            (set_top_idx (Z.max 0 (Py.len (files a) - (LINES (term s) - 5)))
               (set_selected_idx (Py.len (files a) - 1) a)))
  else if key =? Py.ord ":" then
    Done (with_app s (set_command "" (set_command_mode true a)))
  else if key =? Py.ord "/" then
    Done (with_app s (set_command "/" (set_command_mode true a)))
  else if key =? Py.ord "?" then show_help s
  else if key =? Py.ord "d" then
    chord s (Py.ord "d")
          (fun s' => lift_world_app s' (delete_file (world s') (app s')))
  else if key =? Py.ord "y" then
    chord s (Py.ord "y")
          (fun s' => lift_app s' (copy_file (world s') (app s')))
  else if key =? Py.ord "p" then
    chord s (Py.ord "p")
          (fun s' => Done (with_world_app s'
                             (paste_files (world s') (app s'))))
  else if key =? Py.ord "v" then
    if Py.len (files a) >? 0 then
      match Py.index (files a) (selected_idx a) with
      | None => Raised IndexError
      | Some file =>
          if negb (is_dir file)
          then Done (with_world_app s (view_file w (full_path file) a))
          else Done s
      end
    else Done s
  else Done s.

(** [handle_input()] *)
Definition handle_input (s : Sys W) : Outcome (Sys W) :=
  match getch (term s) with
  | None => Blocked
  | Some (key, t') =>
      let s' := mkSys (world s) t' (app s) in
      if key =? KEY_MOUSE then Done (handle_mouse_event s')
      else if command_mode (app s') then command_key key s'
      else normal_key key s'
  end.

(** [n] turns of the [while True] loop of [main]; drawing reads the state
    and changes nothing. *)
Fixpoint main_loop (n : nat) (s : Sys W) : Outcome (Sys W) :=
  match n with
  | O => Done s
  | S n' =>
      match handle_input s with
      | Done s' => main_loop n' s'
      | Raised e => Raised e
      | Blocked => Blocked
      end
  end.

End Dispatch.

(* ================================================================= *)
(** ** A small in-memory file system implementing [OS]

    Used to run the program on concrete inputs.  A world is a list of nodes
    keyed by normalised absolute path; [os.listdir] answers in the order of
    that list.  For worlds whose names are ASCII, [str.lower] is
    [Py.lower] ([ascii_names]). *)

Module MemFS.

Record Node := mkNode {
  path : string;
  node_is_dir : bool;
  readable : bool;
  node_stat : stat_result
}.

Record World := mkWorld {
  nodes : list Node;
  cwd : string;
  clock : Z
}.

Definition with_nodes (w : World) (l : list Node) : World :=
  mkWorld l (cwd w) (clock w).

(** A path as the system resolves it: against the working directory when
    it is relative. *)
Definition resolve (w : World) (p : string) : string :=
  if Py.startswith p "/" then PosixPath.normpath p
  else PosixPath.normpath (PosixPath.join (cwd w) p).

Definition lookup (w : World) (p : string) : option Node :=
  find (fun n => String.eqb (path n) (resolve w p)) (nodes w).

Definition children (w : World) (p : string) : list Node :=
  filter (fun n => String.eqb (PosixPath.dirname (path n)) p
                   && negb (String.eqb (path n) p))
         (nodes w).

Definition enoent (p : string) : string :=
  "[Errno 2] No such file or directory: '" +++ p +++ "'".

Definition listdir (w : World) (p : string) : oscall (list string) :=
  match lookup w p with
  | None => Raises (enoent p)
  | Some n =>
      if negb (node_is_dir n)
      then Raises ("[Errno 20] Not a directory: '" +++ p +++ "'")
      else if negb (readable n)
      then Raises ("[Errno 13] Permission denied: '" +++ p +++ "'")
      else Returns (map (fun c => PosixPath.basename (path c))
                        (children w (path n)))
  end.

Definition stat (w : World) (p : string) : oscall stat_result :=
  match lookup w p with
  | None => Raises (enoent p)
  | Some n => Returns (node_stat n)
  end.

Definition isdir (w : World) (p : string) : bool :=
  match lookup w p with Some n => node_is_dir n | None => false end.

Definition isfile (w : World) (p : string) : bool :=
  match lookup w p with Some n => negb (node_is_dir n) | None => false end.

Definition remove (w : World) (p : string) : World :=
  with_nodes w (filter (fun n => negb (String.eqb (path n) p)) (nodes w)).

Definition rmdir (w : World) (p : string) : oscall World :=
  match lookup w p with
  | None => Raises (enoent p)
  | Some n =>
      if negb (node_is_dir n)
      then Raises ("[Errno 20] Not a directory: '" +++ p +++ "'")
      else match children w (path n) with
           | [] => Returns (remove w (path n))
           | _ => Raises ("[Errno 39] Directory not empty: '" +++ p +++ "'")
           end
  end.

Definition unlink (w : World) (p : string) : oscall World :=
  match lookup w p with
  | None => Raises (enoent p)
  | Some n =>
      if node_is_dir n
      then Raises ("[Errno 21] Is a directory: '" +++ p +++ "'")
      else Returns (remove w (path n))
  end.

(** [s] with its prefix [pre] removed. *)
Fixpoint strip_prefix (pre s : string) : option string :=
  match pre, s with
  | EmptyString, _ => Some s
  | String a pre', String b s' =>
      if Ascii.eqb a b then strip_prefix pre' s' else None
  | _, EmptyString => None
  end.

(** The node moved (or copied) from under [src] to under [dst]. *)
Definition rebase (src dst : string) (n : Node) : option Node :=
  if String.eqb (path n) src
  then Some (mkNode dst (node_is_dir n) (readable n) (node_stat n))
  else match strip_prefix (src +++ "/") (path n) with
       | Some rest =>
           Some (mkNode (dst +++ "/" +++ rest) (node_is_dir n) (readable n)
                        (node_stat n))
       | None => None
       end.

(** [os.rename]: onto the same path nothing happens; a directory does not
    go below itself; an existing destination is replaced only by its own
    kind, a directory only when it is empty. *)
Definition rename (w : World) (src dst : string) : oscall World :=
  let nsrc := resolve w src in
  let ndst := resolve w dst in
  let pair := "'" +++ src +++ "' -> '" +++ dst +++ "'" in
  let moved :=
    Returns (with_nodes w
               (map (fun n => match rebase nsrc ndst n with
                              | Some n' => n'
                              | None => n
                              end)
                    (nodes (remove w ndst)))) in
  match lookup w src, lookup w (PosixPath.dirname ndst) with
  | Some n, Some _ =>
      if String.eqb nsrc ndst then Returns w
      else if Py.startswith ndst (nsrc +++ "/")
      then Raises ("[Errno 22] Invalid argument: " +++ pair)
      else
        match lookup w dst with
        | None => moved
        | Some d =>
            if node_is_dir d && negb (node_is_dir n)
            then Raises ("[Errno 21] Is a directory: " +++ pair)
            else if negb (node_is_dir d) && node_is_dir n
            then Raises ("[Errno 20] Not a directory: " +++ pair)
            else match children w (path d) with
                 | [] => moved
                 | _ => Raises ("[Errno 39] Directory not empty: " +++ pair)
                 end
        end
  | _, _ => Raises (enoent src +++ " -> '" +++ dst +++ "'")
  end.

(** The directories [os.makedirs] has to create for [p], outermost
    first. *)
Fixpoint missing_dirs (fuel : nat) (w : World) (p : string) : list string :=
  match fuel with
  | O => []
  | S fuel' =>
      match lookup w p with
      | Some _ => []
      | None => missing_dirs fuel' w (PosixPath.dirname p) ++ [p]
      end
  end.

Definition makedirs (w : World) (p : string) : option string * World :=
  match lookup w p with
  | Some _ => (Some ("[Errno 17] File exists: '" +++ p +++ "'"), w)
  | None =>
      let np := resolve w p in
      (None, with_nodes w
               (nodes w ++
                map (fun d => mkNode d true true (mkStat 4096 (clock w) 16877))
                    (missing_dirs (S (String.length np)) w np)))
  end.

(** [str(e)] of the [CalledProcessError] of a failed [cp], for paths that
    [repr] prints as they are. *)
Definition cp_failed (recursive : bool) (src dst : string) : string :=
  "Command '['cp', " +++ (if recursive then "'-r', " else "")
  +++ "'" +++ src +++ "', '" +++ dst
  +++ "']' returned non-zero exit status 1.".

(** [cp src dst] and [cp -r src dst]: into [dst] when it is a directory;
    a file replaces a file; a directory is merged into a directory of its
    name.  It fails on a missing source, on a directory without [-r], on
    a copy onto or below itself, on a destination without a parent, and
    where a file and a directory would have to replace one another. *)
Definition cp (w : World) (recursive : bool) (src dst : string)
  : option string * World :=
  let nsrc := resolve w src in
  let failed := (Some (cp_failed recursive src dst), w) in
  match lookup w src with
  | None => failed
  | Some n =>
      let ndst :=
        match lookup w dst with
        | Some d =>
            if node_is_dir d
            then PosixPath.normpath
                   (PosixPath.join (path d) (PosixPath.basename nsrc))
            else path d
        | None => resolve w dst
        end in
      let copies :=
        flat_map (fun m => match rebase nsrc ndst m with
                           | Some m' => [m']
                           | None => []
                           end)
                 (nodes w) in
      let clash (c : Node) :=
        existsb (fun m => String.eqb (path c) (path m)
                          && xorb (node_is_dir c) (node_is_dir m))
                (nodes w) in
      let replaced (m : Node) :=
        existsb (fun c => String.eqb (path c) (path m)) copies in
      if (node_is_dir n && negb recursive)
         || String.eqb nsrc ndst
         || Py.startswith ndst (nsrc +++ "/")
         || match lookup w (PosixPath.dirname ndst) with
            | Some _ => false
            | None => true
            end
         || existsb clash copies
      then failed
      else
        (None, with_nodes w
                 (filter (fun m => negb (replaced m)) (nodes w) ++ copies))
  end.

(** [str.lower] where every name and pattern is ASCII. *)
#[global] Instance ascii_names : PyStr := {
  str_lower := Py.lower;
  str_lower_ascii := fun s _ => eq_refl
}.

#[global] Instance mem_os : OS World := {
  os_getcwd w := Returns (cwd w);
  os_listdir := listdir;
  os_stat := stat;
  os_path_isdir := isdir;
  os_path_isfile := isfile;
  os_rmdir := rmdir;
  os_unlink := unlink;
  os_rename := rename;
  os_makedirs := makedirs;
  run_cp := cp;
  run_opener w _ := (None, w);
  show_file w _ := w;
  time_time := clock
}.

Definition dir_node (p : string) : Node :=
  mkNode p true true (mkStat 4096 1700000000 16877).

Definition locked_dir_node (p : string) : Node :=
  mkNode p true false (mkStat 4096 1700000000 16384).

(** A directory that may be entered but not listed (mode [d-wx--x--x]). *)
Definition unlistable_dir_node (p : string) : Node :=
  mkNode p true false (mkStat 4096 1700000000 16585).

Definition file_node (p : string) (sz : Z) : Node :=
  mkNode p false true (mkStat sz 1700000000 33188).

(** A fresh application object at [p], before its first refresh. *)
Definition fresh (p : string) : FkFiles :=
  mkFkFiles p [] 0 0 false "" "" 0 5 false [] false 39.

Definition terminal (ks : list Z) : Terminal := mkTerminal ks [] 24 24 80.

End MemFS.

(* ================================================================= *)
(** ** Concrete worlds *)

Module Examples.
Import MemFS.

(** A home directory with a sub-directory, a file, a hidden file and a
    directory that cannot be read. *)
Definition home_world : World :=
  mkWorld
    [ dir_node "/"; dir_node "/home"; dir_node "/home/u";
      file_node "/home/u/readme.txt" 120; dir_node "/home/u/docs";
      file_node "/home/u/docs/a" 3; file_node "/home/u/.hid" 1;
      locked_dir_node "/home/u/secret"; dir_node "/tmp" ]
    "/home/u" 100.

(** A root directory that lists [zeta] before [alpha]. *)
Definition root_world : World :=
  mkWorld [ dir_node "/"; file_node "/zeta" 1; file_node "/alpha" 2 ] "/" 100.

(** A home directory whose sub-directory [secret] holds a file and cannot
    be listed. *)
Definition locked_world : World :=
  mkWorld
    [ dir_node "/"; dir_node "/home"; dir_node "/home/u";
      file_node "/home/u/readme.txt" 120;
      unlistable_dir_node "/home/u/secret";
      file_node "/home/u/secret/key" 32 ]
    "/home/u" 100.

Definition at_locked_home : FkFiles :=
  refresh_files locked_world (fresh "/home/u").

(** A root directory with nothing in it. *)
Definition empty_root_world : World := mkWorld [ dir_node "/" ] "/" 100.

(** The application as it starts in [/home/u]. *)
Definition at_home : FkFiles := refresh_files home_world (fresh "/home/u").

(** The object that [FkFiles(stdscr)] builds in [/home/u] on an 80x24
    terminal. *)
Definition at_home_started : FkFiles :=
  refresh_files home_world
    (mkFkFiles "/home/u" [] 0 0 false "" "" 0 0 false [] false 39).

(** A directory whose names differ by letter case. *)
Definition case_world : World :=
  mkWorld
    [ dir_node "/"; dir_node "/d"; file_node "/d/NOTES" 1;
      file_node "/d/b.txt" 2; dir_node "/d/sub"; file_node "/d/notes" 3;
      dir_node "/d/Sub" ]
    "/d" 100.

(** The listing of the scenario of the specification. *)
Definition scenario_files : list Entry :=
  [ parent_entry "/home/u";
    mkEntry "docs" true 0 0 "drwxr-xr-x" "/home/u/docs";
    mkEntry "readme.txt" false 120 0 "-rw-r--r--" "/home/u/readme.txt" ].

(** [str.lower] on the characters below 256: next to A..Z, the capital
    letters of Latin-1 (192..222 without the multiplication sign 215)
    move up by 32. *)
Definition latin1_lower_char (c : ascii) : ascii :=
  if Py.ord c <? 128 then Py.lower_char c
  else if (192 <=? Py.ord c) && (Py.ord c <=? 222) && negb (Py.ord c =? 215)
       then Py.chr (Py.ord c + 32)
       else c.

Fixpoint latin1_lower (s : string) : string :=
  match s with
  | EmptyString => EmptyString
  | String c s' => String (latin1_lower_char c) (latin1_lower s')
  end.

Fixpoint latin1_lower_ascii (s : string)
  : Py.is_ascii s = true -> latin1_lower s = Py.lower s :=
  match s with
  | EmptyString => fun _ => eq_refl
  | String c s' => fun Hs =>
      match andb_prop _ _ Hs with
      | conj Hc Hrest =>
          f_equal2 String
            (@eq_ind_r bool true
               (fun b : bool =>
                  (if b then Py.lower_char c
                   else if (192 <=? Py.ord c) && (Py.ord c <=? 222)
                           && negb (Py.ord c =? 215)
                        then Py.chr (Py.ord c + 32)
                        else c) = Py.lower_char c)
               (eq_refl (Py.lower_char c)) (Py.ord c <? 128) Hc)
            (latin1_lower_ascii s' Hrest)
      end
  end.

Definition latin1_names : PyStr := {|
  str_lower := latin1_lower;
  str_lower_ascii := latin1_lower_ascii
|}.

(** The names [Eb] and [ea] with an acute accent on their first letter
    (the characters 201 and 233), listed in that order. *)
Definition E_acute_b : string := String (Py.chr 201) "b".
Definition e_acute_a : string := String (Py.chr 233) "a".

Definition latin1_world : World :=
  mkWorld
    [ dir_node "/"; dir_node "/d";
      file_node ("/d/" +++ E_acute_b) 1; file_node ("/d/" +++ e_acute_a) 2 ]
    "/d" 100.

End Examples.

(* ================================================================= *)
(** ** Predicates of the statements *)

(** [entry_le a b]: [b] does not sort strictly before [a]. *)
Definition entry_le `{PyStr} (a b : Entry) : Prop :=
  key_lt (sort_key b) (sort_key a) = false.

(** [has_key k e]: the sort key of [e] is [k]. *)
Definition has_key `{PyStr} (k : bool * string) (e : Entry) : bool :=
  negb (key_lt (sort_key e) k) && negb (key_lt k (sort_key e)).

(** The inputs that move the selection: [j] or the down arrow, [k] or the
    up arrow, the chord [gg], and [G]. *)
Inductive SelInput :=
| Key_j | Key_DOWN | Key_k | Key_UP | Chord_gg | Key_G.

Definition keys_of_input (i : SelInput) : list Z :=
  match i with
  | Key_j => [Py.ord "j"]
  | Key_DOWN => [KEY_DOWN]
  | Key_k => [Py.ord "k"]
  | Key_UP => [KEY_UP]
  | Chord_gg => [Py.ord "g"; Py.ord "g"]
  | Key_G => [Py.ord "G"]
  end.

(** The selection is an index of the listing and lies in the window that
    starts at [top_idx] and spans [rows] rows. *)
Definition nav_inv (rows : Z) (a : FkFiles) : Prop :=
  0 <= selected_idx a <= Py.len (files a) - 1 /\
  0 <= top_idx a /\
  top_idx a <= selected_idx a <= top_idx a + rows.

(** A directory path as [normpath] returns it: not empty, and without
    a trailing slash unless it is made of slashes only. *)
Definition normalized_dir (p : string) : Prop :=
  p <> "" /\
  (PosixPath.all_slashes p = true \/ Py.ends_with_slash p = false).

(** The search as the specification words it: an entry matches when the
    pattern occurs in its name, letter case set aside. *)
Definition matches_name `{PyStr} (pattern : string) (e : Entry) : bool :=
  Py.contains (str_lower (name e)) (str_lower pattern).

(** The indices of all matching entries in listing order, counted from
    [idx]. *)
Fixpoint match_indices `{PyStr} (pattern : string) (fl : list Entry)
         (idx : Z) : list Z :=
  match fl with
  | [] => []
  | e :: rest =>
      if matches_name pattern e
      then idx :: match_indices pattern rest (idx + 1)
      else match_indices pattern rest (idx + 1)
  end.


(* ================================================================= *)
(** ** Start-up and drawing *)

(** [check_terminal_size()]: [None] is [exit(1)] on a terminal smaller than
    40x10, otherwise the value given to [self.panel_width]. *)
Definition check_terminal_size (t : Terminal) : option Z :=
  if (max_y t <? 10) || (max_x t <? 40) then None
  else Some (max_x t / 2 - 1).

(** How [FkFiles(stdscr)] ends: with the object, with [exit(1)] from the
    size check, or with the [OSError] of [os.getcwd()]. *)
Inductive Startup :=
| Started (a : FkFiles)
| TooSmall
| StartFailed (msg : string).

(** [__init__]; [color] does not exist before the first [show_message],
    0 stands for that. *)
Definition init {W : Type} `{OS W} `{PyStr} (w : W) (t : Terminal)
  : Startup :=
  match os_getcwd w with
  | Raises e => StartFailed e
  | Returns p =>
      match check_terminal_size t with
      | None => TooSmall
      | Some pw =>
          Started (refresh_files w
                     (mkFkFiles p [] 0 0 false "" "" 0 0 false [] false pw))
      end
  end.

(** [text[:n]] *)
Fixpoint take (n : nat) (s : string) : string :=
  match n, s with
  | S n', String c s' => String c (take n' s')
  | _, _ => EmptyString
  end.

Definition slice_to (s : string) (n : Z) : string :=
  if 0 <=? n then take (Z.to_nat n) s
  else take (String.length s - Z.to_nat (- n)) s.

(** [safe_add_str(y, x, text)]: the [addstr(y, x, text)] call it makes, if
    any ([None]: the position is off the screen and nothing is drawn). *)
Definition safe_add_str (t : Terminal) (y x : Z) (text : string)
  : option (Z * Z * string) :=
  if (y <? 0) || (y >=? max_y t) || (x <? 0) || (x >=? max_x t) then None
  else Some (y, x, slice_to text (max_x t - x - 1)).

(** curses attributes (ncurses 6): [curses.color_pair(n)] and
    [curses.A_BOLD]. *)
Definition color_pair (n : Z) : Z := Z.shiftl n 8.
Definition A_BOLD : Z := 2097152.

(** [s[i] == 'x']; [None] is the [IndexError] of [s[i]]. *)
Definition char_is_x (s : string) (i : nat) : option bool :=
  option_map (fun c => Ascii.eqb c "x") (String.get i s).

(** The attribute a row is drawn with: pair 6 for the selected index, or
    0, with the colour of the entry's kind or-ed into it; [None] is the
    [IndexError] of [file['mode'][i]]. *)
Definition row_attribute (a : FkFiles) (idx : Z) (file : Entry) : option Z :=
  let attr := if idx =? selected_idx a then color_pair 6 else 0 in
  if is_dir file then Some (Z.lor attr (Z.lor (color_pair 2) A_BOLD))
  else
    match char_is_x (mode file) 3 with
    | None => None
    | Some true => Some (Z.lor attr (color_pair 7))
    | Some false =>
        match char_is_x (mode file) 6 with
        | None => None
        | Some true => Some (Z.lor attr (color_pair 7))
        | Some false =>
            match char_is_x (mode file) 9 with
            | None => None
            | Some true => Some (Z.lor attr (color_pair 7))
            | Some false =>
                if Py.startswith (name file) "."
                then Some (Z.lor attr (color_pair 8))
                else Some (Z.lor attr (color_pair 3))
            end
        end
    end.

(** One row of the listing panel of [draw_interface]: the screen line, the
    index in [self.files], the attribute, and the entry the text is made
    of. *)
Record Row := mkRow {
  row_y : Z;
  row_idx : Z;
  row_attr : Z;
  row_file : Entry
}.

(** The loop [for i in range(items_to_show)] of [draw_interface], from
    turn [i] on; [None] is an [IndexError] ([self.files[idx]] or
    [file['mode'][i]]). *)
Fixpoint rows_loop (a : FkFiles) (i : Z) (turns : nat) : option (list Row) :=
  match turns with
  | O => Some []
  | S turns' =>
      let idx := top_idx a + i in
      if idx >=? Py.len (files a) then Some []
      else match Py.index (files a) idx with
           | None => None
           | Some file =>
               match row_attribute a idx file with
               | None => None
               | Some attr =>
                   option_map (cons (mkRow (i + 1) idx attr file))
                              (rows_loop a (i + 1) turns')
               end
           end
  end.

(** The rows [draw_interface] puts into the listing panel. *)
Definition listing_rows (t : Terminal) (a : FkFiles) : option (list Row) :=
  if (max_y t <? 10) || (max_x t <? 40) then Some []
  else rows_loop a 0 (Z.to_nat (Z.min (Py.len (files a)) (max_y t - 5))).

(** The listing of directory [cur] in world [w], read off the file
    system: what [os.listdir] and [os.stat] give, [..] in front away from
    the root, everything behind the first entry sorted; [..] alone (or
    nothing) when the directory cannot be listed. *)
Definition listing_of {W : Type} `{OS W} `{PyStr} (w : W) (cur : string)
           (hidden : bool) : list Entry :=
  let start := if String.eqb cur "/" then [] else [parent_entry cur] in
  match os_listdir w cur with
  | Returns names =>
      let fl := start ++ scan_entries w cur hidden names in
      Py.upto_1 fl ++ sorted (Py.from_1 fl)
  | Raises _ => start
  end.

(** Every file of the listing has a ten-character permission string. *)
Definition modes_complete (a : FkFiles) : Prop :=
  Forall (fun e => is_dir e = true \/ String.length (mode e) = 10%nat)
         (files a).

(* ================================================================= *)
(** ** Invariants of a session *)

(** At most one path waits in the clipboard. *)
Definition clipboard_ok (a : FkFiles) : Prop :=
  (List.length (clipboard a) <= 1)%nat.

(** Outside command mode the command buffer is empty. *)
Definition command_idle (a : FkFiles) : Prop :=
  command_mode a = false -> command a = "".

(** The listing belongs to [current_path]: every entry's path is its name
    joined to [current_path], and away from the root the first entry is
    the synthetic [..]. *)
Definition listing_coherent (a : FkFiles) : Prop :=
  Forall (fun e => full_path e = PosixPath.join (current_path a) (name e))
         (files a) /\
  (current_path a <> "/" ->
   exists rest, files a = parent_entry (current_path a) :: rest).

Definition session_inv (a : FkFiles) : Prop :=
  clipboard_ok a /\ command_idle a /\ listing_coherent a.

(** The selection is an index of the listing and is on one of the [rows]
    lines that start at [top_idx]. *)
Definition window_inv (rows : Z) (a : FkFiles) : Prop :=
  0 <= selected_idx a < Py.len (files a) /\
  0 <= top_idx a <= selected_idx a /\
  selected_idx a < top_idx a + rows.

(* ================================================================= *)
(** ** Typed input *)

(** A character whose key code [handle_input] appends to the command
    buffer. *)
Definition printable (c : ascii) : Prop := 32 <= Py.ord c <= 126.



(* ================================================================= *)
(** ** Normal absolute paths *)

(** A path component that [normpath] keeps as it is. *)
Definition proper_component (c : string) : Prop :=
  c <> "" /\ c <> "." /\ c <> ".." /\ Py.contains c "/" = false.

(** The absolute path with [k] leading slashes and the components [l]. *)
Definition canonical_path (k : nat) (l : list string) : string :=
  PosixPath.slashes k +++ Py.join "/" l.

(* ================================================================= *)
(** ** The order of a listing *)


Lemma ascii_compare_refl c : Ascii.compare c c = Eq.
Proof. unfold Ascii.compare. apply N.compare_refl. Qed.

Lemma ascii_compare_lt_trans a b c :
  Ascii.compare a b = Lt -> Ascii.compare b c = Lt -> Ascii.compare a c = Lt.
Proof.
  unfold Ascii.compare. rewrite !N.compare_lt_iff. apply N.lt_trans.
Qed.

Lemma string_compare_refl : forall s, String.compare s s = Eq.
Proof.
  induction s as [|c s IH]; simpl; [reflexivity|].
  now rewrite ascii_compare_refl.
Qed.

Lemma string_compare_lt_trans : forall s1 s2 s3,
  String.compare s1 s2 = Lt -> String.compare s2 s3 = Lt ->
  String.compare s1 s3 = Lt.
Proof.
  induction s1 as [|a s1 IH]; intros [|b s2] [|c s3]; simpl; try congruence.
  destruct (Ascii.compare a b) eqn:Hab; try congruence;
  destruct (Ascii.compare b c) eqn:Hbc; try congruence; intros H1 H2.
  - apply Ascii.compare_eq_iff in Hab, Hbc. subst.
    rewrite ascii_compare_refl. eauto.
  - apply Ascii.compare_eq_iff in Hab. subst. now rewrite Hbc.
  - apply Ascii.compare_eq_iff in Hbc. subst. now rewrite Hab.
  - now rewrite (ascii_compare_lt_trans _ _ _ Hab Hbc).
Qed.

Lemma string_ltb_lt s1 s2 :
  String.ltb s1 s2 = true <-> String.compare s1 s2 = Lt.
Proof.
  unfold String.ltb. destruct (String.compare s1 s2); split; congruence.
Qed.

Lemma string_ltb_irrefl s : String.ltb s s = false.
Proof. unfold String.ltb. now rewrite string_compare_refl. Qed.

Lemma string_ltb_trans s1 s2 s3 :
  String.ltb s1 s2 = true -> String.ltb s2 s3 = true -> String.ltb s1 s3 = true.
Proof. rewrite !string_ltb_lt. apply string_compare_lt_trans. Qed.

Lemma string_ltb_asym s1 s2 :
  String.ltb s1 s2 = true -> String.ltb s2 s1 = false.
Proof.
  intros H12. destruct (String.ltb s2 s1) eqn:H21; [|reflexivity].
  pose proof (string_ltb_trans _ _ _ H12 H21) as Hc.
  now rewrite string_ltb_irrefl in Hc.
Qed.

(** Two strings neither of which is below the other are equal. *)
Lemma string_ltb_connex s1 s2 :
  String.ltb s1 s2 = false -> String.ltb s2 s1 = false -> s1 = s2.
Proof.
  unfold String.ltb. rewrite (String.compare_antisym s2 s1).
  destruct (String.compare s1 s2) eqn:Hc; simpl; try congruence.
  intros _ _. now apply String.compare_eq_iff.
Qed.

Lemma string_ltb_leb s1 s2 :
  String.ltb s2 s1 = false <-> String.leb s1 s2 = true.
Proof.
  unfold String.ltb, String.leb. rewrite (String.compare_antisym s1 s2).
  destruct (String.compare s2 s1); simpl; split; congruence.
Qed.

Lemma key_lt_irrefl k : key_lt k k = false.
Proof.
  destruct k as [b s]. unfold key_lt. simpl.
  rewrite string_ltb_irrefl. now destruct b.
Qed.

Lemma key_lt_trans k1 k2 k3 :
  key_lt k1 k2 = true -> key_lt k2 k3 = true -> key_lt k1 k3 = true.
Proof.
  destruct k1 as [b1 s1], k2 as [b2 s2], k3 as [b3 s3]. unfold key_lt. simpl.
  destruct b1, b2, b3; simpl; try congruence; apply string_ltb_trans.
Qed.

Lemma key_lt_connex k1 k2 :
  key_lt k1 k2 = false -> key_lt k2 k1 = false -> k1 = k2.
Proof.
  destruct k1 as [b1 s1], k2 as [b2 s2]. unfold key_lt. simpl.
  destruct b1, b2; simpl; try congruence;
    intros H1 H2; now rewrite (string_ltb_connex _ _ H1 H2).
Qed.

Lemma key_lt_asym k1 k2 : key_lt k1 k2 = true -> key_lt k2 k1 = false.
Proof.
  intros H12. destruct (key_lt k2 k1) eqn:H21; [|reflexivity].
  pose proof (key_lt_trans _ _ _ H12 H21) as Hc.
  now rewrite key_lt_irrefl in Hc.
Qed.

(** If [k3] is not below [k2] and [k2] is not below [k1], then [k3] is not
    below [k1]. *)
Lemma key_lt_false_trans k1 k2 k3 :
  key_lt k2 k1 = false -> key_lt k3 k2 = false -> key_lt k3 k1 = false.
Proof.
  intros H21 H32. destruct (key_lt k3 k1) eqn:H31; [|reflexivity].
  destruct (key_lt k1 k2) eqn:H12.
  - pose proof (key_lt_trans _ _ _ H31 H12). congruence.
  - rewrite (key_lt_connex _ _ H12 H21) in H31. congruence.
Qed.

Section Sorting.

Context `{PyStr}.

Lemma entry_le_trans a b c : entry_le a b -> entry_le b c -> entry_le a c.
Proof. unfold entry_le. apply key_lt_false_trans. Qed.

(** [entry_le] in words: a directory before a file, or the same kind and
    the lowered names in ascending order. *)
Lemma entry_le_spec a b :
  entry_le a b <->
  (is_dir a = true /\ is_dir b = false) \/
  (is_dir a = is_dir b /\
   String.leb (str_lower (name a)) (str_lower (name b)) = true).
Proof.
  unfold entry_le, key_lt, sort_key. simpl. rewrite <- string_ltb_leb.
  destruct (is_dir a), (is_dir b); simpl; split; intros Hx;
    try (destruct Hx as [[? ?]|[? ?]]); try congruence; auto.
Qed.

Lemma insert_by_key_perm x l : Permutation (x :: l) (insert_by_key x l).
Proof.
  induction l as [|y l IH]; simpl; [reflexivity|].
  destruct (key_lt (sort_key y) (sort_key x)); [|reflexivity].
  rewrite perm_swap. now constructor.
Qed.

Lemma sorted_perm l : Permutation l (sorted l).
Proof.
  induction l as [|x l IH]; simpl; [constructor|].
  rewrite <- insert_by_key_perm. now constructor.
Qed.

Lemma insert_by_key_sorted x l :
  StronglySorted entry_le l -> StronglySorted entry_le (insert_by_key x l).
Proof.
  induction 1 as [|y l Hs IH Hall]; simpl.
  - repeat constructor.
  - destruct (key_lt (sort_key y) (sort_key x)) eqn:Hlt.
    + constructor; [exact IH|].
      rewrite <- insert_by_key_perm. constructor; [|exact Hall].
      now apply key_lt_asym.
    + constructor; [now constructor|].
      constructor; [exact Hlt|].
      eapply Forall_impl; [|exact Hall].
      intros z Hz. now apply (entry_le_trans x y z).
Qed.

Lemma sorted_sorted l : StronglySorted entry_le (sorted l).
Proof.
  induction l as [|x l IH]; simpl; [constructor|].
  now apply insert_by_key_sorted.
Qed.


Lemma insert_by_key_stable k x l :
  filter (has_key k) (insert_by_key x l) = filter (has_key k) (x :: l).
Proof.
  induction l as [|y l IH]; [reflexivity|].
  simpl insert_by_key.
  destruct (key_lt (sort_key y) (sort_key x)) eqn:Hlt; [|reflexivity].
  cbn [filter]. rewrite IH. cbn [filter].
  destruct (has_key k y) eqn:Hy, (has_key k x) eqn:Hx; try reflexivity.
  exfalso. unfold has_key in Hy, Hx.
  apply andb_prop in Hy, Hx. destruct Hy as [Hy1 Hy2], Hx as [Hx1 Hx2].
  apply negb_true_iff in Hy1, Hy2, Hx1, Hx2.
  rewrite (key_lt_connex _ _ Hy1 Hy2) in Hlt.
  rewrite (key_lt_connex _ _ Hx1 Hx2) in Hlt.
  now rewrite key_lt_irrefl in Hlt.
Qed.

Lemma sorted_stable k l :
  filter (has_key k) (sorted l) = filter (has_key k) l.
Proof.
  induction l as [|x l IH]; [reflexivity|].
  simpl sorted. rewrite insert_by_key_stable. cbn [filter]. now rewrite IH.
Qed.

(* ================================================================= *)
(** ** Refreshing the listing *)

End Sorting.

Section Refresh.

Context {W : Type} `{OS W} `{PyStr}.

Lemma slice_sort_perm (fl : list Entry) :
  Permutation (Py.upto_1 fl ++ sorted (Py.from_1 fl)) fl.
Proof.
  unfold Py.upto_1, Py.from_1.
  rewrite <- (firstn_skipn 1 fl) at 3.
  apply Permutation_app_head. symmetry. apply sorted_perm.
Qed.

Lemma refresh_files_nonroot w a names :
  current_path a <> "/" ->
  os_listdir w (current_path a) = Returns names ->
  files (refresh_files w a) =
  parent_entry (current_path a)
    :: sorted (scan_entries w (current_path a) (show_hidden a) names).
Proof.
  intros Hroot Hls. unfold refresh_files. rewrite Hls.
  apply String.eqb_neq in Hroot. rewrite Hroot. reflexivity.
Qed.

Lemma refresh_files_root w a names :
  current_path a = "/" ->
  os_listdir w "/" = Returns names ->
  files (refresh_files w a) =
  match scan_entries w "/" (show_hidden a) names with
  | [] => []
  | e :: rest => e :: sorted rest
  end.
Proof.
  intros Hroot Hls. unfold refresh_files. rewrite Hroot, Hls. simpl.
  destruct (scan_entries w "/" (show_hidden a) names); reflexivity.
Qed.

(** Away from the root a successful refresh gives [..] first and the
    scanned entries behind it, directories first, then by lowered name. *)
Lemma refresh_files_nonroot_sorted w a names :
  current_path a <> "/" ->
  os_listdir w (current_path a) = Returns names ->
  exists rest,
    files (refresh_files w a) = parent_entry (current_path a) :: rest /\
    StronglySorted entry_le rest /\
    Permutation (scan_entries w (current_path a) (show_hidden a) names) rest.
Proof.
  intros Hroot Hls. eexists. split; [exact (refresh_files_nonroot w a names Hroot Hls)|].
  split; [apply sorted_sorted | apply sorted_perm].
Qed.

(** Every scanned entry carries what [os.stat] and [os.path.isdir] say
    about its path. *)
Lemma scan_entries_In w cur hidden names e :
  In e (scan_entries w cur hidden names) ->
  exists si,
    In (name e) names /\
    full_path e = PosixPath.join cur (name e) /\
    os_stat w (full_path e) = Returns si /\
    size e = st_size si /\
    is_dir e = os_path_isdir w (full_path e).
Proof.
  induction names as [|n names IH]; simpl; [tauto|].
  destruct (negb hidden && Py.startswith n ".").
  { intros Hin. destruct (IH Hin) as [si Hsi]. exists si. tauto. }
  destruct (os_stat w (PosixPath.join cur n)) as [si|msg] eqn:Hst.
  - intros [He|Hin].
    + subst e. simpl. exists si. auto.
    + destruct (IH Hin) as [si' Hsi]. exists si'. tauto.
  - intros Hin. destruct (IH Hin) as [si Hsi]. exists si. tauto.
Qed.

Lemma refresh_files_In w a e :
  In e (files (refresh_files w a)) ->
  e = parent_entry (current_path a) \/
  exists names,
    os_listdir w (current_path a) = Returns names /\
    In e (scan_entries w (current_path a) (show_hidden a) names).
Proof.
  unfold refresh_files.
  destruct (os_listdir w (current_path a)) as [names|msg].
  - cbn [files set_files]. intros Hin.
    apply (Permutation_in _ (slice_sort_perm _)) in Hin.
    apply in_app_or in Hin. destruct Hin as [Hin|Hin].
    + left. destruct (negb (current_path a =? "/")%string); simpl in Hin;
        intuition congruence.
    + right. eauto.
  - cbn. intros Hin. left.
    destruct (negb (current_path a =? "/")%string); simpl in Hin;
        intuition congruence.
Qed.

End Refresh.

Section RefreshClaims.

Context {W : Type} `{OS W} `{PyStr}.

(** C8 (amended) - Every entry of a refreshed listing is either the
    synthetic [..] entry, whose stored size is 0, or an entry of the
    directory that stores the [st_size] that [os.stat] reports for its
    path, whether it is a directory or a file. *)
Theorem refresh_files_sizes (w : W) (a : FkFiles) (e : Entry) :
  In e (files (refresh_files w a)) ->
  (e = parent_entry (current_path a) /\ size e = 0) \/
  (exists si,
      os_stat w (full_path e) = Returns si /\
      size e = st_size si /\
      is_dir e = os_path_isdir w (full_path e)).
Proof.
  intros Hin. apply refresh_files_In in Hin.
  destruct Hin as [He|[names [_ Hin]]].
  - left. subst e. split; reflexivity.
  - right. apply scan_entries_In in Hin.
    destruct Hin as [si Hsi]. exists si. tauto.
Qed.

(** C1 (amended) - When the listing of the directory that [path] resolves
    to fails, [navigate_to(path)] moves there all the same: [current_path]
    becomes the absolute path, [selected_idx] and [top_idx] are 0, the
    listing is the [..] entry alone (empty at the root), and the message
    is the error, in the error colour; the clipboard is kept. *)
Theorem navigate_to_listing_failure (w : W) (path : string) (a : FkFiles)
        (p e : string) :
  abspath w path = Returns p ->
  os_listdir w p = Raises e ->
  navigate_to w path a =
  show_message w ("Error: " +++ e) true
    (set_files (if String.eqb p "/" then [] else [parent_entry p])
       (set_top_idx 0 (set_selected_idx 0 (set_current_path p a)))) /\
  let r := navigate_to w path a in
  current_path r = p /\ selected_idx r = 0 /\ top_idx r = 0 /\
  files r = (if String.eqb p "/" then [] else [parent_entry p]) /\
  message r = "Error: " +++ e /\ color r = 4 /\
  clipboard r = clipboard a /\ clipboard_is_cut r = clipboard_is_cut a.
Proof.
  intros Habs Hls. cbv zeta. unfold navigate_to, refresh_files. rewrite Habs.
  cbn [current_path set_top_idx set_selected_idx set_current_path].
  rewrite Hls. destruct (String.eqb p "/"); cbn; repeat split.
Qed.

End RefreshClaims.

(** C8 (as stated) fails: the directory [docs] of the home listing is stored
    with the size 4096 that [os.stat] reports. *)
Lemma refresh_files_directory_size_counterexample :
  let docs := mkEntry "docs" true 4096 1700000000 "drwxr-xr-x" "/home/u/docs" in
  In docs (files (refresh_files Examples.home_world (MemFS.fresh "/home/u"))) /\
  is_dir docs = true /\ size docs <> 0.
Proof.
  cbv zeta. split; [vm_compute; tauto|]. split; [reflexivity|discriminate].
Qed.

Lemma refresh_files_sizes_witness :
  let docs := mkEntry "docs" true 4096 1700000000 "drwxr-xr-x" "/home/u/docs" in
  In docs (files (refresh_files Examples.home_world (MemFS.fresh "/home/u"))) /\
  ((docs = parent_entry "/home/u" /\ size docs = 0) \/
   (exists si,
       os_stat Examples.home_world (full_path docs) = Returns si /\
       size docs = st_size si /\
       is_dir docs = os_path_isdir Examples.home_world (full_path docs))).
Proof.
  cbv zeta.
  assert (Hin : In (mkEntry "docs" true 4096 1700000000 "drwxr-xr-x" "/home/u/docs")
                   (files (refresh_files Examples.home_world (MemFS.fresh "/home/u")))).
  { vm_compute. tauto. }
  split; [exact Hin|].
  exact (refresh_files_sizes Examples.home_world (MemFS.fresh "/home/u") _ Hin).
Defined.

(** C1 (as stated) fails: entering the unreadable directory [secret] from
    the home listing changes [current_path] and replaces the listing by the
    [..] entry alone. *)
Lemma navigate_to_failure_counterexample :
  os_listdir Examples.home_world "/home/u/secret"
  = Raises "[Errno 13] Permission denied: '/home/u/secret'" /\
  let a' := navigate_to Examples.home_world "/home/u/secret" Examples.at_home in
  current_path Examples.at_home = "/home/u" /\
  current_path a' = "/home/u/secret" /\
  List.length (files Examples.at_home) = 4%nat /\
  files a' = [parent_entry "/home/u/secret"] /\
  ~ (current_path a' = current_path Examples.at_home /\
     files a' = files Examples.at_home).
Proof.
  split; [reflexivity|]. cbv zeta.
  repeat (split; [vm_compute; reflexivity|]).
  intros [Hp _]. vm_compute in Hp. discriminate Hp.
Qed.

Lemma navigate_to_listing_failure_witness :
  abspath Examples.home_world "/home/u/secret" = Returns "/home/u/secret" /\
  os_listdir Examples.home_world "/home/u/secret"
  = Raises "[Errno 13] Permission denied: '/home/u/secret'" /\
  navigate_to Examples.home_world "/home/u/secret" Examples.at_home =
  show_message Examples.home_world
    ("Error: " +++ "[Errno 13] Permission denied: '/home/u/secret'") true
    (set_files [parent_entry "/home/u/secret"]
       (set_top_idx 0 (set_selected_idx 0
          (set_current_path "/home/u/secret" Examples.at_home)))) /\
  let r := navigate_to Examples.home_world "/home/u/secret" Examples.at_home in
  current_path r = "/home/u/secret" /\ selected_idx r = 0 /\ top_idx r = 0 /\
  files r = [mkEntry ".." true 0 0 "" "/home/u/secret/.."] /\
  message r = "Error: [Errno 13] Permission denied: '/home/u/secret'" /\
  color r = 4.
Proof.
  split; [reflexivity|]. split; [reflexivity|]. cbv zeta.
  destruct (navigate_to_listing_failure Examples.home_world "/home/u/secret"
              Examples.at_home "/home/u/secret"
              "[Errno 13] Permission denied: '/home/u/secret'")
    as (Heq & Hp & Hs & Ht & Hf & Hm & Hc & _); [reflexivity | reflexivity |].
  split; [exact Heq|].
  split; [exact Hp|]. split; [exact Hs|]. split; [exact Ht|].
  split; [exact Hf|]. split; [exact Hm | exact Hc].
Defined.

(** C2 - at the root no [..] entry is added, and the slice [files[1:]] that
    is sorted leaves out the first real entry: a root that lists [zeta]
    before [alpha] is shown in that order. *)
Theorem refresh_files_root_first_entry_unsorted :
  let a := refresh_files Examples.root_world (MemFS.fresh "/") in
  os_listdir Examples.root_world "/" = Returns ["zeta"; "alpha"] /\
  map name (files a) = ["zeta"; "alpha"] /\
  map is_dir (files a) = [false; false] /\
  message a = "" /\
  ~ Sorted entry_le (files a).
Proof.
  cbv zeta. repeat (split; [vm_compute; reflexivity|]).
  intros Hs. vm_compute in Hs.
  inversion Hs as [|x l Hs' Hhd]; subst.
  inversion Hhd as [|y l' Hle]; subst.
  vm_compute in Hle. discriminate Hle.
Qed.

(* ================================================================= *)
(** ** Moving the selection and the chords *)

Section Keys.

Context {W : Type} `{OS W} `{PyStr}.

(** One selection-moving input, read by one call of [handle_input]. *)
Lemma handle_input_selection (s : Sys W) (i : SelInput) (rest : list Z) :
  command_mode (app s) = false ->
  1 <= LINES (term s) - 5 ->
  nav_inv (LINES (term s) - 5) (app s) ->
  keys (term s) = keys_of_input i ++ rest ->
  exists a',
    handle_input s = Done (mkSys (world s) (set_keys rest (term s)) a') /\
    command_mode a' = false /\
    files a' = files (app s) /\
    nav_inv (LINES (term s) - 5) a'.
Proof.
  destruct s as [w [ks ms L my mx] a]. cbn [app term world keys LINES].
  intros Hmode Hrows (Hsel & Htop & Hwin) Hkeys. subst ks.
  unfold handle_input, getch. cbn [term keys app world].
  destruct i; cbn [keys_of_input app]; cbn -[Z.add Z.sub Z.max];
    rewrite Hmode; unfold normal_key; cbn -[Z.add Z.sub Z.max].
  - (* j *)
    destruct (Z.ltb_spec (selected_idx a) (Py.len (files a) - 1)).
    + destruct (Z.geb_spec (selected_idx a + 1) (top_idx a + (L - 5)));
        eexists; (split; [reflexivity|]); cbn; unfold nav_inv; cbn;
          repeat split; auto; lia.
    + eexists; split; [reflexivity|]. unfold nav_inv. auto.
  - (* down arrow *)
    destruct (Z.ltb_spec (selected_idx a) (Py.len (files a) - 1)).
    + destruct (Z.geb_spec (selected_idx a + 1) (top_idx a + (L - 5)));
        eexists; (split; [reflexivity|]); cbn; unfold nav_inv; cbn;
          repeat split; auto; lia.
    + eexists; split; [reflexivity|]. unfold nav_inv. auto.
  - (* k *)
    destruct (Z.gtb_spec (selected_idx a) 0).
    + destruct (Z.ltb_spec (selected_idx a - 1) (top_idx a));
        eexists; (split; [reflexivity|]); cbn; unfold nav_inv; cbn;
          repeat split; auto; lia.
    + eexists; split; [reflexivity|]. unfold nav_inv. auto.
  - (* up arrow *)
    destruct (Z.gtb_spec (selected_idx a) 0).
    + destruct (Z.ltb_spec (selected_idx a - 1) (top_idx a));
        eexists; (split; [reflexivity|]); cbn; unfold nav_inv; cbn;
          repeat split; auto; lia.
    + eexists; split; [reflexivity|]. unfold nav_inv. auto.
  - (* gg *)
    eexists; split; [reflexivity|]. unfold nav_inv. cbn.
    repeat split; auto; lia.
  - (* G *)
    eexists; split; [reflexivity|]. unfold nav_inv. cbn -[Z.max].
    repeat split; auto; lia.
Qed.

(** C3 (amended) - In normal mode, with at least one visible row
    ([LINES - 5 >= 1]), from a state whose selection is an index of the
    (hence non-empty) listing and lies in the window
    [0 <= top_idx <= selected_idx <= top_idx + rows], every sequence of
    selection-moving inputs ([j], down, [k], up, [gg], [G]) is consumed
    by as many turns of the main loop and ends in a state with the same
    listing where both properties hold again. *)
Theorem selection_moves_keep_nav_inv (ins : list SelInput) :
  forall (s : Sys W) (rest : list Z),
  command_mode (app s) = false ->
  1 <= LINES (term s) - 5 ->
  nav_inv (LINES (term s) - 5) (app s) ->
  keys (term s) = flat_map keys_of_input ins ++ rest ->
  exists a',
    main_loop (List.length ins) s
    = Done (mkSys (world s) (set_keys rest (term s)) a') /\
    files a' = files (app s) /\
    nav_inv (LINES (term s) - 5) a'.
Proof.
  induction ins as [|i ins IH]; intros s rest Hmode Hrows Hinv Hkeys.
  - exists (app s). cbn in *. split; [|auto].
    destruct s as [w [ks ms L my mx] a]. cbn in *. now subst ks.
  - cbn [flat_map] in Hkeys. rewrite <- app_assoc in Hkeys.
    destruct (handle_input_selection s i _ Hmode Hrows Hinv Hkeys)
      as (a1 & Hstep & Hmode1 & Hfiles1 & Hinv1).
    cbn [main_loop List.length]. rewrite Hstep.
    destruct (IH (mkSys (world s) (set_keys (flat_map keys_of_input ins ++ rest)
                                            (term s)) a1) rest)
      as (a' & Hrun & Hfiles' & Hinv'); auto.
    exists a'. split; [|split].
    + rewrite Hrun. reflexivity.
    + cbn in Hfiles'. congruence.
    + exact Hinv'.
Qed.

(** C4 - In normal mode the key [d] followed by any key other than [d]
    is read by one call of [handle_input] that consumes both keys and
    changes nothing else: the file system, the listing, the selection,
    the clipboard, the message and the mode are what they were, and the
    next read starts after the dropped key. *)
Theorem d_chord_dropped (s : Sys W) (k : Z) (rest : list Z) :
  command_mode (app s) = false ->
  k <> Py.ord "d" ->
  keys (term s) = Py.ord "d" :: k :: rest ->
  handle_input s = Done (mkSys (world s) (set_keys rest (term s)) (app s)).
Proof.
  destruct s as [w [ks ms L my mx] a]. cbn [app term world keys].
  intros Hmode Hk Hkeys. subst ks.
  unfold handle_input, getch. cbn [term keys app world].
  cbn -[delete_file]. rewrite Hmode.
  unfold normal_key, chord, getch. cbn -[delete_file].
  apply Z.eqb_neq in Hk. cbn in Hk. rewrite Hk. reflexivity.
Qed.

End Keys.

(** C3 (as stated) fails on the empty listing: in an empty root directory
    the listing is empty, and [G] sets [selected_idx] to [-1]. *)
Lemma jump_bottom_empty_listing_counterexample :
  let s := mkSys Examples.empty_root_world (MemFS.terminal [Py.ord "G"])
                 (refresh_files Examples.empty_root_world (MemFS.fresh "/")) in
  files (app s) = [] /\
  exists s',
    handle_input s = Done s' /\
    files (app s') = [] /\
    selected_idx (app s') = -1 /\
    ~ nav_inv (LINES (term s') - 5) (app s').
Proof.
  cbv zeta. split; [reflexivity|].
  eexists. split; [vm_compute; reflexivity|].
  split; [reflexivity|]. split; [reflexivity|].
  unfold nav_inv. cbn. lia.
Qed.

Lemma selection_moves_keep_nav_inv_witness :
  let s := mkSys Examples.home_world
                 (MemFS.terminal [Py.ord "G"; Py.ord "k"; Py.ord "g"; Py.ord "g";
                                  KEY_DOWN; Py.ord "j"; KEY_UP])
                 Examples.at_home in
  command_mode (app s) = false /\
  1 <= LINES (term s) - 5 /\
  nav_inv (LINES (term s) - 5) (app s) /\
  exists a',
    main_loop 6 s = Done (mkSys (world s) (set_keys [] (term s)) a') /\
    files a' = files (app s) /\
    nav_inv (LINES (term s) - 5) a'.
Proof.
  cbv zeta.
  assert (Hinv : nav_inv (LINES (MemFS.terminal []) - 5) Examples.at_home).
  { unfold nav_inv. vm_compute. repeat split; discriminate. }
  split; [reflexivity|]. split; [vm_compute; discriminate|].
  split; [exact Hinv|].
  apply (selection_moves_keep_nav_inv
           [Key_G; Key_k; Chord_gg; Key_DOWN; Key_j; Key_UP]
           (mkSys Examples.home_world
                  (MemFS.terminal [Py.ord "G"; Py.ord "k"; Py.ord "g"; Py.ord "g";
                                   KEY_DOWN; Py.ord "j"; KEY_UP])
                  Examples.at_home) []).
  - reflexivity.
  - vm_compute; discriminate.
  - exact Hinv.
  - reflexivity.
Defined.

Lemma d_chord_dropped_witness :
  let s := mkSys Examples.home_world
                 (MemFS.terminal [Py.ord "d"; Py.ord "j"; Py.ord "G"])
                 (set_selected_idx 3 Examples.at_home) in
  command_mode (app s) = false /\
  Py.ord "j" <> Py.ord "d" /\
  handle_input s
  = Done (mkSys (world s) (set_keys [Py.ord "G"] (term s)) (app s)).
Proof.
  cbv zeta. split; [reflexivity|]. split; [discriminate|].
  apply (d_chord_dropped
           (mkSys Examples.home_world
                  (MemFS.terminal [Py.ord "d"; Py.ord "j"; Py.ord "G"])
                  (set_selected_idx 3 Examples.at_home))
           (Py.ord "j") [Py.ord "G"]).
  - reflexivity.
  - discriminate.
  - reflexivity.
Defined.

(* ================================================================= *)
(** ** Clipboard and file operations *)

Section FileOps.

Context {W : Type} `{OS W} `{PyStr}.

(** A refresh touches the listing and the message, nothing else. *)
Lemma refresh_files_selected_idx (w : W) a :
  selected_idx (refresh_files w a) = selected_idx a.
Proof.
  unfold refresh_files. now destruct (os_listdir w (current_path a)).
Qed.

Lemma refresh_files_clipboard (w : W) a :
  clipboard (refresh_files w a) = clipboard a.
Proof.
  unfold refresh_files. now destruct (os_listdir w (current_path a)).
Qed.

Lemma refresh_files_current_path (w : W) a :
  current_path (refresh_files w a) = current_path a.
Proof.
  unfold refresh_files. now destruct (os_listdir w (current_path a)).
Qed.

(** A refresh reads the listing off the file system; its message is the
    listing error, if any. *)
Lemma refresh_files_listing (w : W) a :
  files (refresh_files w a) = listing_of w (current_path a) (show_hidden a).
Proof.
  unfold refresh_files, listing_of.
  destruct (os_listdir w (current_path a));
    destruct (String.eqb (current_path a) "/"); reflexivity.
Qed.

Lemma refresh_files_message (w : W) a :
  message (refresh_files w a) =
  match os_listdir w (current_path a) with
  | Returns _ => message a
  | Raises e => "Error: " +++ e
  end.
Proof.
  unfold refresh_files. now destruct (os_listdir w (current_path a)).
Qed.



(** C6 (amended) - [delete_file] on the selected entry returns, and: the
    [..] entry is refused and nothing changes; a directory whose listing
    succeeds with at least one name is refused with the message
    [Directory not empty!]; a directory that cannot be listed is refused
    with the listing error as the message; in both refusals the file
    system, the listing and the selection stay as they are.  A file is
    handed to [os.unlink] without any test, an empty directory to
    [os.rmdir]; after a successful removal the listing is read again and
    [selected_idx] becomes [min(selected_idx, len(files) - 1)] for the
    new listing, and after a failed one only the message changes. *)
Theorem delete_file_cases (w : W) (a : FkFiles) (file : Entry) :
  selected_idx a < Py.len (files a) ->
  Py.index (files a) (selected_idx a) = Some file ->
  exists w' r,
    delete_file w a = Done (w', r) /\
    current_path r = current_path a /\ clipboard r = clipboard a /\
    (name file = ".." -> w' = w /\ r = a) /\
    (name file <> ".." -> is_dir file = true ->
     forall l, os_listdir w (full_path file) = Returns l -> l <> [] ->
       w' = w /\ files r = files a /\ selected_idx r = selected_idx a /\
       message r = "Directory not empty!" /\ color r = 4) /\
    (name file <> ".." -> is_dir file = true ->
     forall e, os_listdir w (full_path file) = Raises e ->
       w' = w /\ files r = files a /\ selected_idx r = selected_idx a /\
       message r = "Error: " +++ e /\ color r = 4) /\
    (name file <> ".." -> is_dir file = false ->
     match os_unlink w (full_path file) with
     | Returns w1 =>
         w' = w1 /\
         files r = listing_of w1 (current_path a) (show_hidden a) /\
         selected_idx r = Z.min (selected_idx a) (Py.len (files r) - 1) /\
         message r = match os_listdir w1 (current_path a) with
                     | Returns _ => "File deleted: " +++ name file
                     | Raises e => "Error: " +++ e
                     end
     | Raises e =>
         w' = w /\ files r = files a /\ selected_idx r = selected_idx a /\
         message r = "Error: " +++ e /\ color r = 4
     end) /\
    (name file <> ".." -> is_dir file = true ->
     os_listdir w (full_path file) = Returns [] ->
     match os_rmdir w (full_path file) with
     | Returns w1 =>
         w' = w1 /\
         files r = listing_of w1 (current_path a) (show_hidden a) /\
         selected_idx r = Z.min (selected_idx a) (Py.len (files r) - 1) /\
         message r = match os_listdir w1 (current_path a) with
                     | Returns _ => "Directory deleted: " +++ name file
                     | Raises e => "Error: " +++ e
                     end
     | Raises e =>
         w' = w /\ files r = files a /\ selected_idx r = selected_idx a /\
         message r = "Error: " +++ e /\ color r = 4
     end).
Proof.
  intros Hlt Hidx. unfold delete_file. rewrite Hidx.
  assert (Hgeb : (selected_idx a >=? Py.len (files a)) = false)
    by (rewrite Z.geb_leb; apply Z.leb_gt; exact Hlt).
  rewrite Hgeb.
  destruct (String.eqb_spec (name file) "..") as [Hn|Hn].
  { exists w, a. repeat split; intros; congruence. }
  destruct (is_dir file) eqn:Hdir.
  - destruct (os_listdir w (full_path file)) as [l|e] eqn:Hls.
    + destruct l as [|x l]; cbn [Py.len List.length Z.of_nat Z.eqb].
      * destruct (os_rmdir w (full_path file)) as [w1|e] eqn:Hrm.
        -- eexists. eexists. split; [reflexivity|].
           cbn [current_path clipboard set_selected_idx files selected_idx
                message color].
           rewrite refresh_files_current_path, refresh_files_clipboard,
             refresh_files_listing, refresh_files_selected_idx,
             refresh_files_message.
           cbn [current_path clipboard show_message show_hidden selected_idx
                message].
           repeat split; intros; try congruence.
        -- eexists. eexists. split; [reflexivity|].
           cbn. repeat split; intros; try congruence.
      * change (Z.pos (Pos.of_succ_nat (List.length l)) =? 0) with false.
        eexists. eexists. split; [reflexivity|].
        cbn. repeat split; intros; try congruence.
    + eexists. eexists. split; [reflexivity|].
      cbn. repeat split; intros; try congruence.
  - destruct (os_unlink w (full_path file)) as [w1|e] eqn:Hul.
    + eexists. eexists. split; [reflexivity|].
      cbn [current_path clipboard set_selected_idx files selected_idx
           message color].
      rewrite refresh_files_current_path, refresh_files_clipboard,
        refresh_files_listing, refresh_files_selected_idx,
        refresh_files_message.
      cbn [current_path clipboard show_message show_hidden selected_idx
           message].
      repeat split; intros; try congruence.
    + eexists. eexists. split; [reflexivity|].
      cbn. repeat split; intros; try congruence.
Qed.


(** The pieces of [os.path.dirname(os.path.join(cur, new_name))]. *)
Lemma prefix_slash c s : String.prefix "/" (String c s) = Ascii.eqb "/" c.
Proof.
  cbn [String.prefix]. destruct (ascii_dec "/" c) as [Heq|Hne].
  - subst c. now destruct s.
  - symmetry. now apply Ascii.eqb_neq.
Qed.

Lemma contains_slash_cons c s :
  Py.contains (String c s) "/" = Ascii.eqb "/" c || Py.contains s "/".
Proof.
  change (Py.contains (String c s) "/")
    with (String.prefix "/" (String c s) || Py.contains s "/").
  now rewrite prefix_slash.
Qed.

Lemma contains_slash_ends s n :
  Py.ends_with_slash s = true -> Py.contains (s +++ n) "/" = true.
Proof.
  induction s as [|c s IH]; [discriminate|].
  intros He. cbn [String.append]. rewrite contains_slash_cons.
  destruct s as [|c' s'].
  - cbn in He. rewrite Ascii.eqb_sym, He. reflexivity.
  - rewrite IH; [apply orb_true_r | exact He].
Qed.

Lemma head_go_no_slash n :
  Py.contains n "/" = false -> PosixPath.head_go n = "".
Proof.
  destruct n as [|c n]; [reflexivity|].
  intros Hn. cbn [PosixPath.head_go]. now rewrite Hn.
Qed.

Lemma head_go_app s n :
  Py.contains n "/" = false ->
  s = "" \/ Py.ends_with_slash s = true ->
  PosixPath.head_go (s +++ n) = s.
Proof.
  intros Hn. induction s as [|c s IH]; intros Hs.
  - now apply head_go_no_slash.
  - destruct Hs as [Hs|Hs]; [discriminate|].
    cbn [String.append PosixPath.head_go].
    change (String c (s +++ n)) with (String c s +++ n).
    rewrite (contains_slash_ends _ _ Hs). f_equal. apply IH.
    destruct s; [now left | now right].
Qed.

Lemma all_slashes_ends s :
  s <> "" -> PosixPath.all_slashes s = true -> Py.ends_with_slash s = true.
Proof.
  induction s as [|c s IH]; [congruence|]. intros _ Ha.
  cbn in Ha. apply andb_prop in Ha. destruct Ha as [Hc Ha].
  destruct s as [|c' s']; [exact Hc|].
  apply IH; [discriminate | exact Ha].
Qed.

Lemma all_slashes_snoc s :
  PosixPath.all_slashes (s +++ "/") = PosixPath.all_slashes s.
Proof.
  induction s as [|c s IH]; [reflexivity|].
  cbn [String.append PosixPath.all_slashes]. now rewrite IH.
Qed.

Lemma rstrip_slashes_snoc s :
  s <> "" -> Py.ends_with_slash s = false ->
  PosixPath.rstrip_slashes (s +++ "/") = s.
Proof.
  induction s as [|c s IH]; [congruence|]. intros _ He.
  cbn [String.append PosixPath.rstrip_slashes].
  change (String c (s +++ "/")) with (String c s +++ "/").
  rewrite all_slashes_snoc.
  destruct (PosixPath.all_slashes (String c s)) eqn:Ha.
  - apply all_slashes_ends in Ha; [congruence | discriminate].
  - f_equal. destruct s as [|c' s']; [reflexivity|].
    apply IH; [discriminate | exact He].
Qed.

Lemma dirname_join (cur new_name : string) :
  normalized_dir cur ->
  Py.contains new_name "/" = false ->
  PosixPath.dirname (PosixPath.join cur new_name) = cur.
Proof.
  intros [Hne Hcur] Hn. unfold PosixPath.join, Py.startswith.
  assert (Hpre : String.prefix "/" new_name = false).
  { destruct new_name as [|c n]; [reflexivity|].
    rewrite contains_slash_cons in Hn. apply orb_false_elim in Hn.
    rewrite prefix_slash. tauto. }
  rewrite Hpre. apply String.eqb_neq in Hne. rewrite Hne. cbn [orb].
  apply String.eqb_neq in Hne. unfold PosixPath.dirname.
  destruct (Py.ends_with_slash cur) eqn:He.
  - destruct Hcur as [Ha|Hc]; [|discriminate].
    rewrite head_go_app by auto. rewrite Ha.
    now rewrite andb_false_r.
  - replace (cur +++ "/" +++ new_name) with ((cur +++ "/") +++ new_name).
    2:{ clear. induction cur as [|c s IH]; [reflexivity|].
        cbn [String.append]. now rewrite IH. }
    rewrite head_go_app.
    + rewrite all_slashes_snoc.
      destruct (PosixPath.all_slashes cur) eqn:Ha.
      { apply all_slashes_ends in Ha; congruence. }
      assert (Hne2 : ((cur +++ "/") =? "")%string = false).
      { apply String.eqb_neq. destruct cur; discriminate. }
      rewrite Hne2. cbn [negb andb]. now apply rstrip_slashes_snoc.
    + exact Hn.
    + right. clear -Hne. induction cur as [|c s IH]; [congruence|].
      destruct s as [|c' s']; [reflexivity|].
      cbn [String.append Py.ends_with_slash] in *. apply IH. discriminate.
Qed.

(** C9 (amended) - [rename_file(new_name)] refuses the [..] entry; for any
    other selected entry it hands [os.rename] the entry's path and
    [os.path.join(current_path, new_name)], and reports the outcome; when
    [new_name] contains no slash that destination lies directly in the
    current directory. *)
Theorem rename_file_cases (w : W) (new_name : string) (a : FkFiles)
        (file : Entry) :
  selected_idx a < Py.len (files a) ->
  Py.index (files a) (selected_idx a) = Some file ->
  (name file = ".." -> rename_file w new_name a = Done (w, a)) /\
  (name file <> ".." ->
   rename_file w new_name a =
   match os_rename w (full_path file)
                   (PosixPath.join (current_path a) new_name) with
   | Returns w' =>
       Done (w', show_message w' ("Renamed to: " +++ new_name) false
                   (refresh_files w' a))
   | Raises e => Done (w, show_message w ("Error: " +++ e) true a)
   end) /\
  (normalized_dir (current_path a) ->
   Py.contains new_name "/" = false ->
   PosixPath.dirname (PosixPath.join (current_path a) new_name)
   = current_path a).
Proof.
  intros Hlt Hidx. unfold rename_file. rewrite Hidx.
  assert (Hgeb : (selected_idx a >=? Py.len (files a)) = false)
    by (rewrite Z.geb_leb; apply Z.leb_gt; exact Hlt).
  rewrite Hgeb. repeat split.
  - intros Hname. apply String.eqb_eq in Hname. now rewrite Hname.
  - intros Hname. apply String.eqb_neq in Hname. now rewrite Hname.
  - apply dirname_join.
Qed.

End FileOps.

(* ================================================================= *)
(** ** Searching *)



Section Search.

Context {W : Type} `{OS W} `{PyStr}.

Lemma match_indices_In pattern : forall fl idx i,
  In i (match_indices pattern fl idx) <->
  exists k e, i = idx + Z.of_nat k /\ nth_error fl k = Some e /\
              matches_name pattern e = true.
Proof.
  induction fl as [|e fl IH]; intros idx i; cbn [match_indices].
  - split; [intros [] | intros (k & e & _ & Hk & _); now destruct k].
  - assert (Hrest : In i (match_indices pattern fl (idx + 1)) <->
                    exists k e', i = idx + Z.of_nat (S k) /\
                                 nth_error fl k = Some e' /\
                                 matches_name pattern e' = true).
    { rewrite IH. split; intros (k & e' & Hi & Hk); exists k, e';
        (split; [lia | exact Hk]). }
    destruct (matches_name pattern e) eqn:Hm; cbn [In]; rewrite Hrest; split.
    + intros [Hi|(k & e' & Hk)].
      * exists 0%nat, e. cbn. repeat split; [lia | exact Hm].
      * exists (S k), e'. exact Hk.
    + intros (k & e' & Hi & Hk & Hm'). destruct k as [|k].
      * left. lia.
      * right. exists k, e'. auto.
    + intros (k & e' & Hk). exists (S k), e'. exact Hk.
    + intros (k & e' & Hi & Hk & Hm'). destruct k as [|k].
      * cbn in Hk. congruence.
      * exists k, e'. auto.
Qed.

(** The loop with its [break] computes the capped list of matches. *)
Lemma search_loop_spec pattern : forall fl idx found,
  (found < 5)%nat ->
  search_loop (str_lower pattern) fl idx found
  = firstn (5 - found) (match_indices pattern fl idx).
Proof.
  induction fl as [|e fl IH]; intros idx found Hf;
    cbn [search_loop match_indices].
  - now rewrite firstn_nil.
  - unfold matches_name at 1.
    destruct (Py.contains (str_lower (name e)) (str_lower pattern)).
    + destruct (Nat.leb_spec 5 (S found)) as [Hge|Hlt].
      * replace (5 - found)%nat with 1%nat by lia. reflexivity.
      * replace (5 - found)%nat with (S (5 - S found)) by lia.
        cbn [firstn]. f_equal. apply IH. lia.
    + now apply IH.
Qed.


End Search.

(* ================================================================= *)
(** ** The statements on concrete inputs *)

(** C9 (as stated) fails: renaming [readme.txt] to [/tmp/b] moves it from
    [/home/u] to [/tmp]. *)
Lemma rename_file_leaves_directory_counterexample :
  let a := set_selected_idx 3 Examples.at_home in
  option_map full_path (Py.index (files a) (selected_idx a))
  = Some "/home/u/readme.txt" /\
  exists w' a',
    rename_file Examples.home_world "/tmp/b" a = Done (w', a') /\
    message a' = "Renamed to: /tmp/b" /\
    os_path_isfile w' "/home/u/readme.txt" = false /\
    os_path_isfile w' "/tmp/b" = true /\
    PosixPath.dirname "/tmp/b" <> PosixPath.dirname "/home/u/readme.txt".
Proof.
  cbv zeta. split; [reflexivity|].
  eexists. eexists. split; [vm_compute; reflexivity|].
  repeat (split; [reflexivity|]). vm_compute. discriminate.
Qed.

Lemma rename_file_cases_witness :
  let a := set_selected_idx 3 Examples.at_home in
  let file := mkEntry "readme.txt" false 120 1700000000 "-rw-r--r--"
                      "/home/u/readme.txt" in
  Py.index (files a) (selected_idx a) = Some file /\
  PosixPath.dirname (PosixPath.join (current_path a) "notes.txt")
  = current_path a /\
  exists w' a',
    rename_file Examples.home_world "notes.txt" a = Done (w', a') /\
    os_path_isfile w' "/home/u/notes.txt" = true.
Proof.
  cbv zeta.
  destruct (rename_file_cases Examples.home_world "notes.txt"
              (set_selected_idx 3 Examples.at_home)
              (mkEntry "readme.txt" false 120 1700000000 "-rw-r--r--"
                       "/home/u/readme.txt"))
    as (_ & Hren & Hdir).
  - vm_compute. reflexivity.
  - reflexivity.
  - split; [reflexivity|]. split.
    + apply Hdir; [|reflexivity].
      split; [discriminate | right; reflexivity].
    + rewrite Hren by discriminate.
      eexists. eexists. split; [vm_compute; reflexivity | reflexivity].
Defined.



(** C6 (as stated) fails: [secret] holds the file [key] but cannot be
    listed; [delete_file] on it reports the listing error, not
    [Directory not empty!]. *)
Lemma delete_file_unlistable_directory_counterexample :
  let w := Examples.locked_world in
  let a := set_selected_idx 1 Examples.at_locked_home in
  option_map full_path (Py.index (files a) (selected_idx a))
  = Some "/home/u/secret" /\
  option_map is_dir (Py.index (files a) (selected_idx a)) = Some true /\
  os_path_isfile w "/home/u/secret/key" = true /\
  exists w' r,
    delete_file w a = Done (w', r) /\
    message r = "Error: [Errno 13] Permission denied: '/home/u/secret'" /\
    message r <> "Directory not empty!".
Proof.
  cbv zeta. split; [reflexivity|]. split; [reflexivity|].
  split; [reflexivity|].
  eexists. eexists. split; [vm_compute; reflexivity|].
  split; [reflexivity | discriminate].
Qed.

Lemma delete_file_cases_witness :
  let w := Examples.home_world in
  let a := set_selected_idx 1 Examples.at_home in
  let docs := mkEntry "docs" true 4096 1700000000 "drwxr-xr-x" "/home/u/docs" in
  selected_idx a < Py.len (files a) /\
  Py.index (files a) (selected_idx a) = Some docs /\
  os_listdir w "/home/u/docs" = Returns ["a"] /\
  (exists w' r,
      delete_file w a = Done (w', r) /\
      w' = w /\ files r = files a /\ selected_idx r = 1 /\
      message r = "Directory not empty!" /\ color r = 4) /\
  (exists w' r,
      delete_file w (set_selected_idx 3 Examples.at_home) = Done (w', r) /\
      os_path_isfile w' "/home/u/readme.txt" = false /\
      map name (files r) = [".."; "docs"; "secret"] /\
      selected_idx r = 2 /\ message r = "File deleted: readme.txt").
Proof.
  cbv zeta. split; [reflexivity|]. split; [reflexivity|].
  split; [reflexivity|].
  split;
    [|eexists; eexists; split; [vm_compute; reflexivity|];
      repeat split; reflexivity].
  destruct (delete_file_cases Examples.home_world
              (set_selected_idx 1 Examples.at_home)
              (mkEntry "docs" true 4096 1700000000 "drwxr-xr-x" "/home/u/docs"))
    as (w' & r & Hdel & _ & _ & _ & Hfull & _); [reflexivity | reflexivity |].
  destruct (Hfull ltac:(discriminate) eq_refl ["a"] eq_refl ltac:(discriminate))
    as (Hw & Hf & Hs & Hm & Hc).
  exists w', r. split; [exact Hdel|]. split; [exact Hw|].
  split; [exact Hf|]. split; [exact Hs|]. split; [exact Hm | exact Hc].
Defined.


(* ================================================================= *)
(** ** What a whole session keeps *)

Section Session.

Context {W : Type} `{OS W} `{PyStr}.

(** The invariant reads five attributes only. *)
Lemma session_inv_frame (a a' : FkFiles) :
  current_path a' = current_path a ->
  files a' = files a ->
  clipboard a' = clipboard a ->
  command_mode a' = command_mode a ->
  command a' = command a ->
  session_inv a -> session_inv a'.
Proof.
  unfold session_inv, clipboard_ok, command_idle, listing_coherent.
  intros -> -> -> -> ->. auto.
Qed.

Lemma refresh_files_command (w : W) a :
  command_mode (refresh_files w a) = command_mode a /\
  command (refresh_files w a) = command a.
Proof.
  unfold refresh_files. now destruct (os_listdir w (current_path a)).
Qed.

Lemma refresh_files_show_hidden (w : W) a :
  show_hidden (refresh_files w a) = show_hidden a.
Proof.
  unfold refresh_files. now destruct (os_listdir w (current_path a)).
Qed.

(** A refreshed listing belongs to the current path, whatever was listed
    before. *)
Lemma refresh_files_coherent (w : W) a :
  listing_coherent (refresh_files w a).
Proof.
  unfold listing_coherent. rewrite refresh_files_current_path. split.
  - apply Forall_forall. intros e Hin.
    apply refresh_files_In in Hin. destruct Hin as [->|(names & _ & Hin)].
    + reflexivity.
    + apply scan_entries_In in Hin. destruct Hin as (si & _ & Hfp & _).
      exact Hfp.
  - intros Hroot. unfold refresh_files.
    apply String.eqb_neq in Hroot. rewrite Hroot. cbn [negb].
    destruct (os_listdir w (current_path a)); cbn; eauto.
Qed.

Lemma session_inv_refresh (w : W) a :
  clipboard_ok a -> command_idle a -> session_inv (refresh_files w a).
Proof.
  intros Hc Hi. unfold session_inv, clipboard_ok, command_idle.
  rewrite refresh_files_clipboard.
  destruct (refresh_files_command w a) as [-> ->].
  auto using refresh_files_coherent.
Qed.

Lemma session_inv_show_message (w : W) msg err a :
  session_inv a -> session_inv (show_message w msg err a).
Proof. now apply session_inv_frame. Qed.

Lemma session_inv_navigate_to (w : W) path a :
  session_inv a -> session_inv (navigate_to w path a).
Proof.
  intros (Hc & Hi & Hl). unfold navigate_to.
  destruct (abspath w path) as [p|e].
  - apply session_inv_refresh; [exact Hc | exact Hi].
  - apply session_inv_show_message. unfold session_inv. auto.
Qed.

Lemma session_inv_open_file (w : W) path a :
  session_inv a -> session_inv (snd (open_file w path a)).
Proof.
  intros Hinv. unfold open_file. destruct (os_path_isdir w path).
  - now apply session_inv_navigate_to.
  - destruct (run_opener w path) as [[e|] w']; cbn [snd];
      [now apply session_inv_show_message | exact Hinv].
Qed.

Lemma session_inv_delete_file (w : W) a w' a' :
  delete_file w a = Done (w', a') -> session_inv a -> session_inv a'.
Proof.
  intros Hd Hinv. pose proof Hinv as (Hc & Hi & Hl). unfold delete_file in Hd.
  assert (Hfin : forall w1 msg,
             session_inv
               (let a1 := refresh_files w1 (show_message w1 msg false a) in
                set_selected_idx
                  (Z.min (selected_idx a1) (Py.len (files a1) - 1)) a1)).
  { intros w1 msg. cbv zeta.
    eapply session_inv_frame;
      [| | | | | apply (session_inv_refresh w1 (show_message w1 msg false a))];
      try reflexivity; assumption. }
  destruct (selected_idx a >=? Py.len (files a)); [congruence|].
  destruct (Py.index (files a) (selected_idx a)) as [file|]; [|discriminate].
  destruct (String.eqb (name file) ".."); [congruence|].
  destruct (is_dir file).
  - destruct (os_listdir w (full_path file)) as [l|e].
    + destruct (Py.len l =? 0).
      * destruct (os_rmdir w (full_path file)) as [w1|e];
          injection Hd as <- <-;
          [apply Hfin | now apply session_inv_show_message].
      * injection Hd as <- <-. now apply session_inv_show_message.
    + injection Hd as <- <-. now apply session_inv_show_message.
  - destruct (os_unlink w (full_path file)) as [w1|e];
      injection Hd as <- <-;
      [apply Hfin | now apply session_inv_show_message].
Qed.

Lemma session_inv_set_one (w : W) msg cut p a :
  session_inv a ->
  session_inv (show_message w msg false
                 (set_clipboard_is_cut cut (set_clipboard [p] a))).
Proof.
  intros (Hc & Hi & Hl). split; [|split].
  - unfold clipboard_ok. cbn. lia.
  - exact Hi.
  - exact Hl.
Qed.

Lemma session_inv_copy_file (w : W) a a' :
  copy_file w a = Done a' -> session_inv a -> session_inv a'.
Proof.
  unfold copy_file. intros Hd Hinv.
  destruct (selected_idx a <? Py.len (files a)); [|congruence].
  destruct (Py.index (files a) (selected_idx a)); [|discriminate].
  injection Hd as <-. now apply session_inv_set_one.
Qed.

Lemma session_inv_cut_file (w : W) a a' :
  cut_file w a = Done a' -> session_inv a -> session_inv a'.
Proof.
  unfold cut_file. intros Hd Hinv.
  destruct (selected_idx a <? Py.len (files a)); [|congruence].
  destruct (Py.index (files a) (selected_idx a)); [|discriminate].
  injection Hd as <-. now apply session_inv_set_one.
Qed.

Lemma session_inv_paste_one src (wa : W * FkFiles) :
  session_inv (snd wa) -> session_inv (snd (paste_one src wa)).
Proof.
  destruct wa as [w a]. cbn [snd]. intros Hinv. unfold paste_one.
  destruct (clipboard_is_cut a).
  - destruct (os_rename w src _); now apply session_inv_show_message.
  - destruct (run_cp w _ src _) as [[e|] w'];
      now apply session_inv_show_message.
Qed.

Lemma session_inv_paste_loop l : forall (wa : W * FkFiles),
  session_inv (snd wa) ->
  session_inv (snd (fold_left (fun wa src => paste_one src wa) l wa)).
Proof.
  induction l as [|src l IH]; intros wa Hinv; [exact Hinv|].
  cbn [fold_left]. apply IH. now apply session_inv_paste_one.
Qed.

Lemma session_inv_paste_files (w : W) a :
  session_inv a -> session_inv (snd (paste_files w a)).
Proof.
  intros Hinv. unfold paste_files.
  destruct (clipboard a) as [|src l] eqn:Hcl.
  - now apply session_inv_show_message.
  - pose proof (session_inv_paste_loop (src :: l) (w, a) Hinv) as Hloop.
    destruct (fold_left (fun wa src0 => paste_one src0 wa) (src :: l) (w, a))
      as [w' a'].
    cbn [snd] in *. destruct Hloop as (_ & Hi & _).
    apply session_inv_refresh; [|exact Hi].
    unfold clipboard_ok. cbn. lia.
Qed.

Lemma session_inv_rename_file (w : W) new_name a w' a' :
  rename_file w new_name a = Done (w', a') -> session_inv a -> session_inv a'.
Proof.
  intros Hd Hinv. pose proof Hinv as (Hc & Hi & Hl). unfold rename_file in Hd.
  destruct (selected_idx a >=? Py.len (files a)); [congruence|].
  destruct (Py.index (files a) (selected_idx a)) as [file|]; [|discriminate].
  destruct (String.eqb (name file) ".."); [congruence|].
  destruct (os_rename w (full_path file) _) as [w1|e]; injection Hd as <- <-.
  - apply session_inv_show_message. now apply session_inv_refresh.
  - now apply session_inv_show_message.
Qed.

Lemma session_inv_create_directory (w : W) dir_name a :
  session_inv a -> session_inv (snd (create_directory w dir_name a)).
Proof.
  intros Hinv. pose proof Hinv as (Hc & Hi & Hl). unfold create_directory.
  destruct (os_makedirs w _) as [[e|] w']; cbn [snd].
  - now apply session_inv_show_message.
  - apply session_inv_show_message. now apply session_inv_refresh.
Qed.

Lemma session_inv_search_file (w : W) pattern a :
  session_inv a -> session_inv (search_file w pattern a).
Proof.
  intros Hinv. unfold search_file.
  destruct (search_loop (str_lower pattern) (files a) 0 0);
    eapply session_inv_frame; try exact Hinv; reflexivity.
Qed.

Lemma session_inv_view_file (w : W) path a :
  session_inv a -> session_inv (snd (view_file w path a)).
Proof.
  intros Hinv. unfold view_file.
  destruct (negb (os_path_isfile w path)); cbn [snd];
    [now apply session_inv_show_message | exact Hinv].
Qed.

Lemma session_inv_execute_command (s s' : Sys W) :
  execute_command s = Done s' -> session_inv (app s) -> session_inv (app s').
Proof.
  intros Hd Hinv. pose proof Hinv as (Hc & Hi & Hl).
  unfold execute_command in Hd.
  destruct (Py.startswith (command (app s)) "/").
  { injection Hd as <-. now apply session_inv_search_file. }
  destruct (Py.split (command (app s))) as [|cmd args].
  { now injection Hd as <-. }
  destruct (String.eqb cmd "q"); [discriminate|].
  destruct (String.eqb cmd "hdn").
  { injection Hd as <-. cbn [app with_app].
    apply session_inv_show_message. now apply session_inv_refresh. }
  destruct (String.eqb cmd "mkdir" && _).
  { injection Hd as <-. now apply session_inv_create_directory. }
  destruct (String.eqb cmd "ren" && _).
  { destruct (rename_file (world s) (Py.join " " args) (app s))
      as [[w' a']| |] eqn:Hren; try discriminate.
    injection Hd as <-. cbn [app with_world_app snd].
    now apply (session_inv_rename_file _ _ _ _ _ Hren). }
  destruct (String.eqb cmd "about").
  { unfold show_about, wait_key in Hd.
    destruct (getch (term s)) as [[k t']|]; [|discriminate].
    now injection Hd as <-. }
  destruct (String.eqb cmd "ss" && _).
  { injection Hd as <-. now apply session_inv_search_file. }
  destruct (String.eqb cmd "p" && _).
  { destruct (os_path_isdir (world s) (Py.join " " args));
      injection Hd as <-; cbn [app with_app];
      [now apply session_inv_navigate_to | now apply session_inv_show_message]. }
  injection Hd as <-. now apply session_inv_show_message.
Qed.

Lemma session_inv_handle_mouse_event (s : Sys W) :
  session_inv (app s) -> session_inv (app (handle_mouse_event s)).
Proof.
  intros Hinv. unfold handle_mouse_event.
  destruct (getmouse (term s)) as [[ev t']|]; [|exact Hinv].
  cbn [app world term].
  destruct (_ || _ || _ || _ || _); [exact Hinv|].
  destruct (truthy (Z.land (bstate ev) BUTTON1_CLICKED)).
  - destruct (_ && _); [|exact Hinv].
    destruct (_ <? _); [|exact Hinv].
    assert (Hsel : session_inv
                     (set_selected_idx (top_idx (app s) + (mouse_y ev - 1)) (app s)))
      by (eapply session_inv_frame; try exact Hinv; reflexivity).
    destruct (truthy (Z.land (bstate ev) BUTTON1_DOUBLE_CLICKED)); [|exact Hsel].
    destruct (Py.index _ _) as [file|]; [|exact Hsel].
    cbn [app with_world_app]. now apply session_inv_open_file.
  - destruct (truthy (Z.land (bstate ev) BUTTON3_CLICKED)); [|exact Hinv].
    destruct (_ <? _); [|exact Hinv].
    destruct (Py.index _ _) as [file|]; [|exact Hinv].
    destruct (negb _); [|exact Hinv].
    now apply session_inv_show_message.
Qed.

Lemma session_inv_command_key key (s s' : Sys W) :
  command_mode (app s) = true ->
  command_key key s = Done s' ->
  session_inv (app s) -> session_inv (app s').
Proof.
  intros Hmode Hd Hinv. pose proof Hinv as (Hc & Hi & Hl).
  assert (Hreset : forall a, session_inv a ->
             session_inv (set_command "" (set_command_mode false a))).
  { intros a (Hc' & _ & Hl'). split; [exact Hc'|]. split; [|exact Hl'].
    intros _. reflexivity. }
  assert (Hedit : forall c, session_inv (set_command c (app s))).
  { intros c. split; [exact Hc|]. split; [|exact Hl].
    unfold command_idle. cbn. congruence. }
  unfold command_key in Hd.
  destruct (key =? 27).
  { injection Hd as <-. now apply Hreset. }
  destruct ((key =? KEY_BACKSPACE) || (key =? 127)).
  { injection Hd as <-. apply Hedit. }
  destruct (key =? 10).
  { destruct (execute_command s) as [s1| |] eqn:Hex; try discriminate.
    injection Hd as <-. cbn [app with_app]. apply Hreset.
    now apply (session_inv_execute_command _ _ Hex). }
  destruct ((32 <=? key) && (key <=? 126)); injection Hd as <-;
    [apply Hedit | exact Hinv].
Qed.

Lemma session_inv_chord (s s' : Sys W) second fire :
  (forall s1 s2, app s1 = app s -> fire s1 = Done s2 ->
                 session_inv (app s2)) ->
  chord s second fire = Done s' ->
  session_inv (app s) -> session_inv (app s').
Proof.
  intros Hfire Hd Hinv. unfold chord in Hd.
  destruct (getch (term s)) as [[k t']|]; [|discriminate].
  destruct (k =? second).
  - eapply Hfire; [|exact Hd]. reflexivity.
  - now injection Hd as <-.
Qed.

Lemma session_inv_normal_key key (s s' : Sys W) :
  normal_key key s = Done s' ->
  session_inv (app s) -> session_inv (app s').
Proof.
  intros Hd Hinv. pose proof Hinv as (Hc & Hi & Hl).
  assert (Hmove : forall sel top,
             session_inv (set_top_idx top (set_selected_idx sel (app s))))
    by (intros; eapply session_inv_frame; try exact Hinv; reflexivity).
  assert (Hmove1 : forall sel, session_inv (set_selected_idx sel (app s)))
    by (intros; eapply session_inv_frame; try exact Hinv; reflexivity).
  assert (Henter : forall c,
             session_inv (set_command c (set_command_mode true (app s)))).
  { intros c. split; [exact Hc|]. split; [|exact Hl].
    unfold command_idle. cbn. discriminate. }
  unfold normal_key in Hd.
  destruct ((key =? Py.ord "j") || (key =? KEY_DOWN)).
  { destruct (_ <? _); [|now injection Hd as <-].
    destruct (_ >=? _); injection Hd as <-; [apply Hmove | apply Hmove1]. }
  destruct ((key =? Py.ord "k") || (key =? KEY_UP)).
  { destruct (_ >? _); [|now injection Hd as <-].
    destruct (_ <? _); injection Hd as <-; [apply Hmove | apply Hmove1]. }
  destruct ((key =? Py.ord "l") || (key =? 10)).
  { destruct (_ >? _); [|now injection Hd as <-].
    destruct (Py.index _ _) as [file|]; [|discriminate].
    injection Hd as <-. now apply session_inv_open_file. }
  destruct (key =? Py.ord "h").
  { destruct (negb _); injection Hd as <-;
      [now apply session_inv_navigate_to | exact Hinv]. }
  destruct (key =? Py.ord "g").
  { apply (session_inv_chord _ _ _ _) with (3 := Hinv) in Hd; [exact Hd|].
    intros s1 s2 Happ Hf. injection Hf as <-. cbn [app with_app].
    rewrite Happ. apply Hmove. }
  destruct (key =? Py.ord "G").
  { injection Hd as <-. apply Hmove. }
  destruct (key =? Py.ord ":").
  { injection Hd as <-. apply Henter. }
  destruct (key =? Py.ord "/").
  { injection Hd as <-. apply Henter. }
  destruct (key =? Py.ord "?").
  { unfold show_help, wait_key in Hd.
    destruct (getch (term s)) as [[k t']|]; [|discriminate].
    now injection Hd as <-. }
  destruct (key =? Py.ord "d").
  { apply (session_inv_chord _ _ _ _) with (3 := Hinv) in Hd; [exact Hd|].
    intros s1 s2 Happ Hf. unfold lift_world_app in Hf.
    destruct (delete_file (world s1) (app s1)) as [[w' a']| |] eqn:Hdel;
      try discriminate.
    injection Hf as <-. cbn [app with_world_app snd].
    apply (session_inv_delete_file _ _ _ _ Hdel). now rewrite Happ. }
  destruct (key =? Py.ord "y").
  { apply (session_inv_chord _ _ _ _) with (3 := Hinv) in Hd; [exact Hd|].
    intros s1 s2 Happ Hf. unfold lift_app in Hf.
    destruct (copy_file (world s1) (app s1)) as [a'| |] eqn:Hcp;
      try discriminate.
    injection Hf as <-. cbn [app with_app].
    apply (session_inv_copy_file _ _ _ Hcp). now rewrite Happ. }
  destruct (key =? Py.ord "p").
  { apply (session_inv_chord _ _ _ _) with (3 := Hinv) in Hd; [exact Hd|].
    intros s1 s2 Happ Hf. injection Hf as <-. cbn [app with_world_app].
    apply session_inv_paste_files. now rewrite Happ. }
  destruct (key =? Py.ord "v").
  { destruct (_ >? _); [|now injection Hd as <-].
    destruct (Py.index _ _) as [file|]; [|discriminate].
    destruct (negb (is_dir file)); injection Hd as <-;
      [now apply session_inv_view_file | exact Hinv]. }
  now injection Hd as <-.
Qed.

Lemma session_inv_handle_input (s s' : Sys W) :
  handle_input s = Done s' ->
  session_inv (app s) -> session_inv (app s').
Proof.
  intros Hd Hinv. unfold handle_input in Hd.
  destruct (getch (term s)) as [[key t']|]; [|discriminate].
  destruct (key =? KEY_MOUSE).
  { injection Hd as <-. now apply session_inv_handle_mouse_event. }
  cbn [app] in Hd.
  destruct (command_mode (app s)) eqn:Hmode.
  - eapply (session_inv_command_key key); [|exact Hd|]; assumption.
  - eapply (session_inv_normal_key key); [exact Hd|]; assumption.
Qed.

(** X1 - The three invariants hold throughout a session: whatever keys and
    mouse events arrive and whatever the operating system answers, after
    any number of turns of the main loop the clipboard holds at most one
    path, the command buffer is empty outside command mode, and the
    listing belongs to [current_path]. *)
Theorem main_loop_keeps_session_inv (n : nat) :
  forall (s s' : Sys W),
  session_inv (app s) ->
  main_loop n s = Done s' ->
  session_inv (app s').
Proof.
  induction n as [|n IH]; intros s s' Hinv Hd; cbn [main_loop] in Hd.
  - now injection Hd as <-.
  - destruct (handle_input s) as [s1| |] eqn:Hstep; try discriminate.
    apply (IH s1 s'); [|exact Hd].
    now apply (session_inv_handle_input _ _ Hstep).
Qed.

End Session.

(* ================================================================= *)
(** ** Start-up, permission strings and the hidden-file filter *)

Section Startup.

Context {W : Type} `{OS W} `{PyStr}.

(** X2 - When [FkFiles(stdscr)] returns an object, the terminal is at least
    40x10, the panel divider is a column strictly inside the frame, the
    selection is at the top, nothing is pending, and the session
    invariants hold; away from the root the listing starts with [..], so
    the selection is a valid index inside any window of at least one row,
    even when the directory could not be listed. *)
Theorem init_establishes_invariants (w : W) (t : Terminal) (a : FkFiles) :
  init w t = Started a ->
  10 <= max_y t /\ 40 <= max_x t /\
  panel_width a = max_x t / 2 - 1 /\
  19 <= panel_width a < max_x t - 1 /\
  os_getcwd w = Returns (current_path a) /\
  selected_idx a = 0 /\ top_idx a = 0 /\
  command_mode a = false /\ clipboard a = [] /\ show_hidden a = false /\
  session_inv a /\
  (current_path a <> "/" -> forall rows, 1 <= rows -> window_inv rows a).
Proof.
  unfold init, check_terminal_size. intros Hinit.
  destruct (os_getcwd w) as [p|e]; [|discriminate].
  destruct ((max_y t <? 10) || (max_x t <? 40)) eqn:Hsize; [discriminate|].
  apply orb_false_elim in Hsize. destruct Hsize as [Hy Hx].
  apply Z.ltb_ge in Hy, Hx.
  injection Hinit as <-.
  set (a0 := mkFkFiles p [] 0 0 false "" "" 0 0 false [] false (max_x t / 2 - 1)).
  assert (Hpw : panel_width (refresh_files w a0) = max_x t / 2 - 1).
  { unfold refresh_files. now destruct (os_listdir w (current_path a0)). }
  assert (Hinv : session_inv (refresh_files w a0)).
  { apply session_inv_refresh.
    - unfold clipboard_ok. cbn. lia.
    - intros _. reflexivity. }
  rewrite Hpw, refresh_files_current_path, refresh_files_selected_idx,
    refresh_files_clipboard, refresh_files_show_hidden.
  destruct (refresh_files_command w a0) as [-> _].
  assert (Htop : top_idx (refresh_files w a0) = 0).
  { unfold refresh_files. now destruct (os_listdir w (current_path a0)). }
  rewrite Htop. cbn [current_path selected_idx clipboard show_hidden
                     command_mode a0].
  pose proof (Z.div_le_mono 40 (max_x t) 2 ltac:(lia) Hx) as Hdiv.
  change (40 / 2) with 20 in Hdiv.
  pose proof (Z.mul_div_le (max_x t) 2 ltac:(lia)) as Hmul.
  repeat (split; [first [reflexivity | lia | assumption]|]).
  intros Hroot rows Hrows.
  destruct Hinv as (_ & _ & _ & Hshape).
  rewrite refresh_files_current_path in Hshape.
  destruct (Hshape Hroot) as [rest Hfiles].
  unfold window_inv. rewrite Hfiles, Htop, refresh_files_selected_idx.
  unfold Py.len. cbn [List.length selected_idx a0]. lia.
Qed.

(** X3 - For a mode as [os.stat] reports it (an unsigned 32-bit number),
    [get_mode_str] gives ten characters; the first is [d] exactly for a
    directory mode, and each of the three execute positions that
    [draw_interface] reads (3, 6 and 9) holds [x] exactly when the bit is
    set. *)
Theorem get_mode_str_shape (m : Z) :
  0 <= m < 2 ^ 32 ->
  String.length (get_mode_str m) = 10%nat /\
  (String.get 0 (get_mode_str m) = Some "d"%char <-> S_ISDIR m = true) /\
  (String.get 3 (get_mode_str m) = Some "x"%char <-> Z.land m 64 <> 0) /\
  (String.get 6 (get_mode_str m) = Some "x"%char <-> Z.land m 8 <> 0) /\
  (String.get 9 (get_mode_str m) = Some "x"%char <-> Z.land m 1 <> 0).
Proof.
  intros _. unfold get_mode_str. cbn -[Z.land S_ISDIR].
  split; [reflexivity|]. split.
  { destruct (S_ISDIR m); split; intros Hx; congruence. }
  repeat split; intros Hx.
  all: try (destruct (Z.eqb_spec (Z.land m 64) 0) as [He|He];
            cbn in Hx |- *; congruence).
  all: try (destruct (Z.eqb_spec (Z.land m 8) 0) as [He|He];
            cbn in Hx |- *; congruence).
  all: try (destruct (Z.eqb_spec (Z.land m 1) 0) as [He|He];
            cbn in Hx |- *; congruence).
Qed.

(** Every listing that [refresh_files] builds has complete permission
    strings. *)
Lemma scan_entries_modes (w : W) cur hidden names :
  Forall (fun e => is_dir e = true \/ String.length (mode e) = 10%nat)
         (scan_entries w cur hidden names).
Proof.
  induction names as [|n names IH]; cbn [scan_entries]; [constructor|].
  destruct (negb hidden && Py.startswith n "."); [exact IH|].
  destruct (os_stat w (PosixPath.join cur n)); [|exact IH].
  constructor; [right; reflexivity | exact IH].
Qed.

Lemma refresh_files_modes_complete (w : W) (a : FkFiles) :
  modes_complete (refresh_files w a).
Proof.
  unfold modes_complete. apply Forall_forall. intros e Hin.
  apply refresh_files_In in Hin.
  destruct Hin as [->|(names & _ & Hin)]; [left; reflexivity|].
  pose proof (scan_entries_modes w (current_path a) (show_hidden a) names)
    as Hall.
  rewrite Forall_forall in Hall. now apply Hall.
Qed.

(** Entries that the scan lets through. *)
Lemma scan_entries_hidden (w : W) cur names e :
  In e (scan_entries w cur false names) ->
  Py.startswith (name e) "." = false.
Proof.
  induction names as [|n names IH]; cbn [scan_entries]; [intros []|].
  cbn [negb andb].
  destruct (Py.startswith n ".") eqn:Hdot; [exact IH|].
  destruct (os_stat w (PosixPath.join cur n)); [|exact IH].
  intros [<-|Hin]; [exact Hdot | now apply IH].
Qed.

(** X4 - With hidden files off, a refreshed listing shows no name that starts
    with a dot, the synthetic [..] apart. *)
Theorem refresh_files_hides_dot_names (w : W) (a : FkFiles) (e : Entry) :
  show_hidden a = false ->
  In e (files (refresh_files w a)) ->
  e = parent_entry (current_path a) \/ Py.startswith (name e) "." = false.
Proof.
  intros Hh Hin. apply refresh_files_In in Hin.
  destruct Hin as [->|(names & _ & Hin)]; [now left|].
  right. rewrite Hh in Hin. now apply scan_entries_hidden in Hin.
Qed.

(** X6 - Away from the root a successful refresh is a stable sort behind [..]:
    the listing holds exactly the scanned entries, directories before
    files and by lowered name within each kind, and entries whose sort
    keys are equal (the same kind and names that differ by letter case
    only) keep the order in which [os.listdir] gave them. *)
Theorem refresh_files_stable (w : W) (a : FkFiles) (names : list string)
        (k : bool * string) :
  current_path a <> "/" ->
  os_listdir w (current_path a) = Returns names ->
  exists rest,
    files (refresh_files w a) = parent_entry (current_path a) :: rest /\
    StronglySorted entry_le rest /\
    filter (has_key k) rest
    = filter (has_key k)
             (scan_entries w (current_path a) (show_hidden a) names) /\
    Permutation (scan_entries w (current_path a) (show_hidden a) names) rest.
Proof.
  intros Hroot Hls. eexists.
  split; [exact (refresh_files_nonroot w a names Hroot Hls)|].
  split; [apply sorted_sorted|].
  split; [apply sorted_stable | apply sorted_perm].
Qed.

End Startup.

Lemma main_loop_keeps_session_inv_witness :
  let s := mkSys Examples.home_world
             (MemFS.terminal
                [Py.ord "y"; Py.ord "y"; Py.ord ":"; Py.ord "h"; Py.ord "d";
                 Py.ord "n"; 10; Py.ord "G"])
             Examples.at_home in
  session_inv (app s) /\
  exists s',
    main_loop 7 s = Done s' /\
    session_inv (app s') /\
    clipboard (app s') = ["/home/u/.."] /\
    show_hidden (app s') = true /\
    Py.len (files (app s')) = 5.
Proof.
  cbv zeta.
  assert (Hinv : session_inv Examples.at_home).
  { apply session_inv_refresh.
    - unfold clipboard_ok. cbn. lia.
    - intros _. reflexivity. }
  split; [exact Hinv|].
  eexists. split; [vm_compute; reflexivity|].
  split.
  - eapply (main_loop_keeps_session_inv 7
              (mkSys Examples.home_world
                 (MemFS.terminal
                    [Py.ord "y"; Py.ord "y"; Py.ord ":"; Py.ord "h"; Py.ord "d";
                     Py.ord "n"; 10; Py.ord "G"])
                 Examples.at_home)).
    + exact Hinv.
    + vm_compute. reflexivity.
  - repeat split.
Defined.

Lemma init_establishes_invariants_witness :
  init Examples.home_world (MemFS.terminal []) = Started Examples.at_home_started /\
  panel_width Examples.at_home_started = 39 /\
  session_inv Examples.at_home_started /\
  window_inv 19 Examples.at_home_started.
Proof.
  assert (Hinit : init Examples.home_world (MemFS.terminal [])
                  = Started Examples.at_home_started) by reflexivity.
  destruct (init_establishes_invariants _ _ _ Hinit)
    as (_ & _ & _ & _ & _ & _ & _ & _ & _ & _ & Hinv & Hwin).
  split; [exact Hinit|]. split; [reflexivity|]. split; [exact Hinv|].
  apply Hwin; [discriminate | lia].
Defined.

Lemma get_mode_str_shape_witness :
  0 <= 33261 < 2 ^ 32 /\
  get_mode_str 33261 = "-rwxr-xr-x" /\
  get_mode_str 16877 = "drwxr-xr-x" /\
  get_mode_str 33188 = "-rw-r--r--" /\
  String.length (get_mode_str 33261) = 10%nat /\
  (String.get 3 (get_mode_str 33261) = Some "x"%char <-> Z.land 33261 64 <> 0).
Proof.
  assert (Hr : 0 <= 33261 < 2 ^ 32) by (split; [discriminate | reflexivity]).
  destruct (get_mode_str_shape 33261 Hr) as (Hlen & _ & Hx & _).
  split; [exact Hr|]. do 3 (split; [reflexivity|]).
  split; [exact Hlen | exact Hx].
Defined.

Lemma refresh_files_hides_dot_names_witness :
  let e := mkEntry "readme.txt" false 120 1700000000 "-rw-r--r--"
                   "/home/u/readme.txt" in
  os_listdir Examples.home_world "/home/u"
  = Returns ["readme.txt"; "docs"; ".hid"; "secret"] /\
  In e (files (refresh_files Examples.home_world (MemFS.fresh "/home/u"))) /\
  (e = parent_entry "/home/u" \/ Py.startswith (name e) "." = false).
Proof.
  cbv zeta.
  assert (Hin : In (mkEntry "readme.txt" false 120 1700000000 "-rw-r--r--"
                            "/home/u/readme.txt")
                   (files (refresh_files Examples.home_world
                                         (MemFS.fresh "/home/u")))).
  { vm_compute. tauto. }
  split; [reflexivity|]. split; [exact Hin|].
  exact (refresh_files_hides_dot_names Examples.home_world
           (MemFS.fresh "/home/u") _ eq_refl Hin).
Defined.

Lemma refresh_files_stable_witness :
  (exists rest,
      files (refresh_files Examples.case_world (MemFS.fresh "/d"))
      = parent_entry "/d" :: rest /\
      map name rest = ["sub"; "Sub"; "b.txt"; "NOTES"; "notes"] /\
      map name (filter (has_key (true, "notes")) rest) = ["NOTES"; "notes"]) /\
  (os_listdir Examples.latin1_world "/d"
   = Returns [Examples.E_acute_b; Examples.e_acute_a] /\
   exists rest,
     files (@refresh_files _ _ Examples.latin1_names
              Examples.latin1_world (MemFS.fresh "/d"))
     = parent_entry "/d" :: rest /\
     map name rest = [Examples.e_acute_a; Examples.E_acute_b]).
Proof.
  split.
  - destruct (refresh_files_stable Examples.case_world (MemFS.fresh "/d")
                ["NOTES"; "b.txt"; "sub"; "notes"; "Sub"] (true, "notes"))
      as (rest & Hfiles & _ & Hstable & _).
    + discriminate.
    + reflexivity.
    + exists rest. split; [exact Hfiles|].
      assert (Hrest : rest = sorted (scan_entries Examples.case_world "/d" false
                                       ["NOTES"; "b.txt"; "sub"; "notes"; "Sub"])).
      { rewrite (refresh_files_nonroot Examples.case_world (MemFS.fresh "/d")
                   ["NOTES"; "b.txt"; "sub"; "notes"; "Sub"]) in Hfiles
          by (discriminate || reflexivity).
        now injection Hfiles as <-. }
      split.
      * rewrite Hrest. vm_compute. reflexivity.
      * rewrite Hstable. vm_compute. reflexivity.
  - split; [reflexivity|].
    destruct (@refresh_files_stable _ _ Examples.latin1_names
                Examples.latin1_world (MemFS.fresh "/d")
                [Examples.E_acute_b; Examples.e_acute_a] (true, "x"))
      as (rest & Hfiles & _ & _ & _).
    + discriminate.
    + reflexivity.
    + exists rest. split; [exact Hfiles|].
      vm_compute in Hfiles. injection Hfiles as <-. reflexivity.
Defined.

(* ================================================================= *)
(** ** The selection stays on the screen *)


Lemma index_beyond {A} (l : list A) (i : Z) :
  Py.len l <= i -> Py.index l i = None.
Proof.
  intros Hi. unfold Py.index.
  assert (H0 : 0 <= Py.len l) by (unfold Py.len; lia).
  assert (Hb1 : (i <? Py.len l) = false) by (apply Z.ltb_ge; lia).
  assert (Hb2 : (i <? 0) = false) by (apply Z.ltb_ge; lia).
  now rewrite Hb1, Hb2, !andb_false_r.
Qed.

Section Window.

Context {W : Type} `{OS W} `{PyStr}.

Lemma handle_input_window (s : Sys W) (i : SelInput) (rest : list Z) :
  command_mode (app s) = false ->
  window_inv (LINES (term s) - 5) (app s) ->
  keys (term s) = keys_of_input i ++ rest ->
  exists a',
    handle_input s = Done (mkSys (world s) (set_keys rest (term s)) a') /\
    command_mode a' = false /\
    files a' = files (app s) /\
    window_inv (LINES (term s) - 5) a'.
Proof.
  destruct s as [w [ks ms L my mx] a]. cbn [app term world keys LINES].
  intros Hmode (Hsel & Htop & Hwin) Hkeys. subst ks.
  unfold handle_input, getch. cbn [term keys app world].
  destruct i; cbn [keys_of_input app]; cbn -[Z.add Z.sub Z.max];
    rewrite Hmode; unfold normal_key; cbn -[Z.add Z.sub Z.max].
  - destruct (Z.ltb_spec (selected_idx a) (Py.len (files a) - 1)).
    + destruct (Z.geb_spec (selected_idx a + 1) (top_idx a + (L - 5)));
        eexists; (split; [reflexivity|]); cbn; unfold window_inv; cbn;
          repeat split; auto; lia.
    + eexists; split; [reflexivity|]. unfold window_inv. auto.
  - destruct (Z.ltb_spec (selected_idx a) (Py.len (files a) - 1)).
    + destruct (Z.geb_spec (selected_idx a + 1) (top_idx a + (L - 5)));
        eexists; (split; [reflexivity|]); cbn; unfold window_inv; cbn;
          repeat split; auto; lia.
    + eexists; split; [reflexivity|]. unfold window_inv. auto.
  - destruct (Z.gtb_spec (selected_idx a) 0).
    + destruct (Z.ltb_spec (selected_idx a - 1) (top_idx a));
        eexists; (split; [reflexivity|]); cbn; unfold window_inv; cbn;
          repeat split; auto; lia.
    + eexists; split; [reflexivity|]. unfold window_inv. auto.
  - destruct (Z.gtb_spec (selected_idx a) 0).
    + destruct (Z.ltb_spec (selected_idx a - 1) (top_idx a));
        eexists; (split; [reflexivity|]); cbn; unfold window_inv; cbn;
          repeat split; auto; lia.
    + eexists; split; [reflexivity|]. unfold window_inv. auto.
  - eexists; split; [reflexivity|]. unfold window_inv. cbn.
    repeat split; auto; lia.
  - eexists; split; [reflexivity|]. unfold window_inv. cbn -[Z.max].
    repeat split; auto; lia.
Qed.

(** X7 - The movement keys keep the selection on the screen: from a state whose
    selection is a valid index on one of the [LINES - 5] rows that start
    at [top_idx], any sequence of [j], down, [k], up, [gg] and [G] ends in
    such a state again (the strict bound [selected_idx < top_idx + rows],
    which is what drawing needs). *)
Theorem selection_moves_keep_window (ins : list SelInput) :
  forall (s : Sys W) (rest : list Z),
  command_mode (app s) = false ->
  window_inv (LINES (term s) - 5) (app s) ->
  keys (term s) = flat_map keys_of_input ins ++ rest ->
  exists a',
    main_loop (List.length ins) s
    = Done (mkSys (world s) (set_keys rest (term s)) a') /\
    files a' = files (app s) /\
    window_inv (LINES (term s) - 5) a'.
Proof.
  induction ins as [|i ins IH]; intros s rest Hmode Hinv Hkeys.
  - exists (app s). cbn in *. split; [|auto].
    destruct s as [w [ks ms L my mx] a]. cbn in *. now subst ks.
  - cbn [flat_map] in Hkeys. rewrite <- app_assoc in Hkeys.
    destruct (handle_input_window s i _ Hmode Hinv Hkeys)
      as (a1 & Hstep & Hmode1 & Hfiles1 & Hinv1).
    cbn [main_loop List.length]. rewrite Hstep.
    destruct (IH (mkSys (world s) (set_keys (flat_map keys_of_input ins ++ rest)
                                            (term s)) a1) rest)
      as (a' & Hrun & Hfiles' & Hinv'); auto.
    exists a'. split; [|split].
    + rewrite Hrun. reflexivity.
    + cbn in Hfiles'. congruence.
    + exact Hinv'.
Qed.

End Window.



(** What a row of the loop is made of. *)
Lemma rows_loop_In (a : FkFiles) : forall turns i rows r,
  rows_loop a i turns = Some rows -> In r rows ->
  exists j,
    i <= j < i + Z.of_nat turns /\
    top_idx a + j < Py.len (files a) /\
    Py.index (files a) (top_idx a + j) = Some (row_file r) /\
    row_attribute a (top_idx a + j) (row_file r) = Some (row_attr r) /\
    row_y r = j + 1 /\ row_idx r = top_idx a + j.
Proof.
  induction turns as [|turns IH]; intros i rows r Hrows Hin;
    cbn [rows_loop] in Hrows.
  - injection Hrows as <-. destruct Hin.
  - destruct (Z.geb_spec (top_idx a + i) (Py.len (files a))) as [Hge|Hlt].
    { injection Hrows as <-. destruct Hin. }
    destruct (Py.index (files a) (top_idx a + i)) as [file|] eqn:Hidx;
      [|discriminate].
    destruct (row_attribute a (top_idx a + i) file) as [attr|] eqn:Hattr;
      [|discriminate].
    destruct (rows_loop a (i + 1) turns) as [rest|] eqn:Hrest;
      [|discriminate].
    injection Hrows as <-. destruct Hin as [<-|Hin].
    + exists i. cbn. repeat split; auto; lia.
    + destruct (IH _ _ _ Hrest Hin) as (j & Hj & Hrest').
      exists j. split; [lia | exact Hrest'].
Qed.




Lemma selection_moves_keep_window_witness :
  let s := mkSys Examples.home_world
                 (MemFS.terminal [Py.ord "G"; KEY_UP; Py.ord "g"; Py.ord "g";
                                  Py.ord "j"])
                 Examples.at_home in
  window_inv (LINES (term s) - 5) (app s) /\
  exists a',
    main_loop 4 s = Done (mkSys (world s) (set_keys [] (term s)) a') /\
    files a' = files (app s) /\
    window_inv (LINES (term s) - 5) a'.
Proof.
  cbv zeta.
  assert (Hwin : window_inv (LINES (MemFS.terminal []) - 5) Examples.at_home).
  { unfold window_inv. vm_compute. repeat split; discriminate. }
  split; [exact Hwin|].
  apply (selection_moves_keep_window [Key_G; Key_UP; Chord_gg; Key_j]
           (mkSys Examples.home_world
                  (MemFS.terminal [Py.ord "G"; KEY_UP; Py.ord "g"; Py.ord "g";
                                   Py.ord "j"])
                  Examples.at_home) []).
  - reflexivity.
  - exact Hwin.
  - reflexivity.
Defined.

(* ================================================================= *)
(** ** The command line *)

Lemma chr_ord c : Py.chr (Py.ord c) = c.
Proof.
  unfold Py.chr, Py.ord. rewrite N2Z.id. apply ascii_N_embedding.
Qed.

Lemma append_nil_r : forall s, s +++ "" = s.
Proof. induction s as [|c s IH]; cbn; congruence. Qed.

Lemma append_assoc : forall s1 s2 s3, (s1 +++ s2) +++ s3 = s1 +++ s2 +++ s3.
Proof. induction s1 as [|c s1 IH]; intros; cbn; congruence. Qed.

Lemma drop_last_snoc : forall s c, Py.drop_last (s +++ String c "") = s.
Proof.
  induction s as [|c' s IH]; intros c; [reflexivity|].
  cbn [String.append Py.drop_last]. rewrite IH.
  destruct s; reflexivity.
Qed.



Section CommandLine.

Context {W : Type} `{OS W} `{PyStr}.

Lemma main_loop_app (n m : nat) : forall (s s1 : Sys W),
  main_loop n s = Done s1 -> main_loop (n + m) s = main_loop m s1.
Proof.
  induction n as [|n IH]; intros s s1 Hn; cbn [main_loop Nat.add] in *.
  - now injection Hn as <-.
  - destruct (handle_input s) as [s'| |]; try discriminate. now apply IH.
Qed.

(** One printable key in command mode. *)
Lemma handle_input_printable (s : Sys W) (c : ascii) (rest : list Z) :
  command_mode (app s) = true ->
  printable c ->
  keys (term s) = Py.ord c :: rest ->
  handle_input s
  = Done (mkSys (world s) (set_keys rest (term s))
                (set_command (command (app s) +++ String c "") (app s))).
Proof.
  destruct s as [w [ks ms L my mx] a]. cbn [app term world keys].
  intros Hmode [Hlo Hhi] ->. unfold handle_input, getch.
  cbn [term keys app world].
  assert (Hm : (Py.ord c =? KEY_MOUSE) = false)
    by (apply Z.eqb_neq; unfold KEY_MOUSE; lia).
  rewrite Hm, Hmode. unfold command_key. cbn [app].
  assert (H27 : (Py.ord c =? 27) = false) by (apply Z.eqb_neq; lia).
  assert (Hbs : (Py.ord c =? KEY_BACKSPACE) = false)
    by (apply Z.eqb_neq; unfold KEY_BACKSPACE; lia).
  assert (H127 : (Py.ord c =? 127) = false) by (apply Z.eqb_neq; lia).
  assert (H10 : (Py.ord c =? 10) = false) by (apply Z.eqb_neq; lia).
  assert (Hr : (32 <=? Py.ord c) && (Py.ord c <=? 126) = true).
  { apply andb_true_intro. split; [apply Z.leb_le | apply Z.leb_le]; lia. }
  rewrite H27, Hbs, H127, H10, Hr. cbn [orb]. now rewrite chr_ord.
Qed.

Lemma main_loop_printable (chars : list ascii) :
  forall (s : Sys W) (rest : list Z),
  command_mode (app s) = true ->
  Forall printable chars ->
  keys (term s) = map Py.ord chars ++ rest ->
  main_loop (List.length chars) s
  = Done (mkSys (world s) (set_keys rest (term s))
                (set_command (command (app s) +++ string_of_list_ascii chars)
                             (app s))).
Proof.
  induction chars as [|c chars IH]; intros s rest Hmode Hall Hkeys.
  - cbn in *. rewrite append_nil_r.
    destruct s as [w [ks ms L my mx] a]. cbn in *. subst ks. now destruct a.
  - inversion Hall as [|c' l Hc Hrest]; subst.
    cbn [map List.app] in Hkeys. cbn [main_loop List.length].
    rewrite (handle_input_printable s c _ Hmode Hc Hkeys).
    rewrite (IH _ rest); [| exact Hmode | exact Hrest | reflexivity].
    cbn -[String.append]. rewrite append_assoc. reflexivity.
Qed.

(** X11 - Typing a command: from normal mode, [:] followed by printable
    characters and Enter runs [execute_command] on exactly the typed text,
    with the file system and the rest of the state as they were, and
    then leaves command mode with an empty buffer. *)
Theorem typed_command_runs (s : Sys W) (chars : list ascii) (rest : list Z) :
  command_mode (app s) = false ->
  Forall printable chars ->
  keys (term s) = Py.ord ":" :: map Py.ord chars ++ 10 :: rest ->
  main_loop (S (S (List.length chars))) s =
  match execute_command
          (mkSys (world s) (set_keys rest (term s))
                 (set_command (string_of_list_ascii chars)
                              (set_command_mode true (app s)))) with
  | Done s1 =>
      Done (with_app s1 (set_command "" (set_command_mode false (app s1))))
  | Raised e => Raised e
  | Blocked => Blocked
  end.
Proof.
  intros Hmode Hall Hkeys.
  set (s1 := mkSys (world s) (set_keys (map Py.ord chars ++ 10 :: rest) (term s))
                   (set_command "" (set_command_mode true (app s)))).
  assert (Hfirst : handle_input s = Done s1).
  { destruct s as [w [ks ms L my mx] a]. cbn [app term world keys] in *.
    subst ks. unfold handle_input, getch. cbn [term keys app world].
    cbn -[Z.add Z.sub Z.max]. rewrite Hmode. reflexivity. }
  assert (Hone : main_loop 1 s = Done s1)
    by (cbn [main_loop]; now rewrite Hfirst).
  replace (S (S (List.length chars)))
    with (1 + (List.length chars + 1))%nat by lia.
  rewrite (main_loop_app 1 _ s s1 Hone).
  rewrite (main_loop_app _ 1 s1 _
             (main_loop_printable chars s1 (10 :: rest) eq_refl Hall eq_refl)).
  cbn [main_loop world term app command String.append s1].
  unfold handle_input, getch. cbn [term keys set_keys app world].
  change (10 =? KEY_MOUSE) with false. cbv iota.
  cbn [command_mode set_command set_command_mode].
  unfold command_key.
  change (10 =? 27) with false.
  change ((10 =? KEY_BACKSPACE) || (10 =? 127)) with false.
  change (10 =? 10) with true. cbv iota.
  destruct s as [w [ks ms L my mx] a]. cbn -[execute_command with_app].
  destruct (execute_command _); reflexivity.
Qed.

(** A command line that starts with [/] has no first word [q]. *)
Lemma startswith_slash_app (c : string) (x : ascii) :
  Py.startswith c "/" = true -> Py.startswith (c +++ String x "") "/" = true.
Proof.
  unfold Py.startswith. destruct c as [|c0 c]; [discriminate|].
  cbn [String.append]. now rewrite !prefix_slash.
Qed.

Lemma split_go_first : forall s cur,
  Py.startswith cur "/" = true ->
  exists word others,
    Py.split_go s cur = word :: others /\ Py.startswith word "/" = true.
Proof.
  induction s as [|x s IH]; intros cur Hcur; cbn [Py.split_go].
  - destruct cur as [|c0 cur]; [discriminate|]. cbn. eauto.
  - destruct (Py.is_space x).
    + destruct cur as [|c0 cur]; [discriminate|]. cbn. eauto.
    + apply IH. now apply startswith_slash_app.
Qed.

Lemma split_first_word_q (s : string) (args : list string) :
  Py.split s = "q" :: args -> Py.startswith s "/" = false.
Proof.
  intros Hq. destruct (Py.startswith s "/") eqn:Hs; [|reflexivity].
  exfalso. destruct s as [|c s]; [discriminate|].
  unfold Py.startswith in Hs. rewrite prefix_slash in Hs.
  apply Ascii.eqb_eq in Hs. subst c.
  unfold Py.split in Hq. cbn in Hq.
  destruct (split_go_first s "/" eq_refl) as (word & others & Hw & Hword).
  rewrite Hw in Hq. injection Hq as -> _. discriminate.
Qed.

Lemma main_loop_raised (n m : nat) : forall (s : Sys W) e,
  main_loop n s = Raised e -> main_loop (n + m) s = Raised e.
Proof.
  induction n as [|n IH]; intros s e Hn; cbn [main_loop Nat.add] in *.
  - discriminate.
  - destruct (handle_input s) as [s'| |]; try discriminate;
      [now apply IH | exact Hn].
Qed.

(** X15 - Quitting: from normal mode, [:] followed by printable text whose
    first word is [q] and Enter raise [KeyboardInterrupt] out of
    [handle_input], the exception on which [main] leaves its loop,
    whatever follows the [q], whatever the state and the file system
    are, and whatever keys are still waiting. *)
Theorem quit_command_raises (s : Sys W) (chars : list ascii)
        (args : list string) (rest : list Z) (more : nat) :
  command_mode (app s) = false ->
  Forall printable chars ->
  Py.split (string_of_list_ascii chars) = "q" :: args ->
  keys (term s) = Py.ord ":" :: map Py.ord chars ++ 10 :: rest ->
  main_loop (S (List.length chars)) s
  = Done (mkSys (world s) (set_keys (10 :: rest) (term s))
                (set_command (string_of_list_ascii chars)
                             (set_command_mode true (app s)))) /\
  main_loop (S (S (List.length chars)) + more) s = Raised KeyboardInterrupt.
Proof.
  intros Hmode Hall Hq Hkeys.
  set (s1 := mkSys (world s) (set_keys (map Py.ord chars ++ 10 :: rest) (term s))
                   (set_command "" (set_command_mode true (app s)))).
  assert (Hfirst : handle_input s = Done s1).
  { destruct s as [w [ks ms L my mx] a]. cbn [app term world keys] in *.
    subst ks. unfold handle_input, getch. cbn [term keys app world].
    cbn -[Z.add Z.sub Z.max]. rewrite Hmode. reflexivity. }
  assert (Hone : main_loop 1 s = Done s1)
    by (cbn [main_loop]; now rewrite Hfirst).
  pose proof (main_loop_printable chars s1 (10 :: rest) eq_refl Hall eq_refl)
    as Htyped.
  cbn [world term app command String.append s1] in Htyped.
  assert (Hbuf : main_loop (S (List.length chars)) s
                 = Done (mkSys (world s) (set_keys (10 :: rest) (term s))
                           (set_command (string_of_list_ascii chars)
                              (set_command_mode true (app s))))).
  { replace (S (List.length chars)) with (1 + List.length chars)%nat by lia.
    rewrite (main_loop_app 1 _ s s1 Hone). rewrite Htyped.
    destruct s as [w [ks ms L my mx] a]. reflexivity. }
  split; [exact Hbuf|].
  replace (S (S (List.length chars)) + more)%nat
    with (S (List.length chars) + 1 + more)%nat by lia.
  apply main_loop_raised.
  rewrite (main_loop_app _ 1 s _ Hbuf).
  cbn [main_loop]. unfold handle_input, getch.
  cbn [term keys set_keys app world].
  change (10 =? KEY_MOUSE) with false. cbv iota.
  cbn [command_mode set_command set_command_mode].
  unfold command_key.
  change (10 =? 27) with false.
  change ((10 =? KEY_BACKSPACE) || (10 =? 127)) with false.
  change (10 =? 10) with true. cbv iota.
  unfold execute_command.
  cbn [app command set_command set_command_mode].
  rewrite (split_first_word_q _ _ Hq), Hq. reflexivity.
Qed.

End CommandLine.

Section Commands.

Context {W : Type} `{OS W} `{PyStr}.


(** X14 - In command mode a printable key followed by backspace (either code)
    leaves the buffer, and everything else, as it was. *)
Theorem printable_then_backspace (s : Sys W) (c : ascii) (bs : Z)
        (rest : list Z) :
  command_mode (app s) = true ->
  printable c ->
  bs = KEY_BACKSPACE \/ bs = 127 ->
  keys (term s) = Py.ord c :: bs :: rest ->
  main_loop 2 s = Done (mkSys (world s) (set_keys rest (term s)) (app s)).
Proof.
  intros Hmode Hc Hbs Hkeys. cbn [main_loop].
  rewrite (handle_input_printable s c _ Hmode Hc Hkeys).
  unfold handle_input, getch. cbn [term keys set_keys app world].
  assert (Hm : (bs =? KEY_MOUSE) = false)
    by (apply Z.eqb_neq; unfold KEY_MOUSE, KEY_BACKSPACE in *; lia).
  rewrite Hm. cbn [command_mode set_command]. rewrite Hmode.
  unfold command_key.
  assert (H27 : (bs =? 27) = false)
    by (apply Z.eqb_neq; unfold KEY_BACKSPACE in *; lia).
  assert (Hb : (bs =? KEY_BACKSPACE) || (bs =? 127) = true).
  { destruct Hbs as [-> | ->]; reflexivity. }
  rewrite H27, Hb. cbn [app command set_command].
  rewrite drop_last_snoc.
  destruct s as [w [ks ms L my mx] a]. cbn. now destruct a.
Qed.

(** X17 - On an empty listing [G] sets the selection to [-1], and a following
    [yy] or [dd] indexes the empty list: the [IndexError] leaves
    [handle_input], which ends the program. *)
Theorem empty_listing_chord_raises (s : Sys W) (c : Z) (rest : list Z) :
  command_mode (app s) = false ->
  files (app s) = [] ->
  c = Py.ord "y" \/ c = Py.ord "d" ->
  keys (term s) = Py.ord "G" :: c :: c :: rest ->
  main_loop 2 s = Raised IndexError.
Proof.
  destruct s as [w [ks ms L my mx]
                   [cp fl sel top cm cmd msg mt col sh cb cut pw]].
  cbn [app term world keys command_mode files].
  intros -> -> Hc ->.
  destruct Hc as [-> | ->]; reflexivity.
Qed.

(** X18 - Opening with a selection beyond the listing (as a shorter listing
    after [:hdn] can leave it) raises [IndexError] out of
    [handle_input]. *)
Theorem open_beyond_listing_raises (s : Sys W) (key : Z) (rest : list Z) :
  command_mode (app s) = false ->
  files (app s) <> [] ->
  Py.len (files (app s)) <= selected_idx (app s) ->
  key = Py.ord "l" \/ key = 10 ->
  keys (term s) = key :: rest ->
  handle_input s = Raised IndexError.
Proof.
  destruct s as [w [ks ms L my mx] a]. cbn [app term world keys].
  intros Hmode Hne Hsel Hkey ->.
  unfold handle_input, getch. cbn [term keys app world].
  assert (Hlen : (Py.len (files a) >? 0) = true).
  { destruct (files a); [congruence|]. reflexivity. }
  pose proof (index_beyond (files a) (selected_idx a) Hsel) as Hidx.
  destruct Hkey as [-> | ->]; cbn -[Z.add Z.sub Z.max]; rewrite Hmode;
    unfold normal_key; cbn -[Z.add Z.sub Z.max Py.index];
    rewrite Hlen, Hidx; reflexivity.
Qed.

End Commands.

Lemma typed_command_runs_witness :
  let s := mkSys Examples.home_world
             (MemFS.terminal [Py.ord ":"; Py.ord "q"; 10; Py.ord "j"])
             Examples.at_home in
  command_mode (app s) = false /\
  Forall printable ["q"%char] /\
  main_loop 3 s = Raised KeyboardInterrupt.
Proof.
  cbv zeta.
  assert (Hp : Forall printable ["q"%char]).
  { constructor; [|constructor]. unfold printable. vm_compute.
    split; discriminate. }
  split; [reflexivity|]. split; [exact Hp|].
  rewrite (typed_command_runs
             (mkSys Examples.home_world
                (MemFS.terminal [Py.ord ":"; Py.ord "q"; 10; Py.ord "j"])
                Examples.at_home)
             ["q"%char] [Py.ord "j"] eq_refl Hp eq_refl).
  reflexivity.
Defined.

Lemma quit_command_raises_witness :
  let s := mkSys Examples.home_world
             (MemFS.terminal (map Py.ord [":"; " "; "q"; " "; "n"; "o"; "w"]%char
                                ++ [10; Py.ord "j"]))
             Examples.at_home in
  command_mode (app s) = false /\
  Py.split " q now" = ["q"; "now"] /\
  main_loop 7 s
  = Done (mkSys Examples.home_world (MemFS.terminal [10; Py.ord "j"])
                (set_command " q now"
                   (set_command_mode true Examples.at_home))) /\
  main_loop 8 s = Raised KeyboardInterrupt /\
  main_loop 9 s = Raised KeyboardInterrupt.
Proof.
  cbv zeta.
  assert (Hp : Forall printable [" "; "q"; " "; "n"; "o"; "w"]%char).
  { repeat (constructor; [unfold printable; vm_compute; split; discriminate|]).
    constructor. }
  pose proof (fun more =>
    quit_command_raises
      (mkSys Examples.home_world
         (MemFS.terminal (map Py.ord [":"; " "; "q"; " "; "n"; "o"; "w"]%char
                            ++ [10; Py.ord "j"]))
         Examples.at_home)
      [" "; "q"; " "; "n"; "o"; "w"]%char ["now"] [Py.ord "j"] more
      eq_refl Hp eq_refl eq_refl) as Hquit.
  split; [reflexivity|]. split; [reflexivity|].
  split; [exact (proj1 (Hquit 0%nat))|].
  split; [exact (proj2 (Hquit 0%nat)) | exact (proj2 (Hquit 1%nat))].
Defined.


Lemma printable_then_backspace_witness :
  let s := mkSys Examples.home_world
             (MemFS.terminal [Py.ord "x"; 127])
             (set_command "re" (set_command_mode true Examples.at_home)) in
  printable "x"%char /\
  main_loop 2 s = Done (mkSys (world s) (set_keys [] (term s)) (app s)).
Proof.
  cbv zeta.
  assert (Hp : printable "x"%char)
    by (unfold printable; vm_compute; split; discriminate).
  split; [exact Hp|].
  apply (printable_then_backspace
           (mkSys Examples.home_world (MemFS.terminal [Py.ord "x"; 127])
                  (set_command "re" (set_command_mode true Examples.at_home)))
           "x"%char 127 []);
    [reflexivity | exact Hp | now right | reflexivity].
Defined.

Lemma empty_listing_chord_raises_witness :
  let s := mkSys Examples.empty_root_world
             (MemFS.terminal [Py.ord "G"; Py.ord "y"; Py.ord "y"])
             (refresh_files Examples.empty_root_world (MemFS.fresh "/")) in
  files (app s) = [] /\ main_loop 2 s = Raised IndexError.
Proof.
  cbv zeta. split; [reflexivity|].
  apply (empty_listing_chord_raises
           (mkSys Examples.empty_root_world
              (MemFS.terminal [Py.ord "G"; Py.ord "y"; Py.ord "y"])
              (refresh_files Examples.empty_root_world (MemFS.fresh "/")))
           (Py.ord "y") []);
    [reflexivity | reflexivity | now left | reflexivity].
Defined.

(** Reaching it: show the hidden files, go to the last entry, hide them
    again, press [l]. *)
Lemma open_beyond_listing_raises_witness :
  let s := mkSys Examples.home_world
             (MemFS.terminal
                [Py.ord ":"; Py.ord "h"; Py.ord "d"; Py.ord "n"; 10;
                 Py.ord "G";
                 Py.ord ":"; Py.ord "h"; Py.ord "d"; Py.ord "n"; 10;
                 Py.ord "l"])
             Examples.at_home in
  exists s',
    main_loop 11 s = Done s' /\
    keys (term s') = [Py.ord "l"] /\
    Py.len (files (app s')) = 4 /\
    selected_idx (app s') = 4 /\
    handle_input s' = Raised IndexError /\
    main_loop 12 s = Raised IndexError.
Proof.
  cbv zeta. eexists. split; [vm_compute; reflexivity|].
  split; [reflexivity|]. split; [reflexivity|]. split; [reflexivity|].
  split; [|vm_compute; reflexivity].
  match goal with
  | |- handle_input ?s' = _ =>
      apply (open_beyond_listing_raises s' (Py.ord "l") [])
  end.
  - reflexivity.
  - discriminate.
  - vm_compute. discriminate.
  - now left.
  - reflexivity.
Defined.

(* ================================================================= *)
(** ** Mouse, search and drawing bounds *)

Lemma listing_rows_In (t : Terminal) (a : FkFiles) rows r :
  0 <= top_idx a ->
  listing_rows t a = Some rows -> In r rows ->
  1 <= row_y r <= max_y t - 5 /\
  row_idx r = top_idx a + row_y r - 1 /\
  row_idx r < Py.len (files a).
Proof.
  intros Htop Hrows Hin. unfold listing_rows in Hrows.
  destruct ((max_y t <? 10) || (max_x t <? 40)).
  { injection Hrows as <-. destruct Hin. }
  destruct (rows_loop_In a _ _ _ _ Hrows Hin)
    as (j & Hj & Hlen & _ & _ & Hry & Hri).
  lia.
Qed.

Section Mouse.

Context {W : Type} `{OS W} `{PyStr}.

(** X9 - A single left click on a drawn row, anywhere between the side borders
    but not on the divider column, selects the entry drawn on that row and
    changes nothing else; the event is consumed. *)
Theorem click_selects_drawn_row (s : Sys W) (ev : MouseEvent)
        (more : list MouseEvent) (rows : list Row) (r : Row) :
  0 <= top_idx (app s) ->
  listing_rows (term s) (app s) = Some rows ->
  In r rows ->
  mouse (term s) = ev :: more ->
  mouse_y ev = row_y r ->
  0 < mouse_x ev < max_x (term s) - 1 ->
  mouse_x ev <> panel_width (app s) ->
  Z.land (bstate ev) BUTTON1_CLICKED <> 0 ->
  Z.land (bstate ev) BUTTON1_DOUBLE_CLICKED = 0 ->
  handle_mouse_event s
  = mkSys (world s)
          (mkTerminal (keys (term s)) more (LINES (term s))
                      (max_y (term s)) (max_x (term s)))
          (set_selected_idx (row_idx r) (app s)).
Proof.
  intros Htop Hrows Hin Hmouse Hy Hx Hpw Hclick Hdouble.
  destruct (listing_rows_In _ _ _ _ Htop Hrows Hin) as (Hry & Hidx & Hlen).
  unfold handle_mouse_event, getmouse. rewrite Hmouse.
  cbn [app world term max_y max_x].
  assert (Hout : (mouse_y ev =? 0) || (mouse_y ev >=? max_y (term s) - 3)
                 || (mouse_x ev =? 0) || (mouse_x ev >=? max_x (term s) - 1)
                 || (mouse_x ev =? panel_width (app s)) = false).
  { repeat (apply orb_false_intro);
      first [apply Z.eqb_neq; lia | rewrite Z.geb_leb; apply Z.leb_gt; lia]. }
  rewrite Hout.
  assert (Hc : truthy (Z.land (bstate ev) BUTTON1_CLICKED) = true).
  { unfold truthy. apply negb_true_iff. now apply Z.eqb_neq. }
  assert (Hd : truthy (Z.land (bstate ev) BUTTON1_DOUBLE_CLICKED) = false).
  { unfold truthy. rewrite Hdouble. reflexivity. }
  assert (Hrow : (mouse_y ev >=? 1) && (mouse_y ev <? max_y (term s) - 3) = true).
  { apply andb_true_intro. split;
      [rewrite Z.geb_leb; apply Z.leb_le; lia | apply Z.ltb_lt; lia]. }
  assert (Hin_range : (top_idx (app s) + (mouse_y ev - 1) <? Py.len (files (app s)))
                      = true) by (apply Z.ltb_lt; lia).
  rewrite Hc, Hrow, Hin_range, Hd. unfold with_app. cbn [world term].
  do 2 f_equal. lia.
Qed.

End Mouse.

Section SearchMeaning.

Context {W : Type} `{OS W} `{PyStr}.

Lemma match_indices_first pattern : forall fl idx first others,
  match_indices pattern fl idx = first :: others ->
  exists k e,
    first = idx + Z.of_nat k /\
    nth_error fl k = Some e /\
    matches_name pattern e = true /\
    forall j e', (j < k)%nat -> nth_error fl j = Some e' ->
                 matches_name pattern e' = false.
Proof.
  induction fl as [|e fl IH]; intros idx first others Hm;
    cbn [match_indices] in Hm; [discriminate|].
  destruct (matches_name pattern e) eqn:He.
  - injection Hm as <- _. exists 0%nat, e.
    repeat split; [lia | exact He | intros j e' Hj; lia].
  - destruct (IH _ _ _ Hm) as (k & e1 & Hfirst & Hk & Hmatch & Hbefore).
    exists (S k), e1. repeat split; [lia | exact Hk | exact Hmatch |].
    intros j e' Hj Hnth. destruct j as [|j].
    + cbn in Hnth. congruence.
    + apply (Hbefore j e'); [lia | exact Hnth].
Qed.

Lemma match_indices_none pattern : forall fl idx,
  match_indices pattern fl idx = [] <->
  Forall (fun e => matches_name pattern e = false) fl.
Proof.
  induction fl as [|e fl IH]; intros idx; cbn [match_indices].
  - split; [constructor | reflexivity].
  - destruct (matches_name pattern e) eqn:He.
    + split; [discriminate|]. intros Hall. inversion Hall. congruence.
    + rewrite IH. split; [now constructor | intros Hall; now inversion Hall].
Qed.

(** X19 - What a search finds: when no name contains the pattern (letter case
    set aside) only the message changes, to [No matches found]; otherwise
    the selection is the first entry, in listing order, whose name
    contains it, the window starts at most two rows above it, and the
    listing, the directory and the clipboard are untouched. *)
Theorem search_file_selects_first_match (w : W) (pattern : string)
        (a : FkFiles) :
  (Forall (fun e => matches_name pattern e = false) (files a) ->
   selected_idx (search_file w pattern a) = selected_idx a /\
   top_idx (search_file w pattern a) = top_idx a /\
   files (search_file w pattern a) = files a /\
   message (search_file w pattern a) = "No matches found" /\
   color (search_file w pattern a) = 4) /\
  (Exists (fun e => matches_name pattern e = true) (files a) ->
   exists k e,
     nth_error (files a) k = Some e /\
     matches_name pattern e = true /\
     (forall j e', (j < k)%nat -> nth_error (files a) j = Some e' ->
                   matches_name pattern e' = false) /\
     selected_idx (search_file w pattern a) = Z.of_nat k /\
     0 <= top_idx (search_file w pattern a) <= Z.of_nat k /\
     Z.of_nat k <= top_idx (search_file w pattern a) + 2 /\
     files (search_file w pattern a) = files a /\
     current_path (search_file w pattern a) = current_path a /\
     clipboard (search_file w pattern a) = clipboard a).
Proof.
  unfold search_file. rewrite search_loop_spec by lia. cbn [Nat.sub].
  split.
  - intros Hall. apply (match_indices_none pattern _ 0) in Hall.
    rewrite Hall. cbn. repeat split.
  - intros Hex.
    destruct (match_indices pattern (files a) 0) as [|first others] eqn:Hm.
    { apply match_indices_none in Hm. apply Exists_exists in Hex.
      destruct Hex as (e & Hin & He).
      rewrite Forall_forall in Hm. specialize (Hm e Hin). congruence. }
    destruct (match_indices_first _ _ _ _ _ Hm)
      as (k & e & Hfirst & Hk & He & Hbefore).
    exists k, e. cbn [firstn]. cbn -[Z.max Z.sub].
    repeat split; auto; lia.
Qed.

End SearchMeaning.

(** What [safe_add_str] lets through. *)
Lemma take_length : forall n s, (String.length (take n s) <= n)%nat.
Proof.
  induction n as [|n IH]; intros s; [cbn; lia|].
  destruct s as [|c s]; cbn; [lia|]. specialize (IH s). lia.
Qed.

Lemma take_prefix : forall n s, exists rest, s = take n s +++ rest.
Proof.
  induction n as [|n IH]; intros s; [now exists s|].
  destruct s as [|c s]; [now exists ""|].
  destruct (IH s) as [rest Hrest]. exists rest. cbn. congruence.
Qed.

(** X10 - [safe_add_str] never asks curses to draw off the screen: it draws
    exactly when the position is on the screen, at that position, a prefix
    of the text that ends before the last column. *)
Theorem safe_add_str_bounds (t : Terminal) (y x : Z) (text : string) :
  (safe_add_str t y x text = None <->
   ~ (0 <= y < max_y t /\ 0 <= x < max_x t)) /\
  (forall y' x' text',
      safe_add_str t y x text = Some (y', x', text') ->
      y' = y /\ x' = x /\
      0 <= y < max_y t /\ 0 <= x /\
      x + Z.of_nat (String.length text') <= max_x t - 1 /\
      exists rest, text = text' +++ rest).
Proof.
  unfold safe_add_str.
  destruct (Z.ltb_spec y 0); cbn [orb].
  { split; [split; [lia | reflexivity] | discriminate]. }
  rewrite Z.geb_leb.
  destruct (Z.leb_spec (max_y t) y); cbn [orb].
  { split; [split; [lia | reflexivity] | discriminate]. }
  destruct (Z.ltb_spec x 0); cbn [orb].
  { split; [split; [lia | reflexivity] | discriminate]. }
  rewrite Z.geb_leb.
  destruct (Z.leb_spec (max_x t) x); cbn [orb].
  { split; [split; [lia | reflexivity] | discriminate]. }
  split; [split; [discriminate | lia]|].
  intros y' x' text' Hs. injection Hs as <- <- <-.
  unfold slice_to.
  assert (Hn : (0 <=? max_x t - x - 1) = true) by (apply Z.leb_le; lia).
  rewrite Hn.
  pose proof (take_length (Z.to_nat (max_x t - x - 1)) text).
  repeat split; try lia. apply take_prefix.
Qed.

Lemma click_selects_drawn_row_witness :
  let s := mkSys Examples.home_world
             (mkTerminal [] [mkMouse 5 3 BUTTON1_CLICKED] 24 24 80)
             Examples.at_home in
  exists rows file,
    listing_rows (term s) (app s) = Some rows /\
    In (mkRow 3 2 2097664 file) rows /\
    name file = "secret" /\
    handle_mouse_event s
    = mkSys Examples.home_world (MemFS.terminal [])
            (set_selected_idx 2 Examples.at_home).
Proof.
  cbv zeta. eexists. eexists.
  split; [vm_compute; reflexivity|].
  split; [cbn; tauto|]. split; [reflexivity|].
  eapply (click_selects_drawn_row
            (mkSys Examples.home_world
               (mkTerminal [] [mkMouse 5 3 BUTTON1_CLICKED] 24 24 80)
               Examples.at_home)
            (mkMouse 5 3 BUTTON1_CLICKED) [] _
            (mkRow 3 2 2097664
                   (mkEntry "secret" true 4096 1700000000 "d---------"
                            "/home/u/secret"))).
  - vm_compute. discriminate.
  - vm_compute. reflexivity.
  - cbn. right. right. left. reflexivity.
  - reflexivity.
  - reflexivity.
  - vm_compute. split; reflexivity.
  - vm_compute. discriminate.
  - vm_compute. discriminate.
  - reflexivity.
Defined.

Lemma search_file_selects_first_match_witness :
  let a := set_files Examples.scenario_files Examples.at_home in
  Exists (fun e => matches_name "E" e = true) (files a) /\
  selected_idx (search_file Examples.home_world "E" a) = 2 /\
  exists k e,
    nth_error (files a) k = Some e /\
    name e = "readme.txt" /\
    selected_idx (search_file Examples.home_world "E" a) = Z.of_nat k.
Proof.
  cbv zeta.
  assert (Hex : Exists (fun e => matches_name "E" e = true)
                       (files (set_files Examples.scenario_files
                                         Examples.at_home))).
  { apply Exists_exists. eexists. split; [right; right; left; reflexivity|].
    reflexivity. }
  split; [exact Hex|]. split; [reflexivity|].
  destruct (search_file_selects_first_match Examples.home_world "E"
              (set_files Examples.scenario_files Examples.at_home))
    as [_ Hfound].
  destruct (Hfound Hex) as (k & e & Hk & He & _ & Hsel & _).
  exists k, e. split; [exact Hk|]. split; [|exact Hsel].
  assert (Hk2 : k = 2%nat).
  { change (selected_idx (search_file Examples.home_world "E"
              (set_files Examples.scenario_files Examples.at_home))) with 2
      in Hsel. lia. }
  subst k. cbn in Hk. now injection Hk as <-.
Defined.

Lemma safe_add_str_bounds_witness :
  safe_add_str (MemFS.terminal []) 22 70 "Clipboard is empty"
  = Some (22, 70, "Clipboard") /\
  70 + Z.of_nat (String.length "Clipboard") <= 80 - 1.
Proof.
  split; [reflexivity|].
  destruct (safe_add_str_bounds (MemFS.terminal []) 22 70 "Clipboard is empty")
    as [_ Hb].
  destruct (Hb 22 70 "Clipboard" eq_refl) as (_ & _ & _ & _ & Hlen & _).
  exact Hlen.
Defined.

(* ================================================================= *)
(** ** How the operations compose *)

Lemma basename_go_plain : forall n acc,
  Py.contains n "/" = false -> PosixPath.basename_go n acc = acc +++ n.
Proof.
  induction n as [|c n IH]; intros acc Hn; cbn [PosixPath.basename_go].
  - now rewrite append_nil_r.
  - rewrite contains_slash_cons in Hn. apply orb_false_elim in Hn.
    destruct Hn as [Hc Hn]. rewrite Ascii.eqb_sym in Hc. rewrite Hc.
    rewrite IH by exact Hn. now rewrite append_assoc.
Qed.

Lemma basename_go_ends : forall p acc n,
  Py.ends_with_slash p = true ->
  PosixPath.basename_go (p +++ n) acc = PosixPath.basename_go n "".
Proof.
  induction p as [|c p IH]; intros acc n Hp; [discriminate|].
  cbn [String.append PosixPath.basename_go].
  destruct p as [|c' p'].
  - cbn in Hp. rewrite Hp. reflexivity.
  - destruct (Ascii.eqb c "/"); apply IH; exact Hp.
Qed.

Lemma ends_with_slash_snoc : forall p, Py.ends_with_slash (p +++ "/") = true.
Proof.
  induction p as [|c p IH]; [reflexivity|].
  cbn [String.append Py.ends_with_slash].
  destruct (p +++ "/") eqn:Hp; [destruct p; discriminate | exact IH].
Qed.

(** [basename] undoes [join] for a name without a slash. *)
Lemma basename_join (cur n : string) :
  Py.contains n "/" = false ->
  PosixPath.basename (PosixPath.join cur n) = n.
Proof.
  intros Hn. unfold PosixPath.basename, PosixPath.join, Py.startswith.
  assert (Hpre : String.prefix "/" n = false).
  { destruct n as [|c n]; [reflexivity|].
    rewrite contains_slash_cons in Hn. apply orb_false_elim in Hn.
    rewrite prefix_slash. tauto. }
  rewrite Hpre.
  destruct (String.eqb_spec cur "") as [->|Hne]; cbn [orb].
  { cbn [String.append]. now rewrite basename_go_plain. }
  destruct (Py.ends_with_slash cur) eqn:He.
  - rewrite basename_go_ends by exact He. now rewrite basename_go_plain.
  - rewrite <- append_assoc.
    rewrite basename_go_ends by apply ends_with_slash_snoc.
    now rewrite basename_go_plain.
Qed.

Section Composition.

Context {W : Type} `{OS W} `{PyStr}.

Lemma refresh_files_clipboard_is_cut (w : W) a :
  clipboard_is_cut (refresh_files w a) = clipboard_is_cut a.
Proof.
  unfold refresh_files. now destruct (os_listdir w (current_path a)).
Qed.

Lemma navigate_to_fields (w : W) path p a :
  abspath w path = Returns p ->
  current_path (navigate_to w path a) = p /\
  clipboard (navigate_to w path a) = clipboard a /\
  clipboard_is_cut (navigate_to w path a) = clipboard_is_cut a /\
  selected_idx (navigate_to w path a) = 0 /\
  show_hidden (navigate_to w path a) = show_hidden a.
Proof.
  intros Habs. unfold navigate_to. rewrite Habs.
  rewrite refresh_files_current_path, refresh_files_clipboard,
    refresh_files_clipboard_is_cut, refresh_files_selected_idx,
    refresh_files_show_hidden.
  repeat split.
Qed.

(** The listing of a refresh is a function of the path, the hidden flag
    and the world. *)
Lemma refresh_files_files_ext (w : W) a b :
  current_path a = current_path b ->
  show_hidden a = show_hidden b ->
  files (refresh_files w a) = files (refresh_files w b).
Proof.
  intros Hp Hh. unfold refresh_files. rewrite Hp, Hh.
  now destruct (os_listdir w (current_path b)).
Qed.

(** X20 - Yank and paste without leaving the directory: for an entry of a
    coherent listing the destination that [paste_files] computes is the
    source itself, so [cp] is asked to copy a path onto itself (and a cut
    entry is renamed to its own path). *)
Theorem paste_in_place_targets_source (w : W) (a : FkFiles) (file : Entry)
        (cut : bool) :
  selected_idx a < Py.len (files a) ->
  Py.index (files a) (selected_idx a) = Some file ->
  full_path file = PosixPath.join (current_path a) (name file) ->
  Py.contains (name file) "/" = false ->
  exists a1,
    (if cut then cut_file w a else copy_file w a) = Done a1 /\
    clipboard a1 = [full_path file] /\
    paste_files w a1 =
    if cut then
      match os_rename w (full_path file) (full_path file) with
      | Returns w' =>
          (w', refresh_files w'
                 (set_clipboard []
                    (show_message w' ("Moved: " +++ name file) false a1)))
      | Raises e =>
          (w, refresh_files w
                (set_clipboard [] (show_message w ("Error: " +++ e) true a1)))
      end
    else
      match run_cp w (os_path_isdir w (full_path file))
                   (full_path file) (full_path file) with
      | (None, w') =>
          (w', refresh_files w'
                 (set_clipboard []
                    (show_message w' ("Copied: " +++ name file) false a1)))
      | (Some e, w') =>
          (w', refresh_files w'
                 (set_clipboard [] (show_message w' ("Error: " +++ e) true a1)))
      end.
Proof.
  intros Hlt Hidx Hfp Hname.
  assert (Hltb : (selected_idx a <? Py.len (files a)) = true)
    by now apply Z.ltb_lt.
  assert (Hbase : PosixPath.basename (full_path file) = name file)
    by (rewrite Hfp; now apply basename_join).
  assert (Hdst : PosixPath.join (current_path a) (name file) = full_path file)
    by now rewrite Hfp.
  destruct cut; eexists; unfold cut_file, copy_file; rewrite Hltb, Hidx.
  - split; [reflexivity|]. split; [reflexivity|].
    unfold paste_files. cbn [clipboard show_message set_clipboard_is_cut
                             set_clipboard fold_left].
    unfold paste_one.
    cbn [clipboard_is_cut current_path show_message set_clipboard_is_cut
         set_clipboard].
    rewrite Hbase, Hdst. now destruct (os_rename w _ _).
  - split; [reflexivity|]. split; [reflexivity|].
    unfold paste_files. cbn [clipboard show_message set_clipboard_is_cut
                             set_clipboard fold_left].
    unfold paste_one.
    cbn [clipboard_is_cut current_path show_message set_clipboard_is_cut
         set_clipboard].
    rewrite Hbase, Hdst. now destruct (run_cp w _ _ _) as [[e|] w'].
Qed.

(** X21 - Cut, go elsewhere, paste: the clipboard survives the navigation, and
    [paste_files] asks [os.rename] to move the entry's path to its own
    name under the directory navigated to; on success the message is
    [Moved: name], and in both outcomes the clipboard is empty and the
    listing is the one of the new directory. *)
Theorem cut_navigate_paste (w : W) (a : FkFiles) (file : Entry)
        (path p : string) :
  selected_idx a < Py.len (files a) ->
  Py.index (files a) (selected_idx a) = Some file ->
  full_path file = PosixPath.join (current_path a) (name file) ->
  Py.contains (name file) "/" = false ->
  abspath w path = Returns p ->
  exists a1 a2,
    cut_file w a = Done a1 /\
    a2 = navigate_to w path a1 /\
    current_path a2 = p /\
    clipboard a2 = [full_path file] /\
    paste_files w a2 =
    match os_rename w (full_path file) (PosixPath.join p (name file)) with
    | Returns w' =>
        (w', refresh_files w'
               (set_clipboard []
                  (show_message w' ("Moved: " +++ name file) false a2)))
    | Raises e =>
        (w, refresh_files w
              (set_clipboard [] (show_message w ("Error: " +++ e) true a2)))
    end /\
    clipboard (snd (paste_files w a2)) = [] /\
    current_path (snd (paste_files w a2)) = p.
Proof.
  intros Hlt Hidx Hfp Hname Habs.
  assert (Hltb : (selected_idx a <? Py.len (files a)) = true)
    by now apply Z.ltb_lt.
  assert (Hbase : PosixPath.basename (full_path file) = name file)
    by (rewrite Hfp; now apply basename_join).
  eexists. eexists. unfold cut_file. rewrite Hltb, Hidx.
  split; [reflexivity|]. split; [reflexivity|].
  match goal with
  | |- context [navigate_to w path ?x] =>
      destruct (navigate_to_fields w path p x Habs)
        as (Hcur & Hclip & Hcut & _ & _);
      set (a2 := navigate_to w path x) in *
  end.
  cbn [clipboard clipboard_is_cut show_message set_clipboard_is_cut
       set_clipboard] in Hclip, Hcut.
  split; [exact Hcur|]. split; [exact Hclip|].
  assert (Hpaste :
    paste_files w a2 =
    match os_rename w (full_path file) (PosixPath.join p (name file)) with
    | Returns w' =>
        (w', refresh_files w'
               (set_clipboard []
                  (show_message w' ("Moved: " +++ name file) false a2)))
    | Raises e =>
        (w, refresh_files w
              (set_clipboard [] (show_message w ("Error: " +++ e) true a2)))
    end).
  { unfold paste_files. rewrite Hclip. cbn [fold_left]. unfold paste_one.
    rewrite Hcut, Hcur, Hbase. now destruct (os_rename w _ _). }
  split; [exact Hpaste|]. rewrite Hpaste.
  destruct (os_rename w _ _); cbn [snd];
    rewrite refresh_files_clipboard, refresh_files_current_path;
    split; [reflexivity | exact Hcur | reflexivity | exact Hcur].
Qed.

(** X22 - [:hdn] twice: the hidden flag is back, the file system was not
    touched, and the listing is the one a plain refresh gives. *)
Theorem hdn_twice (s : Sys W) :
  command (app s) = "hdn" ->
  exists s1 s2,
    execute_command s = Done s1 /\
    execute_command s1 = Done s2 /\
    show_hidden (app s1) = negb (show_hidden (app s)) /\
    show_hidden (app s2) = show_hidden (app s) /\
    world s2 = world s /\
    files (app s2) = files (refresh_files (world s) (app s)) /\
    selected_idx (app s2) = selected_idx (app s) /\
    message (app s2)
    = "Hidden files: " +++ (if show_hidden (app s) then "ON" else "OFF").
Proof.
  intros Hcmd.
  assert (Hexec : forall s0 : Sys W,
             command (app s0) = "hdn" ->
             execute_command s0
             = Done (with_app s0
                       (show_message (world s0)
                          ("Hidden files: "
                           +++ (if negb (show_hidden (app s0))
                                then "ON" else "OFF"))
                          false
                          (refresh_files (world s0)
                             (set_show_hidden (negb (show_hidden (app s0)))
                                              (app s0)))))).
  { intros s0 Hs0. unfold execute_command. rewrite Hs0.
    cbn -[refresh_files]. now rewrite refresh_files_show_hidden. }
  eexists. eexists. split; [apply (Hexec s Hcmd)|].
  split.
  { apply Hexec. cbn [app with_app command show_message].
    destruct (refresh_files_command (world s)
                (set_show_hidden (negb (show_hidden (app s))) (app s)))
      as [_ ->]. exact Hcmd. }
  cbn [app with_app world show_hidden show_message selected_idx files message].
  rewrite !refresh_files_show_hidden, !refresh_files_selected_idx.
  cbn [show_hidden set_show_hidden selected_idx].
  rewrite negb_involutive.
  repeat split.
  - apply refresh_files_files_ext; [|reflexivity].
    cbn [current_path set_show_hidden show_message].
    rewrite refresh_files_current_path. reflexivity.
  - cbn [selected_idx show_message].
    rewrite refresh_files_selected_idx. reflexivity.
Qed.

(** X23 - Away from the root a delete never leaves the selection outside the
    listing: a valid index stays valid, whether the entry was removed,
    refused, or the removal failed. *)
Theorem delete_file_keeps_index (w : W) (a : FkFiles) (w' : W) (a' : FkFiles) :
  current_path a <> "/" ->
  0 <= selected_idx a < Py.len (files a) ->
  delete_file w a = Done (w', a') ->
  0 <= selected_idx a' < Py.len (files a') /\
  current_path a' = current_path a.
Proof.
  intros Hroot Hsel Hd. unfold delete_file in Hd.
  assert (Hfin : forall w1 msg,
             let a1 := refresh_files w1 (show_message w1 msg false a) in
             let a2 := set_selected_idx
                         (Z.min (selected_idx a1) (Py.len (files a1) - 1)) a1 in
             0 <= selected_idx a2 < Py.len (files a2) /\
             current_path a2 = current_path a).
  { intros w1 msg. cbv zeta. cbn [selected_idx files current_path set_selected_idx].
    rewrite refresh_files_selected_idx, refresh_files_current_path.
    cbn [selected_idx current_path show_message].
    destruct (refresh_files_coherent w1 (show_message w1 msg false a))
      as [_ Hshape].
    rewrite refresh_files_current_path in Hshape.
    destruct (Hshape Hroot) as [rest ->].
    unfold Py.len. cbn [List.length]. split; [lia | reflexivity]. }
  destruct (selected_idx a >=? Py.len (files a)).
  { injection Hd as <- <-. auto. }
  destruct (Py.index (files a) (selected_idx a)) as [file|]; [|discriminate].
  destruct (String.eqb (name file) "..").
  { injection Hd as <- <-. auto. }
  destruct (is_dir file).
  - destruct (os_listdir w (full_path file)) as [l|e].
    + destruct (Py.len l =? 0).
      * destruct (os_rmdir w (full_path file)) as [w1|e];
          injection Hd as <- <-; [apply Hfin | auto].
      * injection Hd as <- <-. auto.
    + injection Hd as <- <-. auto.
  - destruct (os_unlink w (full_path file)) as [w1|e];
      injection Hd as <- <-; [apply Hfin | auto].
Qed.

End Composition.

Lemma paste_in_place_targets_source_witness :
  let a := set_selected_idx 3 Examples.at_home in
  let file := mkEntry "readme.txt" false 120 1700000000 "-rw-r--r--"
                      "/home/u/readme.txt" in
  Py.index (files a) (selected_idx a) = Some file /\
  full_path file = PosixPath.join (current_path a) (name file) /\
  exists a1,
    copy_file Examples.home_world a = Done a1 /\
    clipboard a1 = ["/home/u/readme.txt"] /\
    PosixPath.join (current_path a1) (PosixPath.basename "/home/u/readme.txt")
    = "/home/u/readme.txt".
Proof.
  cbv zeta. split; [reflexivity|]. split; [reflexivity|].
  destruct (paste_in_place_targets_source Examples.home_world
              (set_selected_idx 3 Examples.at_home)
              (mkEntry "readme.txt" false 120 1700000000 "-rw-r--r--"
                       "/home/u/readme.txt") false)
    as (a1 & Hcopy & Hclip & _); try reflexivity.
  exists a1. split; [exact Hcopy|]. split; [exact Hclip|].
  cbn in Hcopy. injection Hcopy as <-. reflexivity.
Defined.

Lemma cut_navigate_paste_witness :
  let a := set_selected_idx 3 Examples.at_home in
  let file := mkEntry "readme.txt" false 120 1700000000 "-rw-r--r--"
                      "/home/u/readme.txt" in
  Py.index (files a) (selected_idx a) = Some file /\
  abspath Examples.home_world "/tmp" = Returns "/tmp" /\
  exists a1 a2,
    cut_file Examples.home_world a = Done a1 /\
    a2 = navigate_to Examples.home_world "/tmp" a1 /\
    message (snd (paste_files Examples.home_world a2)) = "Moved: readme.txt" /\
    map name (files (snd (paste_files Examples.home_world a2)))
    = [".."; "readme.txt"] /\
    os_path_isfile (fst (paste_files Examples.home_world a2))
                   "/home/u/readme.txt" = false /\
    clipboard (snd (paste_files Examples.home_world a2)) = [].
Proof.
  cbv zeta. split; [reflexivity|]. split; [reflexivity|].
  destruct (cut_navigate_paste Examples.home_world
              (set_selected_idx 3 Examples.at_home)
              (mkEntry "readme.txt" false 120 1700000000 "-rw-r--r--"
                       "/home/u/readme.txt") "/tmp" "/tmp")
    as (a1 & a2 & Hcut & Ha2 & _ & _ & _ & Hclip & _); try reflexivity.
  exists a1, a2. split; [exact Hcut|]. split; [exact Ha2|].
  split; [|split; [|split; [|exact Hclip]]];
    cbn in Hcut; injection Hcut as <-; subst a2; vm_compute; reflexivity.
Defined.

Lemma hdn_twice_witness :
  let s := mkSys Examples.home_world (MemFS.terminal [])
                 (set_command "hdn" Examples.at_home) in
  exists s1 s2,
    execute_command s = Done s1 /\
    execute_command s1 = Done s2 /\
    Py.len (files (app s1)) = 5 /\
    files (app s2) = files Examples.at_home /\
    show_hidden (app s2) = false.
Proof.
  cbv zeta.
  destruct (hdn_twice (mkSys Examples.home_world (MemFS.terminal [])
                             (set_command "hdn" Examples.at_home)) eq_refl)
    as (s1 & s2 & H1 & H2 & _ & Hh & _ & Hfiles & _).
  exists s1, s2. split; [exact H1|]. split; [exact H2|].
  split; [|split; [|exact Hh]].
  - vm_compute in H1. injection H1 as <-. reflexivity.
  - rewrite Hfiles. vm_compute. reflexivity.
Defined.

Lemma delete_file_keeps_index_witness :
  let a := set_selected_idx 3 Examples.at_home in
  0 <= selected_idx a < Py.len (files a) /\
  exists w' a',
    delete_file Examples.home_world a = Done (w', a') /\
    map name (files a') = [".."; "docs"; "secret"] /\
    selected_idx a' = 2 /\
    0 <= selected_idx a' < Py.len (files a').
Proof.
  cbv zeta. split; [vm_compute; split; [discriminate | reflexivity]|].
  eexists. eexists. split; [vm_compute; reflexivity|].
  split; [reflexivity|]. split; [reflexivity|].
  eapply (delete_file_keeps_index Examples.home_world
            (set_selected_idx 3 Examples.at_home)).
  - discriminate.
  - vm_compute. split; [discriminate | reflexivity].
  - vm_compute. reflexivity.
Defined.

(* ================================================================= *)
(** ** Into a directory and back *)

Lemma split_slash_go_plain : forall c cur,
  Py.contains c "/" = false -> Py.split_slash_go c cur = [cur +++ c].
Proof.
  induction c as [|x c IH]; intros cur Hc; cbn [Py.split_slash_go].
  - now rewrite append_nil_r.
  - rewrite contains_slash_cons in Hc. apply orb_false_elim in Hc.
    destruct Hc as [Hx Hc]. rewrite Ascii.eqb_sym in Hx. rewrite Hx.
    rewrite IH by exact Hc. now rewrite append_assoc.
Qed.

Lemma split_slash_go_app : forall a b cur,
  Py.split_slash_go (a +++ String "/" b) cur
  = Py.split_slash_go a cur ++ Py.split_slash_go b "".
Proof.
  induction a as [|x a IH]; intros b cur; cbn [String.append Py.split_slash_go].
  - reflexivity.
  - destruct (Ascii.eqb x "/"); rewrite IH; reflexivity.
Qed.

Lemma split_slash_join : forall l,
  l <> [] ->
  Forall (fun c => Py.contains c "/" = false) l ->
  Py.split_slash (Py.join "/" l) = l.
Proof.
  unfold Py.split_slash, Py.join.
  induction l as [|a l IH]; intros Hne Hall; [congruence|].
  inversion Hall as [|a' l' Ha Hl]; subst.
  destruct l as [|b l].
  - cbn [String.concat]. now rewrite split_slash_go_plain.
  - change (String.concat "/" (a :: b :: l))
      with (a +++ String "/" (String.concat "/" (b :: l))).
    rewrite split_slash_go_app, split_slash_go_plain by exact Ha.
    rewrite IH by (discriminate || exact Hl). reflexivity.
Qed.

Lemma split_slash_go_slashes : forall k s,
  Py.split_slash_go (PosixPath.slashes k +++ s) ""
  = repeat "" k ++ Py.split_slash_go s "".
Proof.
  induction k as [|k IH]; intros s; [reflexivity|].
  cbn [PosixPath.slashes String.append Py.split_slash_go repeat].
  change (Ascii.eqb "/" "/") with true. cbv iota. now rewrite IH.
Qed.

Lemma fold_norm_step_empty k : forall j l st,
  fold_left (PosixPath.norm_step k) (repeat "" j ++ l) st
  = fold_left (PosixPath.norm_step k) l st.
Proof.
  induction j as [|j IH]; intros l st; [reflexivity|].
  cbn [repeat List.app fold_left]. now rewrite IH.
Qed.

Lemma norm_step_proper k st c :
  proper_component c -> PosixPath.norm_step k st c = c :: st.
Proof.
  intros (H1 & H2 & H3 & _). unfold PosixPath.norm_step.
  apply String.eqb_neq in H1, H2, H3. now rewrite H1, H2, H3.
Qed.

Lemma fold_norm_step_proper k : forall l st,
  Forall proper_component l ->
  fold_left (PosixPath.norm_step k) l st = rev l ++ st.
Proof.
  induction l as [|c l IH]; intros st Hall; [reflexivity|].
  inversion Hall; subst. cbn [fold_left rev].
  rewrite norm_step_proper by assumption. rewrite IH by assumption.
  now rewrite <- app_assoc.
Qed.

Lemma norm_step_dotdot k st n :
  (0 < k)%nat -> n <> ".." -> PosixPath.norm_step k (n :: st) ".." = st.
Proof.
  intros Hk Hn. unfold PosixPath.norm_step. cbn.
  apply String.eqb_neq in Hn. rewrite Hn.
  destruct k; [lia|]. reflexivity.
Qed.

Lemma join_snoc : forall l b,
  l <> [] -> Py.join "/" (l ++ [b]) = Py.join "/" l +++ "/" +++ b.
Proof.
  unfold Py.join. induction l as [|a l IH]; intros b Hne; [congruence|].
  destruct l as [|a2 l].
  - reflexivity.
  - change (String.concat "/" ((a :: a2 :: l) ++ [b]))
      with (a +++ "/" +++ String.concat "/" ((a2 :: l) ++ [b])).
    rewrite IH by discriminate.
    change (String.concat "/" (a :: a2 :: l))
      with (a +++ "/" +++ String.concat "/" (a2 :: l)).
    now rewrite !append_assoc.
Qed.

Lemma ends_with_slash_app : forall a b,
  b <> "" -> Py.ends_with_slash (a +++ b) = Py.ends_with_slash b.
Proof.
  induction a as [|c a IH]; intros b Hb; [reflexivity|].
  cbn [String.append Py.ends_with_slash].
  destruct (a +++ b) eqn:Hab.
  - destruct a; [cbn in Hab; congruence | discriminate].
  - rewrite <- Hab. now apply IH.
Qed.

Lemma ends_with_slash_plain : forall c,
  Py.contains c "/" = false -> Py.ends_with_slash c = false.
Proof.
  induction c as [|x c IH]; intros Hc; [reflexivity|].
  rewrite contains_slash_cons in Hc. apply orb_false_elim in Hc.
  destruct Hc as [Hx Hc]. cbn [Py.ends_with_slash].
  destruct c; [now rewrite Ascii.eqb_sym | now apply IH].
Qed.

Lemma join_nonempty : forall l,
  l <> [] -> Forall proper_component l -> Py.join "/" l <> "".
Proof.
  intros [|a l] Hne Hall; [congruence|].
  inversion Hall as [|a' l' (Ha & _) _]; subst.
  unfold Py.join. destruct l; cbn [String.concat].
  - exact Ha.
  - destruct a; [congruence | discriminate].
Qed.

Lemma ends_with_slash_join : forall l,
  l <> [] -> Forall proper_component l ->
  Py.ends_with_slash (Py.join "/" l) = false.
Proof.
  induction l as [|a l IH]; intros Hne Hall; [congruence|].
  inversion Hall as [|a' l' Ha Hl]; subst.
  destruct l as [|b l].
  - apply ends_with_slash_plain. apply Ha.
  - change (Py.join "/" (a :: b :: l))
      with (a +++ String "/" (Py.join "/" (b :: l))).
    rewrite ends_with_slash_app by discriminate.
    assert (Hj : Py.join "/" (b :: l) <> "")
      by (apply join_nonempty; [discriminate | exact Hl]).
    change (String "/" (Py.join "/" (b :: l)))
      with ("/" +++ Py.join "/" (b :: l)).
    rewrite ends_with_slash_app by exact Hj.
    apply IH; [discriminate | exact Hl].
Qed.

Lemma slashes_nonempty k s : (0 < k)%nat -> (PosixPath.slashes k +++ s =? "")%string = false.
Proof. destruct k; [lia|]. reflexivity. Qed.

Lemma normpath_abs (k : nat) (s : string) :
  k = 1%nat \/ k = 2%nat ->
  String.prefix "/" s = false ->
  PosixPath.normpath (PosixPath.slashes k +++ s)
  = PosixPath.slashes k
    +++ Py.join "/" (rev (fold_left (PosixPath.norm_step k)
                                    (Py.split_slash s) [])).
Proof.
  intros Hk Hs. unfold PosixPath.normpath.
  rewrite slashes_nonempty by lia.
  assert (Hinit :
    (if Py.startswith (PosixPath.slashes k +++ s) "/"
     then if Py.startswith (PosixPath.slashes k +++ s) "//"
             && negb (Py.startswith (PosixPath.slashes k +++ s) "///")
          then 2%nat else 1%nat
     else 0%nat) = k).
  { unfold Py.startswith.
    destruct Hk as [-> | ->]; cbn [PosixPath.slashes String.append].
    - rewrite prefix_slash. change (Ascii.eqb "/" "/") with true. cbv iota.
      assert (H2 : String.prefix "//" (String "/" s) = false).
      { cbn [String.prefix]. destruct (ascii_dec "/" "/"); [exact Hs|reflexivity]. }
      now rewrite H2.
    - rewrite prefix_slash. change (Ascii.eqb "/" "/") with true. cbv iota.
      assert (H2 : String.prefix "//" (String "/" (String "/" s)) = true).
      { cbn [String.prefix]. destruct (ascii_dec "/" "/") as [_|Hx]; [|congruence].
        now destruct s. }
      assert (H3 : String.prefix "///" (String "/" (String "/" s)) = false).
      { cbn [String.prefix]. destruct (ascii_dec "/" "/") as [_|Hx]; [|reflexivity].
        destruct s as [|c s]; [reflexivity|].
        rewrite prefix_slash in Hs. cbn [String.prefix].
        destruct (ascii_dec "/" c) as [<-|Hc]; [discriminate|reflexivity]. }
      now rewrite H2, H3. }
  rewrite Hinit. unfold Py.split_slash.
  rewrite split_slash_go_slashes, fold_norm_step_empty.
  rewrite slashes_nonempty by lia. reflexivity.
Qed.

Lemma prefix_slash_plain b :
  Py.contains b "/" = false -> String.prefix "/" b = false.
Proof.
  destruct b as [|c b]; [reflexivity|]. intros Hb.
  rewrite contains_slash_cons in Hb. apply orb_false_elim in Hb.
  rewrite prefix_slash. tauto.
Qed.

Lemma prefix_slash_join a l :
  a <> "" -> Py.contains a "/" = false ->
  String.prefix "/" (Py.join "/" (a :: l)) = false.
Proof.
  intros Ha Hc. destruct a as [|c a]; [congruence|].
  rewrite contains_slash_cons in Hc. apply orb_false_elim in Hc.
  unfold Py.join. destruct l; cbn [String.concat String.append];
    rewrite prefix_slash; tauto.
Qed.

Lemma proper_plain l :
  Forall proper_component l -> Forall (fun c => Py.contains c "/" = false) l.
Proof. intros Hall. eapply Forall_impl; [|exact Hall]. intros c Hc. apply Hc. Qed.

(** [normpath] leaves a normal absolute path as it is. *)
Lemma normpath_canonical k l :
  k = 1%nat \/ k = 2%nat -> Forall proper_component l ->
  PosixPath.normpath (canonical_path k l) = canonical_path k l.
Proof.
  intros Hk Hall. unfold canonical_path.
  destruct l as [|a l].
  - rewrite normpath_abs by (exact Hk || reflexivity). reflexivity.
  - inversion Hall as [|a' l' Ha Hl]; subst.
    rewrite normpath_abs;
      [| exact Hk | apply prefix_slash_join; apply Ha].
    rewrite split_slash_join by (discriminate || now apply proper_plain).
    rewrite fold_norm_step_proper by exact Hall.
    now rewrite app_nil_r, rev_involutive.
Qed.

(** ... and [name/..] behind it is cancelled. *)
Lemma normpath_child_parent k l n :
  k = 1%nat \/ k = 2%nat -> Forall proper_component l -> proper_component n ->
  PosixPath.normpath (canonical_path k (l ++ [n; ".."])) = canonical_path k l.
Proof.
  intros Hk Hall Hn. unfold canonical_path.
  assert (Hplain : Forall (fun c => Py.contains c "/" = false) (l ++ [n; ".."])).
  { apply Forall_app. split; [now apply proper_plain|].
    constructor; [apply Hn|]. constructor; [reflexivity|constructor]. }
  assert (Hhead : String.prefix "/" (Py.join "/" (l ++ [n; ".."])) = false).
  { destruct l as [|a l].
    - apply prefix_slash_join; apply Hn.
    - inversion Hall as [|a' l' Ha Hl]; subst.
      apply prefix_slash_join; apply Ha. }
  rewrite normpath_abs by assumption.
  rewrite split_slash_join by (exact Hplain || now destruct l).
  rewrite fold_left_app, (fold_norm_step_proper k l []) by exact Hall.
  cbn [fold_left]. rewrite (norm_step_proper k _ n) by exact Hn.
  rewrite norm_step_dotdot by (destruct Hk; subst; try lia; apply Hn).
  now rewrite app_nil_r, rev_involutive.
Qed.

Lemma ends_with_slash_slashes k :
  (0 < k)%nat -> Py.ends_with_slash (PosixPath.slashes k) = true.
Proof.
  induction k as [|k IH]; [lia|]. intros _.
  destruct k as [|k]; [reflexivity|].
  cbn [PosixPath.slashes Py.ends_with_slash] in *. apply IH. lia.
Qed.

(** Joining a name to a normal path appends a component. *)
Lemma join_canonical k l b :
  (0 < k)%nat -> Forall proper_component l ->
  String.prefix "/" b = false ->
  PosixPath.join (canonical_path k l) b = canonical_path k (l ++ [b]).
Proof.
  intros Hk Hall Hb. unfold PosixPath.join, Py.startswith, canonical_path.
  rewrite Hb, slashes_nonempty by exact Hk. cbn [orb].
  destruct l as [|a l].
  - cbn [Py.join String.concat List.app]. rewrite append_nil_r.
    now rewrite ends_with_slash_slashes.
  - assert (Hj : Py.join "/" (a :: l) <> "")
      by (apply join_nonempty; [discriminate | exact Hall]).
    rewrite ends_with_slash_app by exact Hj.
    rewrite ends_with_slash_join by (discriminate || exact Hall).
    rewrite join_snoc by discriminate. now rewrite append_assoc.
Qed.

Lemma canonical_startswith k l :
  (0 < k)%nat -> Py.startswith (canonical_path k l) "/" = true.
Proof.
  destruct k; [lia|]. intros _. unfold Py.startswith, canonical_path.
  cbn [PosixPath.slashes String.append]. now rewrite prefix_slash.
Qed.

Lemma canonical_child_not_root k l n :
  k = 1%nat \/ k = 2%nat -> Forall proper_component l -> proper_component n ->
  canonical_path k (l ++ [n]) <> "/".
Proof.
  intros Hk Hall Hn Heq. unfold canonical_path in Heq.
  assert (Hj : Py.join "/" (l ++ [n]) <> "").
  { apply join_nonempty; [now destruct l|].
    apply Forall_app. split; [exact Hall | now constructor]. }
  destruct Hk as [-> | ->]; cbn [PosixPath.slashes String.append] in Heq.
  - injection Heq as Heq. congruence.
  - discriminate.
Qed.

Section Parent.

Context {W : Type} `{OS W} `{PyStr}.

Lemma refresh_files_top_idx (w : W) a :
  top_idx (refresh_files w a) = top_idx a.
Proof.
  unfold refresh_files. now destruct (os_listdir w (current_path a)).
Qed.

Lemma abspath_canonical (w : W) k l :
  k = 1%nat \/ k = 2%nat -> Forall proper_component l ->
  abspath w (canonical_path k l) = Returns (canonical_path k l).
Proof.
  intros Hk Hall. unfold abspath.
  rewrite canonical_startswith by (destruct Hk; lia).
  now rewrite normpath_canonical.
Qed.

(** X24 - Into a directory and back: after [navigate_to] has entered the entry
    [n] of the directory [p] (a normal absolute path), [current_path] is
    [p/n] as the listing showed it, and the key [h] leads back to [p]
    itself with the selection at the top. *)
Theorem enter_then_parent (s : Sys W) (a0 : FkFiles) (k : nat)
        (l : list string) (n : string) (rest : list Z) :
  k = 1%nat \/ k = 2%nat ->
  Forall proper_component l ->
  proper_component n ->
  app s = navigate_to (world s) (PosixPath.join (canonical_path k l) n) a0 ->
  command_mode a0 = false ->
  keys (term s) = Py.ord "h" :: rest ->
  current_path (app s) = PosixPath.join (canonical_path k l) n /\
  exists a',
    handle_input s = Done (mkSys (world s) (set_keys rest (term s)) a') /\
    current_path a' = canonical_path k l /\
    selected_idx a' = 0 /\ top_idx a' = 0.
Proof.
  intros Hk Hall Hn Happ Hmode Hkeys.
  assert (Hk0 : (0 < k)%nat) by (destruct Hk; lia).
  assert (Hall' : Forall proper_component (l ++ [n])).
  { apply Forall_app. split; [exact Hall | now constructor]. }
  assert (Hchild : PosixPath.join (canonical_path k l) n
                   = canonical_path k (l ++ [n])).
  { apply join_canonical; auto. apply prefix_slash_plain. apply Hn. }
  assert (Hcur : current_path (app s) = canonical_path k (l ++ [n])).
  { rewrite Happ, Hchild.
    apply (navigate_to_fields (world s) _ _ a0).
    now apply abspath_canonical. }
  split; [now rewrite Hchild|].
  assert (Hm : command_mode (app s) = false).
  { rewrite Happ. unfold navigate_to.
    destruct (abspath (world s) _); [|exact Hmode].
    now destruct (refresh_files_command (world s)
                    (set_top_idx 0 (set_selected_idx 0 (set_current_path a a0))))
      as [-> _]. }
  assert (Hup : abspath (world s) (PosixPath.join (current_path (app s)) "..")
                = Returns (canonical_path k l)).
  { rewrite Hcur, join_canonical by (auto; reflexivity).
    rewrite <- app_assoc. cbn [List.app]. unfold abspath.
    rewrite canonical_startswith by exact Hk0.
    now rewrite normpath_child_parent. }
  exists (navigate_to (world s) (PosixPath.join (current_path (app s)) "..")
                      (app s)).
  split.
  - destruct s as [w [ks ms L my mx] a]. cbn [app term world keys] in *.
    subst ks. unfold handle_input, getch. cbn [term keys app world].
    cbn -[Z.add Z.sub Z.max navigate_to PosixPath.join]. rewrite Hm.
    unfold normal_key. cbn -[Z.add Z.sub Z.max navigate_to PosixPath.join].
    assert (Hroot : (current_path a =? "/")%string = false).
    { apply String.eqb_neq. rewrite Hcur.
      now apply canonical_child_not_root. }
    now rewrite Hroot.
  - destruct (navigate_to_fields (world s) _ _ (app s) Hup)
      as (Hc & _ & _ & Hs & _).
    split; [exact Hc|]. split; [exact Hs|].
    unfold navigate_to. rewrite Hup. now rewrite refresh_files_top_idx.
Qed.

End Parent.

Lemma enter_then_parent_witness :
  let s := mkSys Examples.home_world (MemFS.terminal [Py.ord "h"])
                 (navigate_to Examples.home_world "/home/u/docs"
                              Examples.at_home) in
  Forall proper_component ["home"; "u"] /\ proper_component "docs" /\
  current_path (app s) = "/home/u/docs" /\
  exists a',
    handle_input s = Done (mkSys (world s) (set_keys [] (term s)) a') /\
    current_path a' = "/home/u" /\
    files a' = files Examples.at_home.
Proof.
  cbv zeta.
  assert (Hl : Forall proper_component ["home"; "u"]).
  { repeat constructor; discriminate. }
  assert (Hn : proper_component "docs").
  { repeat split; discriminate. }
  split; [exact Hl|]. split; [exact Hn|]. split; [reflexivity|].
  destruct (enter_then_parent
              (mkSys Examples.home_world (MemFS.terminal [Py.ord "h"])
                     (navigate_to Examples.home_world "/home/u/docs"
                                  Examples.at_home))
              Examples.at_home 1 ["home"; "u"] "docs" [])
    as (_ & a' & Hstep & Hcur & _);
    [now left | exact Hl | exact Hn | reflexivity | reflexivity | reflexivity |].
  exists a'. split; [exact Hstep|]. split; [exact Hcur|].
  vm_compute in Hstep. injection Hstep as <-. reflexivity.
Defined.

(* ================================================================= *)
(** ** Cancelling, searching from the keyboard, and complete listings *)

Section Typing.

Context {W : Type} `{OS W} `{PyStr}.

(** X13 - Escape cancels: from normal mode with an empty buffer, [:] (or [/]),
    any printable characters and Escape leave the file system and
    every attribute of the application as they were. *)
Theorem typed_then_escape_cancels (s : Sys W) (lead : Z) (chars : list ascii)
        (rest : list Z) :
  command_mode (app s) = false ->
  command (app s) = "" ->
  lead = Py.ord ":" \/ lead = Py.ord "/" ->
  Forall printable chars ->
  keys (term s) = lead :: map Py.ord chars ++ 27 :: rest ->
  main_loop (S (S (List.length chars))) s
  = Done (mkSys (world s) (set_keys rest (term s)) (app s)).
Proof.
  intros Hmode Hcmd Hlead Hall Hkeys.
  set (c0 := if lead =? Py.ord ":" then "" else "/").
  set (s1 := mkSys (world s) (set_keys (map Py.ord chars ++ 27 :: rest) (term s))
                   (set_command c0 (set_command_mode true (app s)))).
  assert (Hone : main_loop 1 s = Done s1).
  { destruct s as [w [ks ms L my mx] a]. cbn [app term world keys] in *.
    subst ks. cbn [main_loop]. unfold handle_input, getch.
    cbn [term keys app world]. subst s1 c0.
    destruct Hlead as [-> | ->]; cbn -[Z.add Z.sub Z.max]; rewrite Hmode;
      reflexivity. }
  replace (S (S (List.length chars)))
    with (1 + (List.length chars + 1))%nat by lia.
  rewrite (main_loop_app 1 _ s s1 Hone).
  rewrite (main_loop_app _ 1 s1 _
             (main_loop_printable chars s1 (27 :: rest) eq_refl Hall eq_refl)).
  cbn [main_loop]. unfold handle_input, getch.
  cbn [term keys set_keys app world s1].
  change (27 =? KEY_MOUSE) with false. cbv iota.
  cbn [command_mode set_command set_command_mode]. unfold command_key.
  change (27 =? 27) with true. cbv iota.
  destruct s as [w [ks ms L my mx] a]. cbn in Hmode, Hcmd |- *.
  destruct a. cbn in Hmode, Hcmd |- *. now subst.
Qed.

(** X12 - Searching from the keyboard: [/], a printable pattern and Enter run
    [search_file] on exactly that pattern and return to normal mode. *)
Theorem typed_search_runs (s : Sys W) (chars : list ascii) (rest : list Z) :
  command_mode (app s) = false ->
  Forall printable chars ->
  keys (term s) = Py.ord "/" :: map Py.ord chars ++ 10 :: rest ->
  main_loop (S (S (List.length chars))) s
  = Done (mkSys (world s) (set_keys rest (term s))
                (set_command ""
                   (set_command_mode false
                      (search_file (world s) (string_of_list_ascii chars)
                                   (app s))))).
Proof.
  intros Hmode Hall Hkeys.
  set (s1 := mkSys (world s) (set_keys (map Py.ord chars ++ 10 :: rest) (term s))
                   (set_command "/" (set_command_mode true (app s)))).
  assert (Hone : main_loop 1 s = Done s1).
  { destruct s as [w [ks ms L my mx] a]. cbn [app term world keys] in *.
    subst ks. cbn [main_loop]. unfold handle_input, getch.
    cbn [term keys app world]. subst s1.
    cbn -[Z.add Z.sub Z.max]. rewrite Hmode. reflexivity. }
  replace (S (S (List.length chars)))
    with (1 + (List.length chars + 1))%nat by lia.
  rewrite (main_loop_app 1 _ s s1 Hone).
  rewrite (main_loop_app _ 1 s1 _
             (main_loop_printable chars s1 (10 :: rest) eq_refl Hall eq_refl)).
  cbn [main_loop]. unfold handle_input, getch.
  cbn [term keys set_keys app world s1].
  change (10 =? KEY_MOUSE) with false. cbv iota.
  cbn [command_mode set_command set_command_mode]. unfold command_key.
  change (10 =? 27) with false.
  change ((10 =? KEY_BACKSPACE) || (10 =? 127)) with false.
  change (10 =? 10) with true. cbv iota.
  unfold execute_command.
  cbn [app command set_command set_command_mode String.append world
       Py.startswith String.prefix Py.drop_first].
  destruct (ascii_dec "/" "/") as [_|Hx]; [|congruence].
  assert (Hp : forall x, String.prefix "" x = true) by (intros []; reflexivity).
  rewrite Hp.
  unfold search_file.
  cbn [files set_command set_command_mode].
  destruct s as [w [ks ms L my mx] a]. cbn [world term app set_keys keys].
  destruct (search_loop _ (files a) 0 0); destruct a; reflexivity.
Qed.

(** X5 - Nothing visible is lost: every name that [os.listdir] returns, that is
    not filtered as hidden and whose [os.stat] succeeds is in the
    refreshed listing, with the size, permission string and kind that the
    system reports; a name whose [os.stat] fails is only skipped. *)
Theorem refresh_files_complete (w : W) (a : FkFiles) (names : list string)
        (n : string) (si : stat_result) :
  os_listdir w (current_path a) = Returns names ->
  In n names ->
  show_hidden a = true \/ Py.startswith n "." = false ->
  os_stat w (PosixPath.join (current_path a) n) = Returns si ->
  In (mkEntry n (os_path_isdir w (PosixPath.join (current_path a) n))
              (st_size si) (st_mtime si) (get_mode_str (st_mode si))
              (PosixPath.join (current_path a) n))
     (files (refresh_files w a)).
Proof.
  intros Hls Hin Hvis Hst. unfold refresh_files. rewrite Hls.
  cbn [files set_files].
  apply (Permutation_in _ (Permutation_sym (slice_sort_perm _))).
  apply in_or_app. right.
  assert (Hfilter : negb (show_hidden a) && Py.startswith n "." = false).
  { destruct Hvis as [-> | ->]; [reflexivity | apply andb_false_r]. }
  clear Hls Hvis. induction names as [|m names IH]; [destruct Hin|].
  cbn [scan_entries]. destruct Hin as [->|Hin].
  - rewrite Hfilter, Hst. now left.
  - destruct (negb (show_hidden a) && Py.startswith m "."); [now apply IH|].
    destruct (os_stat w (PosixPath.join (current_path a) m));
      [right|]; now apply IH.
Qed.

End Typing.

Lemma typed_then_escape_cancels_witness :
  let s := mkSys Examples.home_world
             (MemFS.terminal [Py.ord ":"; Py.ord "q"; 27; Py.ord "j"])
             Examples.at_home in
  Forall printable ["q"%char] /\
  main_loop 3 s
  = Done (mkSys Examples.home_world (MemFS.terminal [Py.ord "j"])
                Examples.at_home).
Proof.
  cbv zeta.
  assert (Hp : Forall printable ["q"%char]).
  { constructor; [|constructor]. unfold printable. vm_compute.
    split; discriminate. }
  split; [exact Hp|].
  apply (typed_then_escape_cancels
           (mkSys Examples.home_world
              (MemFS.terminal [Py.ord ":"; Py.ord "q"; 27; Py.ord "j"])
              Examples.at_home)
           (Py.ord ":") ["q"%char] [Py.ord "j"]);
    [reflexivity | reflexivity | now left | exact Hp | reflexivity].
Defined.

Lemma typed_search_runs_witness :
  let s := mkSys Examples.home_world
             (MemFS.terminal [Py.ord "/"; Py.ord "R"; Py.ord "e"; 10])
             Examples.at_home in
  Forall printable ["R"%char; "e"%char] /\
  exists a',
    main_loop 4 s = Done (mkSys Examples.home_world (MemFS.terminal []) a') /\
    selected_idx a' = 2 /\
    message a' = "Found 2 matches" /\
    command_mode a' = false.
Proof.
  cbv zeta.
  assert (Hp : Forall printable ["R"%char; "e"%char]).
  { repeat constructor; vm_compute; discriminate. }
  split; [exact Hp|].
  eexists. split.
  - apply (typed_search_runs
             (mkSys Examples.home_world
                (MemFS.terminal [Py.ord "/"; Py.ord "R"; Py.ord "e"; 10])
                Examples.at_home)
             ["R"%char; "e"%char] []); [reflexivity | exact Hp | reflexivity].
  - repeat split.
Defined.

Lemma refresh_files_complete_witness :
  os_listdir Examples.home_world "/home/u"
  = Returns ["readme.txt"; "docs"; ".hid"; "secret"] /\
  os_stat Examples.home_world "/home/u/secret" = Returns (mkStat 4096 1700000000 16384) /\
  In (mkEntry "secret" true 4096 1700000000 "d---------" "/home/u/secret")
     (files (refresh_files Examples.home_world (MemFS.fresh "/home/u"))).
Proof.
  split; [reflexivity|]. split; [reflexivity|].
  assert (Hc := refresh_files_complete Examples.home_world
                  (MemFS.fresh "/home/u")
                  ["readme.txt"; "docs"; ".hid"; "secret"] "secret"
                  (mkStat 4096 1700000000 16384) eq_refl
                  (or_intror (or_intror (or_intror (or_introl eq_refl))))
                  (or_intror eq_refl) eq_refl).
  exact Hc.
Defined.
